(** * Lighthouse 2 render cores: host-side control logic

    A shallow embedding of the host code of two render cores,
    [lib/RenderCore_Optix7Filter/rendercore.cpp] and
    [lib/RenderCore_OptixPrime_PBRT/rendercore.cpp]: target and instance
    management, render settings, frame orchestration and the wavefront
    loop.  Device kernels, the intersection service and the declarations
    of [core_settings.h] / [rendercore.h] are not part of these files; they
    enter the development through the [Externals] interfaces below. *)

From Stdlib Require Import ZArith Lia Bool List.
From Stdlib Require Import Floats.SpecFloat.
From stdpp Require Import base tactics option list strings.

Local Open Scope Z_scope.

(** ** Machine integers and floats *)

(** A value stored in a 32-bit [uint]. *)
Definition uint32 (z : Z) : Z := z mod 2 ^ 32.

(** The value of a 32-bit [int] that has the bits of [z].  The [int]
    arithmetic of the source is written with it; where the mathematical
    result is outside the type the source has undefined behaviour, and the
    theorems that depend on such a result assume that it fits. *)
Definition int32 (z : Z) : Z := (z + 2 ^ 31) mod 2 ^ 32 - 2 ^ 31.

(** Conversion of an [int] to [size_t], as done by the usual arithmetic
    conversions when an [int] is compared with [vector::size()]. *)
Definition size_t_of_int (z : Z) : Z := z mod 2 ^ 64.

(** C [float] values.  Only comparisons are performed on the host, so the
    IEEE 754 specification type of the Standard Library is enough. *)
Definition float : Type := spec_float.

(** [a == b] and [a != b] on floats: a NaN differs from everything,
    the two zeros are equal. *)
Definition float_eq (a b : float) : bool := SFeqb a b.
Definition float_ne (a b : float) : bool := negb (SFeqb a b).

Definition float_zero : float := S754_zero false.

(** The literals [0.3f], [0.7f], [0.2f], [0.8f] of the jitter tables. *)
Definition f0_3 : float := S754_finite false 10066330 (-25).
Definition f0_7 : float := S754_finite false 11744051 (-24).
Definition f0_2 : float := S754_finite false 13421773 (-26).
Definition f0_8 : float := S754_finite false 13421773 (-24).

(** ** A state monad that also collects the calls issued

    Host code threads the core object through a sequence of calls into the
    device and the platform.  A computation maps a state to a result, a new
    state and the list of calls it issued, in order. *)

Definition Run (E S A : Type) : Type := S -> A * S * list E.

Global Instance Run_ret {E S} : MRet (Run E S) := fun A a s => (a, s, []).
Global Instance Run_bind {E S} : MBind (Run E S) := fun A B f m s =>
  let '(a, s1, e1) := m s in
  let '(b, s2, e2) := f a s1 in
  (b, s2, e1 ++ e2).

Definition get {E S} : Run E S S := fun s => (s, s, []).
Definition put {E S} (s : S) : Run E S unit := fun _ => (tt, s, []).
Definition modify {E S} (f : S -> S) : Run E S unit := fun s => (tt, f s, []).
Definition emit {E S} (e : E) : Run E S unit := fun s => (tt, s, [e]).
Definition when {E S} (b : bool) (m : Run E S unit) : Run E S unit :=
  if b then m else mret tt.

Definition result {E S A} (r : A * S * list E) : A := r.1.1.
Definition state {E S A} (r : A * S * list E) : S := r.1.2.
Definition calls {E S A} (r : A * S * list E) : list E := r.2.

(** [wp m Q s]: running [m] from [s] ends with a result, a state and a
    list of calls that satisfy [Q]. *)
Definition wp {E S A} (m : Run E S A) (Q : A -> S -> list E -> Prop) (s : S)
  : Prop :=
  Q (result (m s)) (state (m s)) (calls (m s)).

(** ** Types shared by both cores *)

(** [enum Convergence]. *)
Inductive Convergence := Converge | Restart.

Definition Convergence_eqb (a b : Convergence) : bool :=
  match a, b with
  | Converge, Converge | Restart, Restart => true
  | _, _ => false
  end.

(** The [Counters] record shared between host and device.  The host reads
    [extensionRays], [shadowRays], [totalExtensionRays] and the probe
    fields. *)
Record Counters := mkCounters {
  extensionRays : Z;
  shadowRays : Z;
  totalExtensionRays : Z;
  probedInstid : Z;
  probedTriid : Z;
  probedDist : float
}.

Definition set_shadowRays (v : Z) (c : Counters) : Counters :=
  mkCounters (extensionRays c) v (totalExtensionRays c)
             (probedInstid c) (probedTriid c) (probedDist c).

(** Device memory as far as the host can tell it apart: the device copy of
    the counters, the contents of the accumulator, and everything else. *)
Record Device (Acc Mem : Type) := mkDevice {
  d_counters : Counters;
  d_accumulator : Acc;
  d_mem : Mem
}.
Arguments mkDevice {Acc Mem}.
Arguments d_counters {Acc Mem}.
Arguments d_accumulator {Acc Mem}.
Arguments d_mem {Acc Mem}.

(** The three launch phases of [Params]. *)
Inductive Phase := SPAWN_PRIMARY | SPAWN_SECONDARY | SPAWN_SHADOW.

(** Builds the setter of a record projection from the eta-expanded
    constructor of the record. *)
Ltac mk_setter eta proj :=
  let e := eval cbv delta [eta] in eta in
  match eval pattern proj in e with
  | ?g _ => let t := eval cbv beta in (fun v s => g (fun _ => v) s) in exact t
  end.

(** * The Optix7Filter core *)
Module Optix7Filter.

(** Allocation sites of the screen-sized device buffers of [SetTarget]. *)
Inductive BufferSite :=
| connectionBuffer_site | accumulator_site | hitBuffer_site
| pathStateBuffer_site | features_site | shading_site | motion_site
| moments_site | prevMoments_site | prevPixels_site | worldPos_site
| prevWorldPos_site | filteredIN_site | filteredOUT_site
| deltaDepth_site | debugData_site.

(** A [CoreBuffer<T>*]: where it was allocated and its element count.
    The contents live in the device state. *)
Record CoreBuffer := mkBuffer { buf_site : BufferSite; buf_size : Z }.

(** [b->GetSize()]; a null pointer is given size 0. *)
Definition GetSize (b : option CoreBuffer) : Z := from_option buf_size 0 b.

Record Buffers := mkBuffers {
  connectionBuffer : option CoreBuffer;
  accumulator : option CoreBuffer;
  hitBuffer : option CoreBuffer;
  pathStateBuffer : option CoreBuffer;
  features : option CoreBuffer;
  shading : option CoreBuffer;
  motion : option CoreBuffer;
  moments : option CoreBuffer;
  prevMoments : option CoreBuffer;
  prevPixels : option CoreBuffer;
  worldPos : option CoreBuffer;
  prevWorldPos : option CoreBuffer;
  filteredIN : option CoreBuffer;
  filteredOUT : option CoreBuffer;
  deltaDepth : option CoreBuffer;
  debugData : option CoreBuffer
}.

Definition no_buffers : Buffers :=
  mkBuffers None None None None None None None None
            None None None None None None None None.

(** [vars]: the render settings. *)
Record RenderVars := mkVars {
  geometryEpsilon : float;
  clampValue : float;
  filterClampDirect : float;
  filterClampIndirect : float;
  filterEnabled : Z;
  TAAEnabled : Z
}.

Definition eta_RenderVars (v : RenderVars) : RenderVars :=
  mkVars (geometryEpsilon v) (clampValue v) (filterClampDirect v)
         (filterClampIndirect v) (filterEnabled v) (TAAEnabled v).
Definition set_geometryEpsilon : float -> RenderVars -> RenderVars :=
  ltac:(mk_setter eta_RenderVars geometryEpsilon).
Definition set_clampValue : float -> RenderVars -> RenderVars :=
  ltac:(mk_setter eta_RenderVars clampValue).
Definition set_filterClampDirect : float -> RenderVars -> RenderVars :=
  ltac:(mk_setter eta_RenderVars filterClampDirect).
Definition set_filterClampIndirect : float -> RenderVars -> RenderVars :=
  ltac:(mk_setter eta_RenderVars filterClampIndirect).
Definition set_filterEnabled : Z -> RenderVars -> RenderVars :=
  ltac:(mk_setter eta_RenderVars filterEnabled).
Definition set_TAAEnabled : Z -> RenderVars -> RenderVars :=
  ltac:(mk_setter eta_RenderVars TAAEnabled).

(** [coreStats], without the wall-clock timings. *)
Record CoreStats := mkStats {
  stat_totalExtensionRays : Z;
  stat_totalShadowRays : Z;
  stat_totalRays : Z;
  stat_primaryRayCount : Z;
  stat_bounce1RayCount : Z;
  stat_deepRayCount : Z;
  stat_probedInstid : Z;
  stat_probedTriid : Z;
  stat_probedDist : float
}.

Definition eta_CoreStats (c : CoreStats) : CoreStats :=
  mkStats (stat_totalExtensionRays c) (stat_totalShadowRays c)
          (stat_totalRays c) (stat_primaryRayCount c)
          (stat_bounce1RayCount c) (stat_deepRayCount c)
          (stat_probedInstid c) (stat_probedTriid c) (stat_probedDist c).
Definition set_stat_totalExtensionRays : Z -> CoreStats -> CoreStats :=
  ltac:(mk_setter eta_CoreStats stat_totalExtensionRays).
Definition set_stat_totalShadowRays : Z -> CoreStats -> CoreStats :=
  ltac:(mk_setter eta_CoreStats stat_totalShadowRays).
Definition set_stat_totalRays : Z -> CoreStats -> CoreStats :=
  ltac:(mk_setter eta_CoreStats stat_totalRays).
Definition set_stat_primaryRayCount : Z -> CoreStats -> CoreStats :=
  ltac:(mk_setter eta_CoreStats stat_primaryRayCount).
Definition set_stat_bounce1RayCount : Z -> CoreStats -> CoreStats :=
  ltac:(mk_setter eta_CoreStats stat_bounce1RayCount).
Definition set_stat_deepRayCount : Z -> CoreStats -> CoreStats :=
  ltac:(mk_setter eta_CoreStats stat_deepRayCount).
Definition SetProbeInfo (instid triid : Z) (dist : float) (c : CoreStats) : CoreStats :=
  mkStats (stat_totalExtensionRays c) (stat_totalShadowRays c)
          (stat_totalRays c) (stat_primaryRayCount c)
          (stat_bounce1RayCount c) (stat_deepRayCount c) instid triid dist.

(** A [mat4] is sixteen floats; instances keep the first twelve. *)
Definition mat4 : Type := list float.
Definition memcpy12 (m : mat4) : list float := take 12 m.

(** The [OptixInstance] descriptor inside a [CoreInstance]. *)
Record OptixInstance := mkOptixInstance {
  oi_flags : Z;
  oi_instanceId : Z;
  oi_sbtOffset : Z;
  oi_visibilityMask : Z;
  oi_traversableHandle : Z;
  oi_transform : list float
}.

Record CoreInstance := mkInstance {
  instance : OptixInstance;
  transform : list float;
  mesh : Z
}.

Record CoreMesh := mkMesh { gasHandle : Z }.

Definition OPTIX_INSTANCE_FLAG_NONE : Z := 0.

(** Calls that leave the host code of this file: device kernels, buffer
    transfers, the intersection pipeline and platform services. *)
Inductive Call (V : Type) :=
| SetTexture (width height : Z)
| LinkToSurface
| delete_buffer (b : option CoreBuffer)
| new_buffer (b : CoreBuffer)
| stageDebugData
| printf (msg : string)
| accumulator_Clear
| stageGeometryEpsilon (v : float)
| stageClampValue (v : float)
| glFinish
| pushStagedCopies
| renderTimer_reset
| RenderThread_Init
| SetEvent_startEvent
| SetEvent_doneEvent
| UpdateToplevel (instanceCount : nat)
| cudaMemcpyAsync_params (ph : Phase) (view : V) (pass : Z) (j0 j1 : float)
| InitCountersForExtend (pathCount : Z)
| InitCountersSubsequent
| optixLaunch (ph : Phase) (width height depth : Z)
| shade (pathCount pathLength R0 blueSlot pass probePixelIdx : Z)
        (features connections : bool)
| counterBuffer_CopyToHost
| counterBuffer_CopyToDevice
| cudaStreamSynchronize
| BindSurface
| UnbindSurface
| prepareFilter (prevView : V) (spp camIsStationary : Z)
| finalizeFilterDebug
| applyFilter_kernel (phase : Z) (A B C : option CoreBuffer) (lastPass : Z)
| TAApass
| unsharpenTAA
| finalizeNoTAA
| finalizeRender (spp : Z).
Arguments SetTexture {V}. Arguments LinkToSurface {V}.
Arguments delete_buffer {V}. Arguments new_buffer {V}.
Arguments stageDebugData {V}. Arguments printf {V}.
Arguments accumulator_Clear {V}. Arguments stageGeometryEpsilon {V}.
Arguments stageClampValue {V}. Arguments glFinish {V}.
Arguments pushStagedCopies {V}. Arguments renderTimer_reset {V}.
Arguments RenderThread_Init {V}. Arguments SetEvent_startEvent {V}.
Arguments SetEvent_doneEvent {V}. Arguments UpdateToplevel {V}.
Arguments cudaMemcpyAsync_params {V}. Arguments InitCountersForExtend {V}.
Arguments InitCountersSubsequent {V}. Arguments optixLaunch {V}.
Arguments shade {V}. Arguments counterBuffer_CopyToHost {V}.
Arguments counterBuffer_CopyToDevice {V}. Arguments cudaStreamSynchronize {V}.
Arguments BindSurface {V}. Arguments UnbindSurface {V}.
Arguments prepareFilter {V}. Arguments finalizeFilterDebug {V}.
Arguments applyFilter_kernel {V}. Arguments TAApass {V}.
Arguments unsharpenTAA {V}. Arguments finalizeNoTAA {V}.
Arguments finalizeRender {V}.

(** What the host code takes from outside this file. *)
Class Externals := {
  (** [MAXPATHLENGTH] of [core_settings.h]. *)
  MAXPATHLENGTH : nat;
  (** [ViewPyramid]; the host only passes it on. *)
  ViewPyramid : Type;
  (** Contents of the accumulator, and what [Clear] leaves in it. *)
  Acc : Type;
  acc_cleared : Acc;
  (** The rest of device memory. *)
  Mem : Type;
  (** [RandomUInt( seed )]: the value returned and the updated seed. *)
  RandomUInt : Z -> Z * Z;
  (** The value of the local [Counters counters] before its first
      assignment. *)
  counters_indeterminate : Counters;
  (** The effect on device memory of a call whose code is not in this
      file (kernels, launches, acceleration structure builds). *)
  kernel : Call ViewPyramid -> Device Acc Mem -> Device Acc Mem
}.

Section Core.
Context {X : Externals}.

Local Abbreviation HostCall := (Call ViewPyramid).
Local Abbreviation Dev := (Device Acc Mem).

(** The data members of [RenderCore] used by the functions below.  The
    integer members are declared in [rendercore.h]; they are kept as
    mathematical integers.  The 32-bit arithmetic of the source is
    written out for the capacity and the element counts that [SetTarget]
    computes and for the values the source holds in a [uint]. *)
Record CoreData := mkCore {
  scrwidth : Z;
  scrheight : Z;
  scrspp : Z;
  maxPixels : Z;
  currentSPP : Z;
  samplesTaken : Z;
  firstConvergingFrame : bool;
  gpuHasSceneData : bool;
  asyncRenderInProgress : bool;
  noDirectLightsInScene : bool;
  frameCycle : Z;
  blueSlot : Z;
  camRNGseed : Z;
  j0 : float;
  j1 : float;
  prevj0 : float;
  prevj1 : float;
  probePos : Z * Z;
  vars : RenderVars;
  coreStats : CoreStats;
  instances : list CoreInstance;
  meshes : list CoreMesh;
  buffers : Buffers;
  renderTarget : Z * Z;
  prevView : ViewPyramid
}.

Definition eta_CoreData (c : CoreData) : CoreData :=
  mkCore (scrwidth c) (scrheight c) (scrspp c) (maxPixels c) (currentSPP c)
         (samplesTaken c) (firstConvergingFrame c) (gpuHasSceneData c)
         (asyncRenderInProgress c) (noDirectLightsInScene c) (frameCycle c)
         (blueSlot c) (camRNGseed c) (j0 c) (j1 c) (prevj0 c) (prevj1 c)
         (probePos c) (vars c) (coreStats c) (instances c) (meshes c)
         (buffers c) (renderTarget c) (prevView c).

Definition set_scrwidth : Z -> CoreData -> CoreData :=
  ltac:(mk_setter eta_CoreData scrwidth).
Definition set_scrheight : Z -> CoreData -> CoreData :=
  ltac:(mk_setter eta_CoreData scrheight).
Definition set_scrspp : Z -> CoreData -> CoreData :=
  ltac:(mk_setter eta_CoreData scrspp).
Definition set_maxPixels : Z -> CoreData -> CoreData :=
  ltac:(mk_setter eta_CoreData maxPixels).
Definition set_currentSPP : Z -> CoreData -> CoreData :=
  ltac:(mk_setter eta_CoreData currentSPP).
Definition set_samplesTaken : Z -> CoreData -> CoreData :=
  ltac:(mk_setter eta_CoreData samplesTaken).
Definition set_firstConvergingFrame : bool -> CoreData -> CoreData :=
  ltac:(mk_setter eta_CoreData firstConvergingFrame).
Definition set_gpuHasSceneData : bool -> CoreData -> CoreData :=
  ltac:(mk_setter eta_CoreData gpuHasSceneData).
Definition set_asyncRenderInProgress : bool -> CoreData -> CoreData :=
  ltac:(mk_setter eta_CoreData asyncRenderInProgress).
Definition set_frameCycle : Z -> CoreData -> CoreData :=
  ltac:(mk_setter eta_CoreData frameCycle).
Definition set_blueSlot : Z -> CoreData -> CoreData :=
  ltac:(mk_setter eta_CoreData blueSlot).
Definition set_camRNGseed : Z -> CoreData -> CoreData :=
  ltac:(mk_setter eta_CoreData camRNGseed).
Definition set_j0 : float -> CoreData -> CoreData :=
  ltac:(mk_setter eta_CoreData j0).
Definition set_j1 : float -> CoreData -> CoreData :=
  ltac:(mk_setter eta_CoreData j1).
Definition set_prevj0 : float -> CoreData -> CoreData :=
  ltac:(mk_setter eta_CoreData prevj0).
Definition set_prevj1 : float -> CoreData -> CoreData :=
  ltac:(mk_setter eta_CoreData prevj1).
Definition set_probePos : Z * Z -> CoreData -> CoreData :=
  ltac:(mk_setter eta_CoreData probePos).
Definition set_vars : RenderVars -> CoreData -> CoreData :=
  ltac:(mk_setter eta_CoreData vars).
Definition set_coreStats : CoreStats -> CoreData -> CoreData :=
  ltac:(mk_setter eta_CoreData coreStats).
Definition set_instances : list CoreInstance -> CoreData -> CoreData :=
  ltac:(mk_setter eta_CoreData instances).
Definition set_buffers : Buffers -> CoreData -> CoreData :=
  ltac:(mk_setter eta_CoreData buffers).
Definition set_renderTarget : Z * Z -> CoreData -> CoreData :=
  ltac:(mk_setter eta_CoreData renderTarget).
Definition set_prevView : ViewPyramid -> CoreData -> CoreData :=
  ltac:(mk_setter eta_CoreData prevView).

(** Memory that copies of the core object share: the host side of
    [counterBuffer], device memory, and the state of the F4 key. *)
Record Shared := mkShared {
  counterBuffer_host : Counters;
  dev : Dev;
  keyF4 : bool
}.

(** A core object together with the memory it points into. *)
Record Obj := mkObj { this : CoreData; shared : Shared }.

Definition update_this (f : CoreData -> CoreData) : Run HostCall Obj unit :=
  modify (fun o => mkObj (f (this o)) (shared o)).
Definition update_dev (f : Dev -> Dev) : Run HostCall Obj unit :=
  modify (fun o =>
    mkObj (this o)
          (mkShared (counterBuffer_host (shared o)) (f (dev (shared o)))
                    (keyF4 (shared o)))).
Definition update_counterBuffer_host (f : Counters -> Counters)
  : Run HostCall Obj unit :=
  modify (fun o =>
    mkObj (this o)
          (mkShared (f (counterBuffer_host (shared o))) (dev (shared o))
                    (keyF4 (shared o)))).

(** A call into code outside this file: device memory changes as the
    [kernel] says, and the call is recorded. *)
Definition launch (c : HostCall) : Run HostCall Obj unit :=
  update_dev (kernel c) ;; emit c.

(** [accumulator->Clear( ON_DEVICE )]. *)
Definition accumulator_Clear_ON_DEVICE : Run HostCall Obj unit :=
  update_dev (fun d => mkDevice (d_counters d) acc_cleared (d_mem d)) ;;
  emit accumulator_Clear.

(** [counterBuffer->CopyToHost()] and [counterBuffer->CopyToDevice()]. *)
Definition CopyToHost : Run HostCall Obj unit :=
  o ← get;
  update_counterBuffer_host (fun _ => d_counters (dev (shared o))) ;;
  emit counterBuffer_CopyToHost.
Definition CopyToDevice : Run HostCall Obj unit :=
  o ← get;
  update_dev (fun d => mkDevice (counterBuffer_host (shared o))
                                (d_accumulator d) (d_mem d)) ;;
  emit counterBuffer_CopyToDevice.

(** *** RenderCore::SetProbePos *)
Definition SetProbePos (pos : Z * Z) : Run HostCall Obj unit :=
  update_this (set_probePos pos).

(** *** RenderCore::SetTarget

    [width] and [height] are the dimensions of the texture, [spp] is a
    [uint]; [scrspp] and [currentSPP] hold its value. *)

(** The test [scrwidth * scrheight > maxPixels || spp != currentSPP];
    the product is an [int]. *)
Definition SetTarget_reallocate (width height spp : Z) (c : CoreData) : bool :=
  (maxPixels c <? int32 (width * height)) || negb (spp =? currentSPP c).

(** The buffers allocated for [maxPixels] pixels at [scrspp] samples, in
    the order of the members.  The element counts are [int] products. *)
Definition new_buffers (maxPixels scrspp : Z) : Buffers :=
  let new site n := Some (mkBuffer site n) in
  mkBuffers
    (new connectionBuffer_site (int32 (maxPixels * scrspp * 3 * 2)))
    (new accumulator_site (int32 (maxPixels * 2)))
    (new hitBuffer_site (int32 (maxPixels * scrspp)))
    (new pathStateBuffer_site (int32 (maxPixels * scrspp * 3)))
    (new features_site maxPixels)
    (new shading_site (int32 (maxPixels * 2)))
    (new motion_site maxPixels)
    (new moments_site maxPixels)
    (new prevMoments_site maxPixels)
    (new prevPixels_site (int32 (maxPixels * 2)))
    (new worldPos_site maxPixels)
    (new prevWorldPos_site maxPixels)
    (new filteredIN_site (int32 (maxPixels * 2)))
    (new filteredOUT_site (int32 (maxPixels * 2)))
    (new deltaDepth_site (int32 (maxPixels * 2)))
    (new debugData_site maxPixels).

(** The buffers in the order of the [delete] statements ([shading] is not
    among them), and in the order of the [new] expressions. *)
Definition deleted_buffers (b : Buffers) : list (option CoreBuffer) :=
  [connectionBuffer b; accumulator b; hitBuffer b; pathStateBuffer b;
   features b; motion b; moments b; prevMoments b; prevPixels b; worldPos b;
   prevWorldPos b; filteredIN b; filteredOUT b; deltaDepth b; debugData b].
Definition allocated_buffers (b : Buffers) : list CoreBuffer :=
  omap id
  [connectionBuffer b; accumulator b; hitBuffer b; pathStateBuffer b;
   features b; shading b; motion b; moments b; prevMoments b; prevPixels b;
   worldPos b; prevWorldPos b; filteredIN b; filteredOUT b; deltaDepth b;
   debugData b].

Fixpoint emit_all (cs : list HostCall) : Run HostCall Obj unit :=
  match cs with
  | [] => mret tt
  | c :: cs => emit c ;; emit_all cs
  end.

Definition SetTarget (width height spp : Z) : Run HostCall Obj unit :=
  (* synchronize OpenGL viewport *)
  update_this (set_scrwidth width) ;;
  update_this (set_scrheight height) ;;
  update_this (set_scrspp spp) ;;
  update_this (set_renderTarget (width, height)) ;;
  emit (SetTexture width height) ;;
  (* notify CUDA about the texture *)
  emit LinkToSurface ;;
  (* see if we need to reallocate our buffers *)
  o ← get;
  let reallocate := SetTarget_reallocate width height spp (this o) in
  when reallocate (
    let mp := int32 (width * height) in
    (* reserve a bit extra to prevent frequent reallocs *)
    update_this (set_maxPixels (int32 (mp + Z.shiftr mp 4))) ;;
    update_this (set_currentSPP spp)) ;;
  when reallocate (
    (* reallocate buffers *)
    o ← get;
    emit_all (delete_buffer <$> deleted_buffers (buffers (this o))) ;;
    let bs := new_buffers (maxPixels (this o)) (scrspp (this o)) in
    emit_all (new_buffer <$> allocated_buffers bs) ;;
    update_this (set_buffers bs) ;;
    emit stageDebugData ;;
    emit (printf "buffers resized for %i pixels @ %i samples.")) ;;
  (* clear the accumulator *)
  accumulator_Clear_ON_DEVICE ;;
  update_this (set_samplesTaken 0).

(** *** RenderCore::SetInstance

    [instances[i]] and [meshes[i]] outside the vector are undefined
    behaviour: the result is [None] there.  Indices are [int]s and are
    converted to [size_t] where the source compares them with, or uses them
    as, vector sizes and subscripts. *)
Definition new_CoreInstance (instanceIdx : Z) (gas : Z) (matrix : mat4)
  : CoreInstance :=
  mkInstance
    (mkOptixInstance OPTIX_INSTANCE_FLAG_NONE instanceIdx 0 255 gas
                     (memcpy12 matrix))
    (memcpy12 matrix) 0.

Definition update_CoreInstance (meshIdx : Z) (matrix : mat4) (i : CoreInstance)
  : CoreInstance :=
  let oi := instance i in
  mkInstance
    (mkOptixInstance (oi_flags oi) (oi_instanceId oi) (oi_sbtOffset oi)
                     (oi_visibilityMask oi) (oi_traversableHandle oi)
                     (memcpy12 matrix))
    (memcpy12 matrix) meshIdx.

Definition SetInstance (instanceIdx meshIdx : Z) (matrix : mat4) (c : CoreData)
  : option CoreData :=
  let idx := size_t_of_int instanceIdx in
  if meshIdx =? -1 then
    (* A '-1' mesh denotes the end of the instance stream *)
    if idx <? Z.of_nat (length (instances c))
    then Some (set_instances (take (Z.to_nat idx) (instances c)) c)
    else Some c
  else
    insts ← (if Z.of_nat (length (instances c)) <=? idx then
               m ← meshes c !! Z.to_nat (size_t_of_int meshIdx);
               Some (instances c ++
                     [new_CoreInstance instanceIdx (gasHandle m) matrix])
             else Some (instances c));
    old ← insts !! Z.to_nat idx;
    Some (set_instances
            (<[Z.to_nat idx := update_CoreInstance meshIdx matrix old]> insts) c).

(** *** RenderCore::Setting *)
Definition Setting (name : string) (value : float) : Run HostCall Obj unit :=
  o ← get;
  let v := vars (this o) in
  if String.eqb name "epsilon" then
    when (float_ne (geometryEpsilon v) value) (
      update_this (set_vars (set_geometryEpsilon value v)) ;;
      emit (stageGeometryEpsilon value))
  else if String.eqb name "clampValue" then
    when (float_ne (clampValue v) value) (
      update_this (set_vars (set_clampValue value v)) ;;
      emit (stageClampValue value))
  else if String.eqb name "clampDirect" then
    update_this (set_vars (set_filterClampDirect value v))
  else if String.eqb name "clampIndirect" then
    update_this (set_vars (set_filterClampIndirect value v))
  else if String.eqb name "filter" then
    update_this (set_vars
      (set_filterEnabled (if float_eq value float_zero then 0 else 1) v))
  else if String.eqb name "TAA" then
    update_this (set_vars
      (set_TAAEnabled (if float_eq value float_zero then 0 else 1) v))
  else mret tt.

(** *** RenderCore::RenderImpl: the wavefront loop *)

Definition update_coreStats (f : CoreStats -> CoreStats) : Run HostCall Obj unit :=
  update_this (fun c => set_coreStats (f (coreStats c)) c).

(** The first half of an iteration of the loop: generate or extend the
    paths, then shade them. *)
Definition extend_and_shade (pathLength pathCount : Z) : Run HostCall Obj unit :=
  (* generate / extend *)
  (if pathLength =? 1 then
     (* spawn and extend camera rays *)
     launch (InitCountersForExtend pathCount) ;;
     o ← get;
     launch (optixLaunch SPAWN_PRIMARY (scrwidth (this o))
                         (scrheight (this o) * scrspp (this o)) 1)
   else
     (* extend bounced paths *)
     update_coreStats (fun st =>
       if pathLength =? 2 then set_stat_bounce1RayCount pathCount st
       else set_stat_deepRayCount (stat_deepRayCount st + pathCount) st) ;;
     launch InitCountersSubsequent ;;
     launch (optixLaunch SPAWN_SECONDARY pathCount 1 1)) ;;
  (* shade *)
  o ← get;
  let c := this o in
  let r := RandomUInt (camRNGseed c) in
  update_this (set_camRNGseed r.2) ;;
  launch (shade pathCount pathLength (uint32 (r.1 + pathLength * 91771))
                (blueSlot c) (samplesTaken c)
                ((probePos c).1 + scrwidth c * (probePos c).2)
                (bool_decide (is_Some (features (buffers c)))
                 && negb (filterEnabled (vars c) =? 0))
                (negb (noDirectLightsInScene c))).

(** [uint maxShadowRays = connectionBuffer->GetSize() / 3]. *)
Definition maxShadowRays (c : CoreData) : Z :=
  uint32 (GetSize (connectionBuffer (buffers c)) / 3).

(** The body of the overflow test: trace the [counters.shadowRays] pending
    shadow rays, then reset the counter on host and device. *)
Definition flush_shadow_rays (counters : Counters) : Run HostCall Obj unit :=
  launch (optixLaunch SPAWN_SHADOW (shadowRays counters) 1 1) ;;
  update_counterBuffer_host (set_shadowRays 0) ;;
  CopyToDevice ;;
  emit (printf "WARNING: connection buffer overflowed.").

(** The second half of an iteration: read the counters back, leave the
    loop when no path continues, flush the shadow rays when the buffer
    could overflow.  The result says whether the loop is left through
    [break], and gives the locals [pathCount] and [counters]. *)
Definition read_counters : Run HostCall Obj (bool * Z * Counters) :=
  CopyToHost ;;
  o ← get;
  let counters := counterBuffer_host (shared o) in
  let pathCount := uint32 (extensionRays counters) in
  if pathCount =? 0 then mret (true, pathCount, counters)
  else
    (* trace shadow rays now if the next loop iteration could overflow
       the buffer. *)
    when ((maxShadowRays (this o) <=? uint32 (pathCount + shadowRays counters))
          && (0 <? shadowRays counters))
         (flush_shadow_rays counters) ;;
    mret (false, pathCount, counters).

(** One iteration of [for (pathLength = 1; pathLength <= MAXPATHLENGTH;
    pathLength++)]. *)
Definition loop_body (pathLength pathCount : Z)
  : Run HostCall Obj (bool * Z * Counters) :=
  extend_and_shade pathLength pathCount ;; read_counters.

(** The [for] loop with [remaining] iterations to go, that is, with
    [pathLength = MAXPATHLENGTH + 1 - remaining].  It returns the local
    [counters] as the code after the loop sees it. *)
Fixpoint wavefront (remaining : nat) (pathLength pathCount : Z)
    (counters : Counters) : Run HostCall Obj Counters :=
  match remaining with
  | O => mret counters
  | S n =>
      '(break, pathCount, counters) ← loop_body pathLength pathCount;
      if (break : bool) then mret counters
      else wavefront n (pathLength + 1) pathCount counters
  end.

Definition f_minus5 : float := S754_finite true 10485760 (-21).

Definition RenderImpl (view : ViewPyramid) : Run HostCall Obj unit :=
  (* update acceleration structure *)
  o ← get;
  launch (UpdateToplevel (length (instances (this o)))) ;;
  (* clean accumulator, if requested *)
  when (samplesTaken (this o) =? 0) accumulator_Clear_ON_DEVICE ;;
  update_coreStats (fun st =>
    set_stat_totalExtensionRays 0 (set_stat_totalShadowRays 0 st)) ;;
  (* sync params to device *)
  let c := this o in
  let pj0 := if filterEnabled (vars c) =? 0 then f_minus5 else j0 c in
  launch (cudaMemcpyAsync_params SPAWN_PRIMARY view (samplesTaken c) pj0 (j1 c)) ;;
  launch (cudaMemcpyAsync_params SPAWN_SECONDARY view (samplesTaken c) pj0 (j1 c)) ;;
  launch (cudaMemcpyAsync_params SPAWN_SHADOW view (samplesTaken c) pj0 (j1 c)) ;;
  (* loop *)
  let pathCount := uint32 (scrwidth c * scrheight c * scrspp c) in
  update_coreStats (fun st =>
    set_stat_primaryRayCount pathCount (set_stat_deepRayCount 0 st)) ;;
  counters ← wavefront MAXPATHLENGTH 1 pathCount counters_indeterminate;
  (* connect to light sources *)
  when (0 <? shadowRays counters)
       (launch (optixLaunch SPAWN_SHADOW (shadowRays counters) 1 1)) ;;
  (* gather ray tracing statistics *)
  update_coreStats (fun st =>
    set_stat_totalExtensionRays (totalExtensionRays counters)
      (set_stat_totalShadowRays (shadowRays counters) st)) ;;
  (* finalize statistics *)
  emit cudaStreamSynchronize ;;
  update_coreStats (fun st =>
    set_stat_totalRays (stat_totalExtensionRays st + stat_totalShadowRays st) st) ;;
  update_coreStats (SetProbeInfo (probedInstid counters) (probedTriid counters)
                                 (probedDist counters)).

(** *** RenderCore::FinalizeRender *)

(** The four [swap]s at the end of the filter branch. *)
Definition swap_filter_buffers (b : Buffers) : Buffers :=
  mkBuffers (connectionBuffer b) (accumulator b) (hitBuffer b)
            (pathStateBuffer b) (features b)
            (prevPixels b) (* shading *)
            (motion b)
            (prevMoments b) (* moments *)
            (moments b) (* prevMoments *)
            (shading b) (* prevPixels *)
            (prevWorldPos b) (* worldPos *)
            (worldPos b) (* prevWorldPos *)
            (filteredOUT b) (* filteredIN *)
            (filteredIN b) (* filteredOUT *)
            (deltaDepth b) (debugData b).

(** [RenderCore::applyFilter], the abbreviation of the kernel call. *)
Definition applyFilter (phase : Z) (A B C : option CoreBuffer) (lastPass : Z)
  : Run HostCall Obj unit :=
  launch (applyFilter_kernel phase A B C lastPass).

Definition FinalizeRender : Run HostCall Obj unit :=
  (* present accumulator to final buffer *)
  emit BindSurface ;;
  update_this (fun c => set_samplesTaken (samplesTaken c + scrspp c) c) ;;
  update_this (fun c => set_blueSlot (Z.land (blueSlot c + 1) 255) c) ;;
  o ← get;
  let c := this o in
  let b := buffers c in
  (* apply filter on gathered data *)
  (if bool_decide (is_Some (features b)) && negb (filterEnabled (vars c) =? 0)
   then
     launch (prepareFilter (prevView c) (samplesTaken c)
                           (if samplesTaken c =? scrspp c then 0 else 1)) ;;
     (if keyF4 (shared o) then launch finalizeFilterDebug
      else
        applyFilter 1 (shading b) (filteredIN b) (filteredOUT b) 0 ;;
        applyFilter 2 (filteredOUT b) None (filteredIN b) 0 ;;
        applyFilter 3 (filteredIN b) None (shading b) 1 ;;
        if negb (TAAEnabled (vars c) =? 0)
        then launch TAApass ;; launch unsharpenTAA
        else launch finalizeNoTAA) ;;
     update_this (set_buffers (swap_filter_buffers b)) ;;
     update_this (fun c => set_prevj1 (j1 c) (set_prevj0 (j0 c) c))
   else launch (finalizeRender (samplesTaken c))) ;;
  emit UnbindSurface.

(** *** The render thread and the whole system *)

(** The worker object: [RenderThread::Init( core, view )] keeps a copy of
    the core object in [coreState] and the view to render. *)
Record RenderThread := mkThread { coreState : CoreData; view : ViewPyramid }.

(** The core object, its worker, the two auto-reset events, and the memory
    that the core and the worker's copy of it both point into. *)
Record Sys := mkSys {
  core : CoreData;
  renderThread : RenderThread;
  startEvent : bool;
  doneEvent : bool;
  env : Shared
}.

(** Runs a member function on the core object. *)
Definition on_core {A} (m : Run HostCall Obj A) : Run HostCall Sys A :=
  fun s =>
    let '(a, o, cs) := m (mkObj (core s) (env s)) in
    (a, mkSys (this o) (renderThread s) (startEvent s) (doneEvent s) (shared o),
     cs).

(** Runs a member function on the worker's [coreState]. *)
Definition on_coreState {A} (m : Run HostCall Obj A) : Run HostCall Sys A :=
  fun s =>
    let '(a, o, cs) := m (mkObj (coreState (renderThread s)) (env s)) in
    (a, mkSys (core s) (mkThread (this o) (view (renderThread s)))
              (startEvent s) (doneEvent s) (shared o),
     cs).

Definition update_core (f : CoreData -> CoreData) : Run HostCall Sys unit :=
  on_core (update_this f).

(** The jitter tables of [Render]. *)
Definition haltonx : list float := [f0_3; f0_7; f0_2; f0_8].
Definition haltony : list float := [f0_2; f0_8; f0_7; f0_3].

(** *** RenderCore::Render *)
Definition Render (v : ViewPyramid) (converge : Convergence) (async : bool)
  : Run HostCall Sys unit :=
  s ← get;
  if negb (gpuHasSceneData (core s)) then mret tt
  else
    (* wait for OpenGL *)
    emit glFinish ;;
    (* finalize staged writes *)
    emit pushStagedCopies ;;
    (* handle converge restart *)
    when (Convergence_eqb converge Restart || firstConvergingFrame (core s)) (
      update_core (set_samplesTaken 0) ;;
      update_core (set_firstConvergingFrame true)) ;;
    when (Convergence_eqb converge Converge)
         (update_core (set_firstConvergingFrame false)) ;;
    (* do the actual rendering *)
    emit renderTimer_reset ;;
    (* jitter the view for TAA *)
    let jitter := negb (TAAEnabled (vars (core s)) =? 0)
                  && negb (filterEnabled (vars (core s)) =? 0) in
    let k := Z.to_nat (frameCycle (core s)) in
    update_core (set_j0 (if jitter then nth k haltonx float_zero else float_zero)) ;;
    update_core (set_j1 (if jitter then nth k haltony float_zero else float_zero)) ;;
    update_core (fun c => set_frameCycle (Z.land (frameCycle c + 1) 3) c) ;;
    (if async then
       update_core (set_asyncRenderInProgress true) ;;
       modify (fun s => mkSys (core s) (mkThread (core s) v)
                              (startEvent s) (doneEvent s) (env s)) ;;
       emit RenderThread_Init ;;
       modify (fun s => mkSys (core s) (renderThread s) true (doneEvent s) (env s)) ;;
       emit SetEvent_startEvent
     else
       on_core (RenderImpl v) ;;
       on_core FinalizeRender) ;;
    (* store view for next frame *)
    update_core (set_prevView v).

(** *** RenderThread::run

    One round of the worker's loop.  [WaitForSingleObject( startEvent )]
    returns only when the event is signalled, and resets it; while it is
    not, the worker makes no step ([None]). *)
Definition RenderThread_run (s : Sys) : option (unit * Sys * list HostCall) :=
  if startEvent s then
    Some (
      (modify (fun s => mkSys (core s) (renderThread s) false (doneEvent s) (env s)) ;;
       (* render a single frame *)
       on_coreState (RenderImpl (view (renderThread s))) ;;
       (* we're done, go back to waiting *)
       modify (fun s => mkSys (core s) (renderThread s) (startEvent s) true (env s)) ;;
       emit SetEvent_doneEvent) s)
  else None.

(** *** RenderCore::WaitForRender

    The call returns [None] while it is blocked in
    [WaitForSingleObject( doneEvent )]. *)
Definition WaitForRender (s : Sys) : option (unit * Sys * list HostCall) :=
  (* wait for the renderthread to complete *)
  if negb (asyncRenderInProgress (core s)) then Some (tt, s, [])
  else if doneEvent s then
    Some (
      (modify (fun s => mkSys (core s) (renderThread s) (startEvent s) false (env s)) ;;
       update_core (set_asyncRenderInProgress false) ;;
       (* get back the RenderCore state data changed by the thread *)
       s ← get;
       update_core (set_coreStats (coreStats (coreState (renderThread s)))) ;;
       update_core (set_camRNGseed (camRNGseed (coreState (renderThread s)))) ;;
       (* copy the accumulator to the OpenGL texture *)
       on_core FinalizeRender) s)
  else None.

(** *** RenderCore::GetCoreStats *)
Definition GetCoreStats (s : Sys) : CoreStats := coreStats (core s).

(** *** Vocabulary for the properties *)

(** The names [Setting] compares [name] with. *)
Definition settings : list string :=
  ["epsilon"; "clampValue"; "clampDirect"; "clampIndirect"; "filter"; "TAA"]%string.

(** A computation leaves the observation [f] of the core object as it
    was. *)
Definition keeps {A B} (f : CoreData -> B) (m : Run HostCall Obj A) : Prop :=
  forall o, f (this (state (m o))) = f (this o).

(** The core object without [coreStats] and [camRNGseed]. *)
Definition frame (c : CoreData) : CoreData :=
  set_coreStats (mkStats 0 0 0 0 0 0 0 0 float_zero) (set_camRNGseed 0 c).

(** Launches of the shadow phase, and shading passes, among the calls of
    a computation. *)
Definition is_shadow_launch (c : HostCall) : bool :=
  match c with optixLaunch SPAWN_SHADOW _ _ _ => true | _ => false end.
Definition is_shade (c : HostCall) : bool :=
  match c with shade _ _ _ _ _ _ _ _ => true | _ => false end.
Definition is_new_buffer (c : HostCall) : bool :=
  match c with new_buffer _ => true | _ => false end.


(** The overflow test of an iteration, on the counters the device holds
    after shading. *)
Definition overflow_test (o : Obj) : bool :=
  let counters := d_counters (dev (shared o)) in
  let pathCount := uint32 (extensionRays counters) in
  negb (pathCount =? 0)
  && (maxShadowRays (this o) <=? uint32 (pathCount + shadowRays counters))
  && (0 <? shadowRays counters).

(** The test of [FinalizeRender] that selects the filter branch. *)
Definition filter_active (c : CoreData) : bool :=
  bool_decide (is_Some (features (buffers c)))
  && negb (filterEnabled (vars c) =? 0).

(** Calls of the protocol between the core and its worker. *)
Definition is_thread_call (c : HostCall) : bool :=
  match c with
  | RenderThread_Init | SetEvent_startEvent | SetEvent_doneEvent => true
  | _ => false
  end.

(** The object with [f] applied to the core's own members. *)
Definition shift (f : CoreData -> CoreData) (o : Obj) : Obj :=
  mkObj (f (this o)) (shared o).

(** A computation does the same on an object and on the object changed by
    [f]: it neither reads nor writes what [f] changes. *)
Definition commutes {A} (f : CoreData -> CoreData) (m : Run HostCall Obj A)
  : Prop :=
  forall o, m (shift f o) = (result (m o), shift f (state (m o)), calls (m o)).

(** Every call a computation makes satisfies [P]. *)
Definition emits_only {A} (P : HostCall -> bool) (m : Run HostCall Obj A)
  : Prop :=
  forall o, forallb P (calls (m o)) = true.

(** The buffers are the ones [SetTarget] allocates for the capacity and
    the sample count the core object records. *)
Definition buffers_sized (c : CoreData) : Prop :=
  buffers c = new_buffers (maxPixels c) (currentSPP c).

(** The core object as [Render] leaves it before it renders or starts
    the worker: convergence handling, jitter and frame cycle. *)
Definition Render_prepare (converge : Convergence) (c : CoreData) : CoreData :=
  let c1 :=
    if Convergence_eqb converge Restart || firstConvergingFrame c
    then set_firstConvergingFrame true (set_samplesTaken 0 c) else c in
  let c2 :=
    if Convergence_eqb converge Converge
    then set_firstConvergingFrame false c1 else c1 in
  let jitter := negb (TAAEnabled (vars c) =? 0)
                && negb (filterEnabled (vars c) =? 0) in
  let k := Z.to_nat (frameCycle c) in
  set_frameCycle (Z.land (frameCycle c + 1) 3)
    (set_j1 (if jitter then nth k haltony float_zero else float_zero)
       (set_j0 (if jitter then nth k haltonx float_zero else float_zero) c2)).

(** [n] synchronous frames in a row, all with the same view and
    convergence mode. *)
Fixpoint Render_frames (n : nat) (v : ViewPyramid) (converge : Convergence)
  : Run HostCall Sys unit :=
  match n with
  | O => mret tt
  | S n => Render v converge false ;; Render_frames n v converge
  end.

End Core.
End Optix7Filter.

(** * The OptixPrime_PBRT core *)
Module OptixPrimePBRT.

Inductive BufferSite :=
| extensionRayBuffer_site (i : Z) | extensionRayExBuffer_site (i : Z)
| extensionHitBuffer_site | shadowRayBuffer_site | shadowRayPotential_site
| shadowHitBuffer_site | accumulator_site.

Record CoreBuffer := mkBuffer { buf_site : BufferSite; buf_size : Z }.

(** [b->GetSize()]; a null pointer is given size 0. *)
Definition GetSize (b : option CoreBuffer) : Z := from_option buf_size 0 b.

Record Buffers := mkBuffers {
  extensionRayBuffer0 : option CoreBuffer;
  extensionRayBuffer1 : option CoreBuffer;
  extensionRayExBuffer0 : option CoreBuffer;
  extensionRayExBuffer1 : option CoreBuffer;
  extensionHitBuffer : option CoreBuffer;
  shadowRayBuffer : option CoreBuffer;
  shadowRayPotential : option CoreBuffer;
  shadowHitBuffer : option CoreBuffer;
  accumulator : option CoreBuffer
}.

Definition no_buffers : Buffers :=
  mkBuffers None None None None None None None None None.

(** The two settings this core reads from [vars]. *)
Record RenderVars := mkVars {
  geometryEpsilon : float;
  clampValue : float
}.

(** [coreStats], without the wall-clock timings. *)
Record CoreStats := mkStats {
  stat_totalExtensionRays : Z;
  stat_totalShadowRays : Z;
  stat_totalRays : Z;
  stat_primaryRayCount : Z;
  stat_bounce1RayCount : Z;
  stat_deepRayCount : Z;
  stat_probedInstid : Z;
  stat_probedTriid : Z;
  stat_probedDist : float
}.

Definition eta_CoreStats (c : CoreStats) : CoreStats :=
  mkStats (stat_totalExtensionRays c) (stat_totalShadowRays c)
          (stat_totalRays c) (stat_primaryRayCount c)
          (stat_bounce1RayCount c) (stat_deepRayCount c)
          (stat_probedInstid c) (stat_probedTriid c) (stat_probedDist c).
Definition set_stat_totalExtensionRays : Z -> CoreStats -> CoreStats :=
  ltac:(mk_setter eta_CoreStats stat_totalExtensionRays).
Definition set_stat_totalShadowRays : Z -> CoreStats -> CoreStats :=
  ltac:(mk_setter eta_CoreStats stat_totalShadowRays).
Definition set_stat_totalRays : Z -> CoreStats -> CoreStats :=
  ltac:(mk_setter eta_CoreStats stat_totalRays).
Definition set_stat_primaryRayCount : Z -> CoreStats -> CoreStats :=
  ltac:(mk_setter eta_CoreStats stat_primaryRayCount).
Definition set_stat_bounce1RayCount : Z -> CoreStats -> CoreStats :=
  ltac:(mk_setter eta_CoreStats stat_bounce1RayCount).
Definition set_stat_deepRayCount : Z -> CoreStats -> CoreStats :=
  ltac:(mk_setter eta_CoreStats stat_deepRayCount).
Definition set_stat_probed (instid triid : Z) (dist : float) (c : CoreStats)
  : CoreStats :=
  mkStats (stat_totalExtensionRays c) (stat_totalShadowRays c)
          (stat_totalRays c) (stat_primaryRayCount c)
          (stat_bounce1RayCount c) (stat_deepRayCount c) instid triid dist.

Definition mat4 : Type := list float.

Record CoreInstance := mkInstance { mesh : Z; transform : mat4 }.

(** The descriptor buffers of OptiX Prime. *)
Inductive BufferDesc :=
| extensionRaysDesc (i : Z) | extensionHitsDesc | shadowRaysDesc
| shadowHitsDesc.

(** Calls that leave the host code of this file.  [rtpQuery_closest] and
    [rtpQuery_any] stand for the five calls that set the ranges of the ray
    and hit descriptors to [count], attach them to the query and execute
    it. *)
Inductive Call (V : Type) :=
| SetTexture (width height : Z)
| LinkToSurface
| rtpBufferDescDestroy (d : BufferDesc)
| rtpBufferDescCreate (d : BufferDesc)
| delete_buffer (b : option CoreBuffer)
| new_buffer (b : CoreBuffer)
| printf (msg : string)
| accumulator_Clear
| stageGeometryEpsilon (v : float)
| stageClampValue (v : float)
| glFinish
| UpdateToplevel (instanceCount : nat)
| InitCountersForExtend (pathCount : Z)
| InitCountersSubsequent
| generateEyeRays (rays : Z) (R0 pass : Z) (view : V)
| rtpQueryCreate_closest
| rtpQueryDestroy_closest
| rtpQuery_closest (rays : Z) (count : Z)
| rtpQuery_any (count : Z)
| shade (pathCount : Z) (raysIn raysOut : Z) (R0 pass probePixelIdx : Z)
        (pathLength : Z) (view : V)
| swap_inBuffer_outBuffer
| finalizeConnections (rayCount : Z)
| counterBuffer_CopyToHost
| counterBuffer_CopyToDevice
| BindSurface
| UnbindSurface
| finalizeRender (spp : Z).
Arguments SetTexture {V}. Arguments LinkToSurface {V}.
Arguments rtpBufferDescDestroy {V}. Arguments rtpBufferDescCreate {V}.
Arguments delete_buffer {V}. Arguments new_buffer {V}.
Arguments printf {V}. Arguments accumulator_Clear {V}.
Arguments stageGeometryEpsilon {V}. Arguments stageClampValue {V}.
Arguments glFinish {V}. Arguments UpdateToplevel {V}.
Arguments InitCountersForExtend {V}. Arguments InitCountersSubsequent {V}.
Arguments generateEyeRays {V}. Arguments rtpQueryCreate_closest {V}.
Arguments rtpQueryDestroy_closest {V}. Arguments rtpQuery_closest {V}.
Arguments rtpQuery_any {V}. Arguments shade {V}.
Arguments swap_inBuffer_outBuffer {V}. Arguments finalizeConnections {V}.
Arguments counterBuffer_CopyToHost {V}. Arguments counterBuffer_CopyToDevice {V}.
Arguments BindSurface {V}. Arguments UnbindSurface {V}.
Arguments finalizeRender {V}.

(** What the host code takes from outside this file. *)
Class Externals := {
  (** [MAXPATHLENGTH] of [core_settings.h]. *)
  MAXPATHLENGTH : nat;
  (** [ViewPyramid]; the host only passes it on. *)
  ViewPyramid : Type;
  (** Contents of the accumulator, and what [Clear] leaves in it. *)
  Acc : Type;
  acc_cleared : Acc;
  (** The rest of device memory. *)
  Mem : Type;
  (** [RandomUInt( seed )]: the value returned and the updated seed. *)
  RandomUInt : Z -> Z * Z;
  (** The effect on device memory of a call whose code is not in this
      file (kernels and ray queries). *)
  kernel : Call ViewPyramid -> Device Acc Mem -> Device Acc Mem
}.

Section Core.
Context {X : Externals}.

Local Abbreviation HostCall := (Call ViewPyramid).
Local Abbreviation Dev := (Device Acc Mem).

(** The data members of [RenderCore] used by the functions below. *)
Record CoreData := mkCore {
  scrwidth : Z;
  scrheight : Z;
  scrspp : Z;
  maxPixels : Z;
  currentSPP : Z;
  samplesTaken : Z;
  firstConvergingFrame : bool;
  camRNGseed : Z;
  SMcount : Z;
  inBuffer : Z;
  outBuffer : Z;
  probePos : Z * Z;
  vars : RenderVars;
  coreStats : CoreStats;
  instances : list CoreInstance;
  buffers : Buffers;
  renderTarget : Z * Z
}.

Definition eta_CoreData (c : CoreData) : CoreData :=
  mkCore (scrwidth c) (scrheight c) (scrspp c) (maxPixels c) (currentSPP c)
         (samplesTaken c) (firstConvergingFrame c) (camRNGseed c) (SMcount c)
         (inBuffer c) (outBuffer c) (probePos c) (vars c) (coreStats c)
         (instances c) (buffers c) (renderTarget c).

Definition set_scrwidth : Z -> CoreData -> CoreData :=
  ltac:(mk_setter eta_CoreData scrwidth).
Definition set_scrheight : Z -> CoreData -> CoreData :=
  ltac:(mk_setter eta_CoreData scrheight).
Definition set_scrspp : Z -> CoreData -> CoreData :=
  ltac:(mk_setter eta_CoreData scrspp).
Definition set_maxPixels : Z -> CoreData -> CoreData :=
  ltac:(mk_setter eta_CoreData maxPixels).
Definition set_currentSPP : Z -> CoreData -> CoreData :=
  ltac:(mk_setter eta_CoreData currentSPP).
Definition set_samplesTaken : Z -> CoreData -> CoreData :=
  ltac:(mk_setter eta_CoreData samplesTaken).
Definition set_firstConvergingFrame : bool -> CoreData -> CoreData :=
  ltac:(mk_setter eta_CoreData firstConvergingFrame).
Definition set_camRNGseed : Z -> CoreData -> CoreData :=
  ltac:(mk_setter eta_CoreData camRNGseed).
Definition set_inBuffer : Z -> CoreData -> CoreData :=
  ltac:(mk_setter eta_CoreData inBuffer).
Definition set_outBuffer : Z -> CoreData -> CoreData :=
  ltac:(mk_setter eta_CoreData outBuffer).
Definition set_probePos : Z * Z -> CoreData -> CoreData :=
  ltac:(mk_setter eta_CoreData probePos).
Definition set_vars : RenderVars -> CoreData -> CoreData :=
  ltac:(mk_setter eta_CoreData vars).
Definition set_coreStats : CoreStats -> CoreData -> CoreData :=
  ltac:(mk_setter eta_CoreData coreStats).
Definition set_instances : list CoreInstance -> CoreData -> CoreData :=
  ltac:(mk_setter eta_CoreData instances).
Definition set_buffers : Buffers -> CoreData -> CoreData :=
  ltac:(mk_setter eta_CoreData buffers).
Definition set_renderTarget : Z * Z -> CoreData -> CoreData :=
  ltac:(mk_setter eta_CoreData renderTarget).

(** The core object with the host side of [counterBuffer] and device
    memory. *)
Record Obj := mkObj {
  this : CoreData;
  counterBuffer_host : Counters;
  dev : Dev
}.

Definition update_this (f : CoreData -> CoreData) : Run HostCall Obj unit :=
  modify (fun o => mkObj (f (this o)) (counterBuffer_host o) (dev o)).
Definition update_dev (f : Dev -> Dev) : Run HostCall Obj unit :=
  modify (fun o => mkObj (this o) (counterBuffer_host o) (f (dev o))).
Definition update_counterBuffer_host (f : Counters -> Counters)
  : Run HostCall Obj unit :=
  modify (fun o => mkObj (this o) (f (counterBuffer_host o)) (dev o)).
Definition update_coreStats (f : CoreStats -> CoreStats) : Run HostCall Obj unit :=
  update_this (fun c => set_coreStats (f (coreStats c)) c).

(** A call into code outside this file. *)
Definition launch (c : HostCall) : Run HostCall Obj unit :=
  update_dev (kernel c) ;; emit c.

(** [accumulator->Clear( ON_DEVICE )]. *)
Definition accumulator_Clear_ON_DEVICE : Run HostCall Obj unit :=
  update_dev (fun d => mkDevice (d_counters d) acc_cleared (d_mem d)) ;;
  emit accumulator_Clear.

(** [counterBuffer->CopyToHost()] and [counterBuffer->CopyToDevice()]. *)
Definition CopyToHost : Run HostCall Obj unit :=
  o ← get;
  update_counterBuffer_host (fun _ => d_counters (dev o)) ;;
  emit counterBuffer_CopyToHost.
Definition CopyToDevice : Run HostCall Obj unit :=
  o ← get;
  update_dev (fun d => mkDevice (counterBuffer_host o)
                                (d_accumulator d) (d_mem d)) ;;
  emit counterBuffer_CopyToDevice.

Fixpoint emit_all (cs : list HostCall) : Run HostCall Obj unit :=
  match cs with
  | [] => mret tt
  | c :: cs => emit c ;; emit_all cs
  end.

(** *** RenderCore::SetProbePos *)
Definition SetProbePos (pos : Z * Z) : Run HostCall Obj unit :=
  update_this (set_probePos pos).

(** *** RenderCore::SetTarget *)

(** The test [scrwidth * scrheight > maxPixels || spp != currentSPP];
    the product is an [int]. *)
Definition SetTarget_reallocate (width height spp : Z) (c : CoreData) : bool :=
  (maxPixels c <? int32 (width * height)) || negb (spp =? currentSPP c).

(** The buffers allocated for [maxPixels] pixels at [spp] samples, in the
    order of the members.  [spp] is a [uint], so the element counts that
    have it as a factor are [uint] products. *)
Definition new_buffers (maxPixels spp : Z) : Buffers :=
  let new site n := Some (mkBuffer site n) in
  let maxShadowRays := uint32 (maxPixels * spp * 2) in
  mkBuffers
    (new (extensionRayBuffer_site 0) (uint32 (maxPixels * spp)))
    (new (extensionRayBuffer_site 1) (uint32 (maxPixels * spp)))
    (new (extensionRayExBuffer_site 0) (uint32 (maxPixels * 2 * spp)))
    (new (extensionRayExBuffer_site 1) (uint32 (maxPixels * 2 * spp)))
    (new extensionHitBuffer_site (uint32 (maxPixels * spp)))
    (new shadowRayBuffer_site maxShadowRays)
    (new shadowRayPotential_site maxShadowRays)
    (new shadowHitBuffer_site (Z.shiftr (uint32 (maxShadowRays + 31)) 5))
    (new accumulator_site maxPixels).

(** The buffers in the order of the [delete] statements. *)
Definition deleted_buffers (b : Buffers) : list (option CoreBuffer) :=
  [extensionRayBuffer0 b; extensionRayBuffer1 b; extensionRayExBuffer0 b;
   extensionRayExBuffer1 b; extensionHitBuffer b; shadowRayBuffer b;
   shadowRayPotential b; shadowHitBuffer b; accumulator b].

(** The allocations of [SetTarget] in the order of the source: the [new]
    expressions, and [rtpBufferDescCreate] for each ray buffer inside the
    loop over the two of them and for the other descriptors after it. *)
Definition allocations (b : Buffers) : list HostCall :=
  (new_buffer <$> omap id
     [extensionHitBuffer b; shadowRayBuffer b; shadowRayPotential b;
      shadowHitBuffer b; accumulator b])
  ++ (new_buffer <$> omap id [extensionRayBuffer0 b; extensionRayExBuffer0 b])
  ++ [rtpBufferDescCreate (extensionRaysDesc 0)]
  ++ (new_buffer <$> omap id [extensionRayBuffer1 b; extensionRayExBuffer1 b])
  ++ [rtpBufferDescCreate (extensionRaysDesc 1)]
  ++ (rtpBufferDescCreate <$>
        [extensionHitsDesc; shadowRaysDesc; shadowHitsDesc]).

Definition SetTarget (width height spp : Z) : Run HostCall Obj unit :=
  (* synchronize OpenGL viewport *)
  update_this (set_scrwidth width) ;;
  update_this (set_scrheight height) ;;
  update_this (set_scrspp spp) ;;
  update_this (set_renderTarget (width, height)) ;;
  emit (SetTexture width height) ;;
  o ← get;
  let firstFrame := maxPixels (this o) =? 0 in
  (* notify CUDA about the texture *)
  emit LinkToSurface ;;
  (* see if we need to reallocate our buffers *)
  let reallocate := SetTarget_reallocate width height spp (this o) in
  when reallocate (
    let mp := int32 (width * height) in
    (* reserve a bit extra to prevent frequent reallocs *)
    update_this (set_maxPixels (int32 (mp + Z.quot mp 16))) ;;
    update_this (set_currentSPP spp)) ;;
  when reallocate (
    (* destroy previously created OptiX buffers *)
    when (negb firstFrame) (
      emit_all (rtpBufferDescDestroy <$>
        [extensionRaysDesc 0; extensionRaysDesc 1; extensionHitsDesc;
         shadowRaysDesc; shadowHitsDesc])) ;;
    (* delete CoreBuffers *)
    o ← get;
    emit_all (delete_buffer <$> deleted_buffers (buffers (this o))) ;;
    let bs := new_buffers (maxPixels (this o)) spp in
    emit_all (allocations bs) ;;
    update_this (set_buffers bs) ;;
    emit (printf "buffers resized for %i pixels @ %i samples.")) ;;
  (* clear the accumulator *)
  accumulator_Clear_ON_DEVICE ;;
  update_this (set_samplesTaken 0).

(** *** RenderCore::SetInstance

    As in the other core, a subscript outside the vector is undefined
    behaviour ([None]). *)
Definition SetInstance (instanceIdx meshIdx : Z) (matrix : mat4) (c : CoreData)
  : option CoreData :=
  let idx := size_t_of_int instanceIdx in
  if meshIdx =? -1 then
    (* A '-1' mesh denotes the end of the instance stream *)
    if idx <? Z.of_nat (length (instances c))
    then Some (set_instances (take (Z.to_nat idx) (instances c)) c)
    else Some c
  else
    let insts :=
      if Z.of_nat (length (instances c)) <=? idx
      then instances c ++ [mkInstance 0 []]
      else instances c in
    _ ← insts !! Z.to_nat idx;
    Some (set_instances (<[Z.to_nat idx := mkInstance meshIdx matrix]> insts) c).

(** *** RenderCore::Setting *)
Definition Setting (name : string) (value : float) : Run HostCall Obj unit :=
  o ← get;
  let v := vars (this o) in
  if String.eqb name "epsilon" then
    when (float_ne (geometryEpsilon v) value) (
      update_this (set_vars (mkVars value (clampValue v))) ;;
      emit (stageGeometryEpsilon value))
  else if String.eqb name "clampValue" then
    when (float_ne (clampValue v) value) (
      update_this (set_vars (mkVars (geometryEpsilon v) value)) ;;
      emit (stageClampValue value))
  else mret tt.

(** *** RenderCore::Render: the wavefront loop *)

(** The any-hit query over [count] shadow rays followed by
    [finalizeConnections]. *)
Definition trace_shadow_rays (count : Z) : Run HostCall Obj unit :=
  launch (rtpQuery_any count) ;;
  (* process intersection results *)
  launch (finalizeConnections count).

(** The first half of an iteration of the loop: extend the paths, then
    shade them. *)
Definition extend_and_shade (view : ViewPyramid) (pathLength pathCount : Z)
  : Run HostCall Obj unit :=
  (* extend *)
  o ← get;
  launch (rtpQuery_closest (inBuffer (this o)) pathCount) ;;
  update_coreStats (fun st =>
    if pathLength =? 1 then set_stat_primaryRayCount pathCount st
    else if pathLength =? 2 then set_stat_bounce1RayCount pathCount st
    else set_stat_deepRayCount pathCount st) ;;
  (* shade *)
  let c := this o in
  launch (shade pathCount (inBuffer c) (outBuffer c)
                (uint32 (samplesTaken c * 7907 + pathLength * 91771))
                (samplesTaken c)
                ((probePos c).1 + scrwidth c * (probePos c).2)
                pathLength view).

(** [uint maxShadowRays = shadowRayBuffer->GetSize()]. *)
Definition maxShadowRays (c : CoreData) : Z :=
  uint32 (GetSize (shadowRayBuffer (buffers c))).

(** The body of the overflow test: trace the [counters.shadowRays] pending
    shadow rays, then reset the counter on host and device. *)
Definition flush_shadow_rays : Run HostCall Obj unit :=
  o ← get;
  trace_shadow_rays (shadowRays (counterBuffer_host o)) ;;
  (* reset shadow ray counter *)
  update_counterBuffer_host (set_shadowRays 0) ;;
  CopyToDevice.

(** The second half of an iteration other than the last: read the
    counters back, swap the ray buffers, flush the shadow rays when the
    buffer overflows, prepare the next iteration.  The result is the local
    [pathCount]. *)
Definition read_counters : Run HostCall Obj Z :=
  CopyToHost ;;
  o ← get;
  let counters := counterBuffer_host o in
  let pathCount := uint32 (extensionRays counters) in
  update_this (fun c => set_outBuffer (inBuffer c) (set_inBuffer (outBuffer c) c)) ;;
  emit swap_inBuffer_outBuffer ;;
  (* handle overflowing shadow ray buffer *)
  when (maxShadowRays (this o) <=? uint32 (shadowRays counters + pathCount))
       flush_shadow_rays ;;
  (* prepare next iteration *)
  launch InitCountersSubsequent ;;
  mret pathCount.

(** One iteration of the loop.  The result says whether the iteration left
    the loop through [break] and gives the local [pathCount] at its end. *)
Definition loop_body (view : ViewPyramid) (pathLength pathCount : Z)
  : Run HostCall Obj (bool * Z) :=
  extend_and_shade view pathLength pathCount ;;
  if pathLength =? Z.of_nat MAXPATHLENGTH then
    (* prevent the CopyToHost in the last iteration; it's expensive *)
    mret (true, pathCount)
  else
    pathCount ← read_counters;
    mret (false, pathCount).

(** The [for] loop with [remaining] iterations to go.  It returns the
    local [actualPathLength]. *)
Fixpoint wavefront (view : ViewPyramid) (remaining : nat)
    (pathLength pathCount : Z) (actualPathLength : Z)
  : Run HostCall Obj Z :=
  match remaining with
  | O => mret actualPathLength
  | S n =>
      '(break, pathCount) ← loop_body view pathLength pathCount;
      if (break : bool) then mret pathLength
      else wavefront view n (pathLength + 1) pathCount pathLength
  end.

Definition Render (view : ViewPyramid) (converge : Convergence) (async : bool)
  : Run HostCall Obj unit :=
  (* wait for OpenGL *)
  emit glFinish ;;
  (* update acceleration structure *)
  o ← get;
  launch (UpdateToplevel (length (instances (this o)))) ;;
  (* clean accumulator, if requested *)
  when (Convergence_eqb converge Restart || firstConvergingFrame (this o)) (
    accumulator_Clear_ON_DEVICE ;;
    update_this (set_samplesTaken 0) ;;
    update_this (set_firstConvergingFrame true) ;;
    update_this (set_camRNGseed 305419896 (* 0x12345678 *))) ;;
  when (Convergence_eqb converge Converge)
       (update_this (set_firstConvergingFrame false)) ;;
  (* render image *)
  update_coreStats (set_stat_totalExtensionRays 0) ;;
  (* setup primary rays *)
  o ← get;
  let c := this o in
  launch (InitCountersForExtend (scrwidth c * scrheight c * scrspp c)) ;;
  let r := RandomUInt (camRNGseed c) in
  update_this (set_camRNGseed r.2) ;;
  launch (generateEyeRays (inBuffer c) r.1 (samplesTaken c) view) ;;
  (* start wavefront loop *)
  emit rtpQueryCreate_closest ;;
  let pathCount := uint32 (scrwidth c * scrheight c * scrspp c) in
  actualPathLength ← wavefront view MAXPATHLENGTH 1 pathCount 0;
  emit rtpQueryDestroy_closest ;;
  (* loop completed; handle gathered shadow rays *)
  CopyToHost ;;
  o ← get;
  let counters := counterBuffer_host o in
  when (0 <? shadowRays counters) (trace_shadow_rays (shadowRays counters)) ;;
  (* gather ray tracing statistics *)
  update_coreStats (fun st =>
    set_stat_totalExtensionRays (totalExtensionRays counters)
      (set_stat_totalShadowRays (shadowRays counters) st)) ;;
  (* present accumulator to final buffer *)
  emit BindSurface ;;
  update_this (fun c => set_samplesTaken (samplesTaken c + scrspp c) c) ;;
  o ← get;
  launch (finalizeRender (samplesTaken (this o))) ;;
  emit UnbindSurface ;;
  (* finalize statistics *)
  update_coreStats (fun st =>
    set_stat_totalRays (stat_totalExtensionRays st + stat_totalShadowRays st) st) ;;
  update_coreStats (set_stat_probed (probedInstid counters) (probedTriid counters)
                                    (probedDist counters)).

(** *** RenderCore::GetCoreStats *)
Definition GetCoreStats (o : Obj) : CoreStats := coreStats (this o).

(** *** Vocabulary for the properties *)

(** The names [Setting] compares [name] with. *)
Definition settings : list string := ["epsilon"; "clampValue"]%string.

(** A computation leaves the observation [f] of the core object as it
    was. *)
Definition keeps {A B} (f : CoreData -> B) (m : Run HostCall Obj A) : Prop :=
  forall o, f (this (state (m o))) = f (this o).

(** The core object without [coreStats] and the roles of the two ray
    buffers. *)
Definition frame (c : CoreData) : CoreData :=
  set_coreStats (mkStats 0 0 0 0 0 0 0 0 float_zero)
    (set_inBuffer 0 (set_outBuffer 0 c)).

(** Any-hit queries, shading passes and buffer swaps among the calls of a
    computation. *)
Definition is_any_query (c : HostCall) : bool :=
  match c with rtpQuery_any _ => true | _ => false end.
Definition is_shade (c : HostCall) : bool :=
  match c with shade _ _ _ _ _ _ _ _ => true | _ => false end.
Definition is_swap (c : HostCall) : bool :=
  match c with swap_inBuffer_outBuffer => true | _ => false end.
Definition is_new_buffer (c : HostCall) : bool :=
  match c with new_buffer _ => true | _ => false end.

(** The overflow test of an iteration, on the counters the device holds
    after shading. *)
Definition overflow_test (o : Obj) : bool :=
  let counters := d_counters (dev o) in
  let pathCount := uint32 (extensionRays counters) in
  maxShadowRays (this o) <=? uint32 (shadowRays counters + pathCount).

(** The roles of the two ray buffers of a core object. *)
Definition roles (c : CoreData) : Z * Z := (inBuffer c, outBuffer c).

(** The roles of the two ray buffers after [n] swaps. *)
Definition swapped (n : nat) (roles : Z * Z) : Z * Z :=
  Nat.iter n (fun r => (r.2, r.1)) roles.

(** The ray queue a closest-hit query traces, and the queues a shading
    pass reads its rays from and writes the extension rays to. *)
Definition query_queue (c : HostCall) : option Z :=
  match c with rtpQuery_closest rays _ => Some rays | _ => None end.
Definition shade_queues (c : HostCall) : option (Z * Z) :=
  match c with
  | shade _ raysIn raysOut _ _ _ _ _ => Some (raysIn, raysOut)
  | _ => None
  end.

(** The object with [f] applied to the core's own members. *)
Definition shift (f : CoreData -> CoreData) (o : Obj) : Obj :=
  mkObj (f (this o)) (counterBuffer_host o) (dev o).

(** Every call a computation makes satisfies [P]. *)
Definition emits_only {A} (P : HostCall -> bool) (m : Run HostCall Obj A)
  : Prop :=
  forall o, forallb P (calls (m o)) = true.

(** The buffers are the ones [SetTarget] allocates for the capacity and
    the sample count the core object records. *)
Definition buffers_sized (c : CoreData) : Prop :=
  buffers c = new_buffers (maxPixels c) (currentSPP c).

(** [n] frames in a row, all with the same view and convergence mode. *)
Fixpoint Render_frames (n : nat) (v : ViewPyramid) (converge : Convergence)
  : Run HostCall Obj unit :=
  match n with
  | O => mret tt
  | S n => Render v converge false ;; Render_frames n v converge
  end.

End Core.
End OptixPrimePBRT.

(** * The shading pass, as the design describes it *)
Module ShadingSpec.
Section Shading.
Context {Path ShadowRay : Type}.

(** Modelled from the spec: the shading kernel ([shade], device code in
    [pathtracer.cu]) is missing from the sources.  For one path, shading
    either terminates it or produces its single continuation ray, and
    produces zero or more shadow rays. *)
Record Shaded := mkShaded {
  continuation : option Path;
  connections : list ShadowRay
}.

Variable shade_path : Z -> Path -> Shaded.

(** Modelled from the spec: the output ray queue, the shadow ray queue and
    the counters that the missing shading kernel writes. *)
Record Queues := mkQueues {
  extensionQueue : list Path;
  shadowQueue : list ShadowRay;
  counters : Counters
}.

Definition add_extensionRays (n : Z) (c : Counters) : Counters :=
  mkCounters (extensionRays c + n) (shadowRays c) (totalExtensionRays c)
             (probedInstid c) (probedTriid c) (probedDist c).
Definition add_shadowRays (n : Z) (c : Counters) : Counters :=
  mkCounters (extensionRays c) (shadowRays c + n) (totalExtensionRays c)
             (probedInstid c) (probedTriid c) (probedDist c).

(** Modelled from the spec: the work of the missing kernel [shade] on one
    path.  A surviving path appends its extension ray to the output queue
    and counts it; every shadow ray is appended to the shadow queue and
    counted. *)
Definition shade_thread (pathLength : Z) (p : Path) (q : Queues) : Queues :=
  let r := shade_path pathLength p in
  let q1 :=
    match continuation r with
    | Some p' => mkQueues (extensionQueue q ++ [p']) (shadowQueue q)
                          (add_extensionRays 1 (counters q))
    | None => q
    end in
  mkQueues (extensionQueue q1) (shadowQueue q1 ++ connections r)
           (add_shadowRays (Z.of_nat (length (connections r))) (counters q1)).

(** Modelled from the spec: the missing kernel [shade] over the first
    [pathCount] paths of the input queue. *)
Definition shade (pathLength : Z) (pathCount : nat) (input : list Path)
    (q : Queues) : Queues :=
  foldl (fun q p => shade_thread pathLength p q) q (take pathCount input).

(** Modelled from the spec: the missing [InitCountersSubsequent]; the
    extension ray counter is reset before each dispatch, the shadow rays
    gathered so far stay pending. *)
Definition InitCounters (q : Queues) : Queues :=
  mkQueues [] (shadowQueue q)
           (mkCounters 0 (shadowRays (counters q))
                       (totalExtensionRays (counters q))
                       (probedInstid (counters q)) (probedTriid (counters q))
                       (probedDist (counters q))).

(** Modelled from the spec: a shading pass of the missing device code as
    the host submits it, for [pathCount] paths. *)
Definition shading_pass (pathLength : Z) (pathCount : nat) (input : list Path)
    (q : Queues) : Queues :=
  shade pathLength pathCount input (InitCounters q).

End Shading.
End ShadingSpec.

(** * Scene data of the Optix7Filter core

    [SetGeometry], [FinalizeInstances], [SetLights] and [UpdateToplevel]
    work on members of [RenderCore] that the functions above do not
    touch; [FinalizeInstances] and [SetLights] also write
    [gpuHasSceneData] and [noDirectLightsInScene]. *)
Module Optix7FilterScene.
Import Optix7Filter.

(** An [int] obtained from a [size_t] by [(int)] or [(uint)]. *)
Definition int_of_size_t (z : Z) : Z :=
  let u := z mod 2 ^ 32 in if u <? 2 ^ 31 then u else u - 2 ^ 32.

(** The four kinds of lights, one buffer each. *)
Inductive LightKind := TriLight | PointLight | SpotLight | DirectionalLight.

(** Calls that leave the host code of these functions. *)
Inductive SceneCall :=
| CoreMesh_SetGeometry (meshIdx : nat)
| delete_instanceArray
| new_instanceArray (size : Z)
| instanceArray_StageCopyToDevice
| delete_instDescBuffer
| new_instDescBuffer (size : Z)
| stageInstanceDescriptors
| instDescBuffer_StageCopyToDevice
| delete_lightBuffer (k : LightKind) (old : option Z)
| new_lightBuffer (k : LightKind) (size : Z)
| memcpy_lights (k : LightKind) (count : Z)
| lightBuffer_StageCopyToDevice (k : LightKind)
| stageLights (k : LightKind)
| stageLightCounts (tri point spot directional : Z)
| UpdateAccstruc (meshIdx : nat)
| optixAccelComputeMemoryUsage (numInstances : Z)
| delete_temp
| new_temp (size : Z)
| delete_topBuffer
| new_topBuffer (size : Z)
| optixAccelBuild (numInstances reservedTemp reservedTop : Z).

(** What these functions take from outside this file. *)
Class SceneExternals := {
  (** The geometry handed to [CoreMesh::SetGeometry], and what that
      function makes of a mesh. *)
  Geometry : Type;
  CoreMesh_set : Geometry -> CoreMesh -> CoreMesh;
  (** A default-constructed [CoreMesh]. *)
  new_CoreMesh : CoreMesh;
  (** [mat4::Inverted]. *)
  Inverted : list float -> list float;
  (** The contents of freshly allocated host memory. *)
  fresh_OptixInstance : OptixInstance;
  (** [accstrucNeedsUpdate] of a mesh, and the mesh after
      [UpdateAccstruc]. *)
  accstrucNeedsUpdate : CoreMesh -> bool;
  CoreMesh_UpdateAccstruc : CoreMesh -> CoreMesh;
  (** [tempSizeInBytes] and [outputSizeInBytes] that
      [optixAccelComputeMemoryUsage] reports for a number of instances. *)
  accel_sizes : Z -> Z * Z
}.

Section Scene.
Context {X : Externals} {SX : SceneExternals}.

Definition set_noDirectLightsInScene (v : bool) (c : CoreData) : CoreData :=
  mkCore (scrwidth c) (scrheight c) (scrspp c) (maxPixels c) (currentSPP c)
         (samplesTaken c) (firstConvergingFrame c) (gpuHasSceneData c)
         (asyncRenderInProgress c) v (frameCycle c)
         (blueSlot c) (camRNGseed c) (j0 c) (j1 c) (prevj0 c) (prevj1 c)
         (probePos c) (vars c) (coreStats c) (instances c) (meshes c)
         (buffers c) (renderTarget c) (prevView c).
Definition set_meshes (v : list CoreMesh) (c : CoreData) : CoreData :=
  mkCore (scrwidth c) (scrheight c) (scrspp c) (maxPixels c) (currentSPP c)
         (samplesTaken c) (firstConvergingFrame c) (gpuHasSceneData c)
         (asyncRenderInProgress c) (noDirectLightsInScene c) (frameCycle c)
         (blueSlot c) (camRNGseed c) (j0 c) (j1 c) (prevj0 c) (prevj1 c)
         (probePos c) (vars c) (coreStats c) (instances c) v
         (buffers c) (renderTarget c) (prevView c).

(** *** RenderCore::SetGeometry

    [meshIdx] is an [int]; it is converted to [size_t] where it is
    compared with [meshes.size()] and where it subscripts the vector.  A
    subscript outside the vector is undefined behaviour ([None]). *)
Definition SetGeometry (meshIdx : Z) (g : Geometry) (ms : list CoreMesh)
  : option (list CoreMesh * list SceneCall) :=
  let idx := size_t_of_int meshIdx in
  let ms1 := if Z.of_nat (length ms) <=? idx then ms ++ [new_CoreMesh] else ms in
  m ← ms1 !! Z.to_nat idx;
  Some (<[Z.to_nat idx := CoreMesh_set g m]> ms1,
        [CoreMesh_SetGeometry (Z.to_nat idx)]).

(** *** RenderCore::FinalizeInstances *)

(** [instanceArray]: its element count and the host copy of its
    contents. *)
Record InstanceArray := mkArray {
  ia_size : Z;
  ia_host : list OptixInstance
}.

(** A [CoreInstanceDesc]: the mesh whose triangle buffer it points to,
    and the inverse transform. *)
Record CoreInstanceDesc := mkDesc {
  id_triangles : Z;
  id_invTransform : list float
}.

Record InstDescBuffer := mkDescBuffer {
  idb_size : Z;
  idb_host : list CoreInstanceDesc
}.

(** The members of [RenderCore] these functions add to [CoreData]. *)
Record SceneData := mkScene {
  instanceArray : InstanceArray;
  instDescBuffer : option InstDescBuffer;
  instancesDirty : bool
}.

(** [mat4::Identity()]. *)
Definition f1 : float := S754_finite false 8388608 (-23).
Definition mat4_Identity : list float :=
  [f1; float_zero; float_zero; float_zero;
   float_zero; f1; float_zero; float_zero;
   float_zero; float_zero; f1; float_zero;
   float_zero; float_zero; float_zero; f1].

(** [memcpy( &T, src, 12 * sizeof( float ) )]. *)
Definition memcpy12_into (src T : list float) : list float :=
  take 12 src ++ drop 12 T.

(** [instances[i]->instance.traversableHandle =
     meshes[instances[i]->mesh]->gasHandle]. *)
Definition refresh_handle (ms : list CoreMesh) (i : CoreInstance)
  : option CoreInstance :=
  m ← ms !! Z.to_nat (size_t_of_int (mesh i));
  let oi := instance i in
  Some (mkInstance
          (mkOptixInstance (oi_flags oi) (oi_instanceId oi) (oi_sbtOffset oi)
                           (oi_visibilityMask oi) (gasHandle m)
                           (oi_transform oi))
          (transform i) (mesh i)).

(** The loop that copies the instance descriptors to the array, from
    index [i] on.  A write beyond the host array is undefined
    behaviour. *)
Fixpoint copy_instances (ms : list CoreMesh) (insts : list CoreInstance)
    (i : nat) (host : list OptixInstance)
  : option (list CoreInstance * list OptixInstance) :=
  match insts with
  | [] => Some ([], host)
  | inst :: rest =>
      inst' ← refresh_handle ms inst;
      _ ← host !! i;
      r ← copy_instances ms rest (S i) (<[i := instance inst']> host);
      Some (inst' :: r.1, r.2)
  end.

(** The [CoreInstanceDesc] of an instance. *)
Definition instance_desc (ms : list CoreMesh) (i : CoreInstance)
  : option CoreInstanceDesc :=
  _ ← ms !! Z.to_nat (size_t_of_int (mesh i));
  (* [instance->transform] is an array: the test is always true *)
  let T := memcpy12_into (transform i) mat4_Identity in
  Some (mkDesc (mesh i) (Inverted T)).

Definition FinalizeInstances (c : CoreData) (sd : SceneData)
  : option (CoreData * SceneData * list SceneCall) :=
  let n := Z.of_nat (length (instances c)) in
  (* resize instance array if more space is needed *)
  let grow := size_t_of_int (ia_size (instanceArray sd)) <? n in
  let ia := if grow
            then mkArray (n + 4)
                         (replicate (Z.to_nat (n + 4)) fresh_OptixInstance)
            else instanceArray sd in
  let e1 := if grow then [delete_instanceArray; new_instanceArray (n + 4)]
            else [] in
  (* copy instance descriptors to the array, sync with device *)
  let s := int_of_size_t n in
  r ← copy_instances (meshes c) (take (Z.to_nat s) (instances c)) 0 (ia_host ia);
  let insts := r.1 ++ drop (Z.to_nat s) (instances c) in
  let ia' := mkArray (ia_size ia) r.2 in
  let e2 := [instanceArray_StageCopyToDevice] in
  (* pass instance descriptors to the device *)
  r2 ← (if instancesDirty sd then
          descs ← mapM (instance_desc (meshes c)) insts;
          let regrow :=
            match instDescBuffer sd with
            | None => true
            | Some b => idb_size b <? int_of_size_t n
            end in
          let b := if regrow then mkDescBuffer (n * 2) []
                   else default (mkDescBuffer 0 []) (instDescBuffer sd) in
          (* the [memcpy] of the descriptors to the host side *)
          if Z.of_nat (length descs) <=? idb_size b then
            Some (Some (mkDescBuffer (idb_size b)
                          (descs ++ drop (length descs) (idb_host b))),
                  (if regrow
                   then [delete_instDescBuffer; new_instDescBuffer (n * 2);
                         stageInstanceDescriptors]
                   else [])
                  ++ [instDescBuffer_StageCopyToDevice])
          else None
        else Some (instDescBuffer sd, []));
  (* rendering is allowed from now on *)
  Some (set_gpuHasSceneData true (set_instances insts c),
        mkScene ia' r2.1 (instancesDirty sd),
        e1 ++ e2 ++ r2.2).

(** *** RenderCore::StagedBufferResize and RenderCore::SetLights *)

(** A light buffer is its element count; [None] is the null pointer.  A
    negative count makes the [memcpy] undefined. *)
Definition StagedBufferResize (k : LightKind) (lightBuffer : option Z)
    (newCount : Z) : option (Z * list SceneCall) :=
  if newCount <? 0 then None
  else
    let realloc := match lightBuffer with
                   | None => true
                   | Some size => size <? newCount
                   end in
    let size := if realloc then newCount else default 0 lightBuffer in
    Some (size,
          (if realloc
           then [delete_lightBuffer k lightBuffer; new_lightBuffer k newCount]
           else [])
          ++ [memcpy_lights k newCount; lightBuffer_StageCopyToDevice k]).

Record LightBuffers := mkLights {
  triLightBuffer : option Z;
  pointLightBuffer : option Z;
  spotLightBuffer : option Z;
  directionalLightBuffer : option Z
}.

Definition SetLights (triLightCount pointLightCount spotLightCount
                      directionalLightCount : Z)
    (c : CoreData) (l : LightBuffers)
  : option (CoreData * LightBuffers * list SceneCall) :=
  t ← StagedBufferResize TriLight (triLightBuffer l) triLightCount;
  p ← StagedBufferResize PointLight (pointLightBuffer l) pointLightCount;
  s ← StagedBufferResize SpotLight (spotLightBuffer l) spotLightCount;
  d ← StagedBufferResize DirectionalLight (directionalLightBuffer l)
        directionalLightCount;
  let total := triLightCount + pointLightCount + spotLightCount
               + directionalLightCount in
  (* the sum is an [int] *)
  if 2 ^ 31 <=? total then None
  else
    Some (set_noDirectLightsInScene (total =? 0) c,
          mkLights (Some t.1) (Some p.1) (Some s.1) (Some d.1),
          t.2 ++ [stageLights TriLight]
          ++ p.2 ++ [stageLights PointLight]
          ++ s.2 ++ [stageLights SpotLight]
          ++ d.2 ++ [stageLights DirectionalLight]
          ++ [stageLightCounts triLightCount pointLightCount spotLightCount
                               directionalLightCount]).

(** *** RenderCore::UpdateToplevel *)

(** The function's [static] variables. *)
Record AccelStatics := mkStatics {
  reservedTemp : Z;
  reservedTop : Z;
  temp : option Z;
  topBuffer : option Z
}.

(** The loop over the meshes: its calls and the meshes it leaves. *)
Fixpoint update_meshes (i : nat) (ms : list CoreMesh)
  : list CoreMesh * list SceneCall :=
  match ms with
  | [] => ([], [])
  | m :: rest =>
      let r := update_meshes (S i) rest in
      if accstrucNeedsUpdate m
      then (CoreMesh_UpdateAccstruc m :: r.1, UpdateAccstruc i :: r.2)
      else (m :: r.1, r.2)
  end.

(** [temp->DevPtr()] and [topBuffer->DevPtr()] on a null pointer are
    undefined behaviour. *)
Definition UpdateToplevel (c : CoreData) (st : AccelStatics)
  : option (CoreData * AccelStatics * list SceneCall) :=
  (* build accstructs for modified meshes *)
  let um := update_meshes 0 (meshes c) in
  (* build the top-level tree *)
  let numInstances := uint32 (Z.of_nat (length (instances c))) in
  let sizes := accel_sizes numInstances in
  let growTemp := reservedTemp st <? sizes.1 in
  let growTop := reservedTop st <? sizes.2 in
  let rTemp := if growTemp then size_t_of_int (sizes.1 + 1024)
               else reservedTemp st in
  let rTop := if growTop then size_t_of_int (sizes.2 + 1024)
              else reservedTop st in
  let temp' := if growTemp then Some rTemp else temp st in
  let top' := if growTop then Some rTop else topBuffer st in
  _ ← temp'; _ ← top';
  Some (set_meshes um.1 c,
        mkStatics rTemp rTop temp' top',
        um.2 ++ [optixAccelComputeMemoryUsage numInstances]
        ++ (if growTemp then [delete_temp; new_temp rTemp] else [])
        ++ (if growTop then [delete_topBuffer; new_topBuffer rTop] else [])
        ++ [optixAccelBuild numInstances rTemp rTop]).

End Scene.
End Optix7FilterScene.

(** * Concrete devices and states

    Small instances of the interfaces, used to run the definitions. *)
Module Examples.

(** The xorshift generator behind [RandomUInt]. *)
Definition xorshift32 (seed : Z) : Z * Z :=
  let s1 := uint32 (Z.lxor seed (Z.shiftl seed 13)) in
  let s2 := Z.lxor s1 (Z.shiftr s1 17) in
  let s3 := uint32 (Z.lxor s2 (Z.shiftl s2 5)) in
  (s3, s3).

Definition counters0 : Counters := mkCounters 0 0 0 0 0 float_zero.

(** A device on which every shading pass over [n] paths leaves [ext n]
    extension rays and adds [sh] shadow rays.  Its accumulator counts the
    passes that wrote to it since it was cleared. *)
Definition kernel7 (ext : Z -> Z) (sh : Z) (c : Optix7Filter.Call unit)
    (d : Device nat unit) : Device nat unit :=
  match c with
  | Optix7Filter.InitCountersForExtend n =>
      mkDevice (mkCounters 0 0 n 0 0 float_zero) (d_accumulator d) tt
  | Optix7Filter.shade n _ _ _ _ _ _ _ =>
      let k := d_counters d in
      mkDevice (mkCounters (ext n) (shadowRays k + sh)
                           (totalExtensionRays k + ext n) 0 0 float_zero)
               (S (d_accumulator d)) tt
  | Optix7Filter.optixLaunch SPAWN_SHADOW _ _ _ =>
      mkDevice (d_counters d) (S (d_accumulator d)) tt
  | _ => d
  end.

Definition X7 (maxPathLength : nat) (ext : Z -> Z) (sh : Z)
  : Optix7Filter.Externals :=
  {| Optix7Filter.MAXPATHLENGTH := maxPathLength;
     Optix7Filter.ViewPyramid := unit;
     Optix7Filter.Acc := nat;
     Optix7Filter.acc_cleared := 0%nat;
     Optix7Filter.Mem := unit;
     Optix7Filter.RandomUInt := xorshift32;
     Optix7Filter.counters_indeterminate := counters0;
     Optix7Filter.kernel := kernel7 ext sh |}.

Definition vars7 : Optix7Filter.RenderVars :=
  Optix7Filter.mkVars (S754_finite false 13743895 (-37)) (* 0.0001f *)
                      (S754_finite false 10485760 (-20)) (* 10.0f *)
                      (S754_finite false 10485760 (-20))
                      (S754_finite false 10485760 (-20)) 0 0.

Definition stats7 : Optix7Filter.CoreStats :=
  Optix7Filter.mkStats 0 0 0 0 0 0 0 0 float_zero.

(** A core object as it is before [SetTarget]: no buffers, no scene. *)
Definition core7 {X : Optix7Filter.Externals}
    (v : Optix7Filter.ViewPyramid) : Optix7Filter.CoreData :=
  Optix7Filter.mkCore 0 0 1 0 0 0 false false false true 0 0 305419896
    float_zero float_zero float_zero float_zero (0, 0) vars7 stats7 [] []
    Optix7Filter.no_buffers (0, 0) v.

Definition obj7 (maxPathLength : nat) (ext : Z -> Z) (sh : Z)
  : @Optix7Filter.Obj (X7 maxPathLength ext sh) :=
  let X := X7 maxPathLength ext sh in
  @Optix7Filter.mkObj X (@core7 X tt)
    (@Optix7Filter.mkShared X counters0 (mkDevice counters0 7%nat tt) false).

Definition sys7 (maxPathLength : nat) (ext : Z -> Z) (sh : Z)
  : @Optix7Filter.Sys (X7 maxPathLength ext sh) :=
  let X := X7 maxPathLength ext sh in
  @Optix7Filter.mkSys X (@core7 X tt) (@Optix7Filter.mkThread X (@core7 X tt) tt)
    false false
    (@Optix7Filter.mkShared X counters0 (mkDevice counters0 7%nat tt) false).

(** The system once the instances have been finalized: rendering is
    allowed, the target is 4 by 4 pixels at one sample. *)
Definition sys7_ready (maxPathLength : nat) (ext : Z -> Z) (sh : Z)
  : @Optix7Filter.Sys (X7 maxPathLength ext sh) :=
  let X := X7 maxPathLength ext sh in
  let o := state (@Optix7Filter.SetTarget X 4 4 1 (obj7 maxPathLength ext sh)) in
  @Optix7Filter.mkSys X
    (Optix7Filter.set_gpuHasSceneData true (Optix7Filter.this o))
    (@Optix7Filter.mkThread X (@core7 X tt) tt) false false
    (Optix7Filter.shared o).

(** The same for the OptixPrime_PBRT core. *)
Definition kernelP (ext : Z -> Z) (sh : Z) (c : OptixPrimePBRT.Call unit)
    (d : Device nat unit) : Device nat unit :=
  match c with
  | OptixPrimePBRT.InitCountersForExtend n =>
      mkDevice (mkCounters 0 0 n 0 0 float_zero) (d_accumulator d) tt
  | OptixPrimePBRT.shade n _ _ _ _ _ _ _ =>
      let k := d_counters d in
      mkDevice (mkCounters (ext n) (shadowRays k + sh)
                           (totalExtensionRays k + ext n) 0 0 float_zero)
               (S (d_accumulator d)) tt
  | OptixPrimePBRT.finalizeConnections _ =>
      mkDevice (d_counters d) (S (d_accumulator d)) tt
  | _ => d
  end.

Definition XP (maxPathLength : nat) (ext : Z -> Z) (sh : Z)
  : OptixPrimePBRT.Externals :=
  {| OptixPrimePBRT.MAXPATHLENGTH := maxPathLength;
     OptixPrimePBRT.ViewPyramid := unit;
     OptixPrimePBRT.Acc := nat;
     OptixPrimePBRT.acc_cleared := 0%nat;
     OptixPrimePBRT.Mem := unit;
     OptixPrimePBRT.RandomUInt := xorshift32;
     OptixPrimePBRT.kernel := kernelP ext sh |}.

Definition varsP : OptixPrimePBRT.RenderVars :=
  OptixPrimePBRT.mkVars (S754_finite false 13743895 (-37))
                        (S754_finite false 10485760 (-20)).

Definition statsP : OptixPrimePBRT.CoreStats :=
  OptixPrimePBRT.mkStats 0 0 0 0 0 0 0 0 float_zero.

Definition coreP : OptixPrimePBRT.CoreData :=
  OptixPrimePBRT.mkCore 0 0 1 0 0 0 false 305419896 1 0 1 (0, 0) varsP statsP
    [] OptixPrimePBRT.no_buffers (0, 0).

(** The identity matrix, and a core with two instances of mesh 0. *)
Definition f1_0 : float := S754_finite false 8388608 (-23).
Definition mat_identity : list float :=
  [f1_0; float_zero; float_zero; float_zero;
   float_zero; f1_0; float_zero; float_zero;
   float_zero; float_zero; f1_0; float_zero;
   float_zero; float_zero; float_zero; f1_0].

Definition coreP2 : OptixPrimePBRT.CoreData :=
  OptixPrimePBRT.set_instances
    [OptixPrimePBRT.mkInstance 0 mat_identity;
     OptixPrimePBRT.mkInstance 0 mat_identity] coreP.

Definition objP (maxPathLength : nat) (ext : Z -> Z) (sh : Z)
  : @OptixPrimePBRT.Obj (XP maxPathLength ext sh) :=
  let X := XP maxPathLength ext sh in
  @OptixPrimePBRT.mkObj X coreP counters0 (mkDevice counters0 7%nat tt).

(** The objects after [SetTarget] for 4 by 4 pixels at one sample: the
    shadow ray queues then hold 34 rays. *)
Definition obj7_4x4 (maxPathLength : nat) (ext : Z -> Z) (sh : Z)
  : @Optix7Filter.Obj (X7 maxPathLength ext sh) :=
  state (@Optix7Filter.SetTarget (X7 maxPathLength ext sh) 4 4 1
           (obj7 maxPathLength ext sh)).

Definition objP_4x4 (maxPathLength : nat) (ext : Z -> Z) (sh : Z)
  : @OptixPrimePBRT.Obj (XP maxPathLength ext sh) :=
  state (@OptixPrimePBRT.SetTarget (XP maxPathLength ext sh) 4 4 1
           (objP maxPathLength ext sh)).

(** A device that tells views apart: views are numbers, and the device
    memory remembers the previous view the filter was last given. *)
Definition kernel7v (c : Optix7Filter.Call Z) (d : Device nat Z)
  : Device nat Z :=
  match c with
  | Optix7Filter.InitCountersForExtend n =>
      mkDevice (mkCounters 0 0 n 0 0 float_zero) (d_accumulator d) (d_mem d)
  | Optix7Filter.shade n _ _ _ _ _ _ _ =>
      let k := d_counters d in
      mkDevice (mkCounters (n / 2) (shadowRays k + 1)
                           (totalExtensionRays k + n / 2) 0 0 float_zero)
               (S (d_accumulator d)) (d_mem d)
  | Optix7Filter.prepareFilter prevView _ _ =>
      mkDevice (d_counters d) (d_accumulator d) prevView
  | _ => d
  end.

Definition X7v : Optix7Filter.Externals :=
  {| Optix7Filter.MAXPATHLENGTH := 3;
     Optix7Filter.ViewPyramid := Z;
     Optix7Filter.Acc := nat;
     Optix7Filter.acc_cleared := 0%nat;
     Optix7Filter.Mem := Z;
     Optix7Filter.RandomUInt := xorshift32;
     Optix7Filter.counters_indeterminate := counters0;
     Optix7Filter.kernel := kernel7v |}.

(** A system on that device, ready to render a 4 by 4 target with the
    filter switched on or off; the previous view is view 1. *)
Definition sys7v (filter : Z) : @Optix7Filter.Sys X7v :=
  let c := @Optix7Filter.mkCore X7v 0 0 1 0 0 0 false false false true 0 0
             305419896 float_zero float_zero float_zero float_zero (0, 0)
             (Optix7Filter.set_filterEnabled filter vars7) stats7 [] []
             Optix7Filter.no_buffers (0, 0) 1 in
  let o := state (@Optix7Filter.SetTarget X7v 4 4 1
                    (@Optix7Filter.mkObj X7v c
                       (@Optix7Filter.mkShared X7v counters0
                          (mkDevice counters0 7%nat 0) false))) in
  @Optix7Filter.mkSys X7v
    (Optix7Filter.set_gpuHasSceneData true (Optix7Filter.this o))
    (@Optix7Filter.mkThread X7v c 0) false false (Optix7Filter.shared o).

(** Scene data for the Optix7Filter core: meshes keep the handle they
    are made with, building an acceleration structure over [n] instances
    takes [64 * n] bytes of scratch space and [128 * n + 256] bytes of
    output. *)
Definition SX7 : Optix7FilterScene.SceneExternals :=
  {| Optix7FilterScene.Geometry := Z;
     Optix7FilterScene.CoreMesh_set := fun g _ => Optix7Filter.mkMesh g;
     Optix7FilterScene.new_CoreMesh := Optix7Filter.mkMesh 0;
     Optix7FilterScene.Inverted := fun m => m;
     Optix7FilterScene.fresh_OptixInstance :=
       Optix7Filter.mkOptixInstance 0 0 0 0 0 [];
     Optix7FilterScene.accstrucNeedsUpdate := fun _ => false;
     Optix7FilterScene.CoreMesh_UpdateAccstruc := fun m => m;
     Optix7FilterScene.accel_sizes := fun n => (64 * n, 128 * n + 256) |}.

(** The scene data after [Init]: an instance array of 16 entries. *)
Definition scene7 : Optix7FilterScene.SceneData :=
  Optix7FilterScene.mkScene
    (Optix7FilterScene.mkArray 16
       (replicate 16 (Optix7Filter.mkOptixInstance 0 0 0 0 0 [])))
    None true.

(** A core with the meshes 100 and 200 and an instance of each. *)
Definition core7_scene : @Optix7Filter.CoreData (X7 3 (fun n => n / 2) 1) :=
  let X := X7 3 (fun n => n / 2) 1 in
  let c0 := Optix7Filter.this (obj7_4x4 3 (fun n => n / 2) 1) in
  let c1 := @Optix7Filter.mkCore X
              (Optix7Filter.scrwidth c0) (Optix7Filter.scrheight c0)
              (Optix7Filter.scrspp c0) (Optix7Filter.maxPixels c0)
              (Optix7Filter.currentSPP c0) 0 false false false true 0 0
              305419896 float_zero float_zero float_zero float_zero (0, 0)
              vars7 stats7 []
              [Optix7Filter.mkMesh 100; Optix7Filter.mkMesh 200]
              (Optix7Filter.buffers c0) (4, 4) tt in
  default c1
    (c2 ← Optix7Filter.SetInstance 0 1 mat_identity c1;
     Optix7Filter.SetInstance 1 0 mat_identity c2).

End Examples.

(** * Properties *)

(** Unfolds the plumbing of [Run] computations. *)
Ltac run_unfold :=
  unfold mbind, Run_bind, mret, Run_ret, get, put, modify, emit, when,
    result, state, calls in *.

(** The result, state and calls of a sequence. *)
Section RunFacts.
Context {E S : Type}.

Lemma run_bind_eq {A B} (m : Run E S A) (f : A -> Run E S B) (s : S) :
  (m ≫= f) s =
  (result (f (result (m s)) (state (m s))),
   state (f (result (m s)) (state (m s))),
   calls (m s) ++ calls (f (result (m s)) (state (m s)))).
Proof.
  run_unfold. destruct (m s) as [[a s1] e1]. cbn.
  destruct (f a s1) as [[b s2] e2]. reflexivity.
Qed.

Lemma calls_bind {A B} (m : Run E S A) (f : A -> Run E S B) (s : S) :
  calls ((m ≫= f) s) = calls (m s) ++ calls (f (result (m s)) (state (m s))).
Proof. rewrite run_bind_eq. reflexivity. Qed.

Lemma state_bind {A B} (m : Run E S A) (f : A -> Run E S B) (s : S) :
  state ((m ≫= f) s) = state (f (result (m s)) (state (m s))).
Proof. rewrite run_bind_eq. reflexivity. Qed.

Lemma result_bind {A B} (m : Run E S A) (f : A -> Run E S B) (s : S) :
  result ((m ≫= f) s) = result (f (result (m s)) (state (m s))).
Proof. rewrite run_bind_eq. reflexivity. Qed.

(** Rules to run a computation step by step. *)
Lemma wp_bind {A B} (m : Run E S A) (f : A -> Run E S B) Q s :
  wp m (fun a s1 e1 => wp (f a) (fun b s2 e2 => Q b s2 (e1 ++ e2)) s1) s ->
  wp (m ≫= f) Q s.
Proof. unfold wp. rewrite run_bind_eq. trivial. Qed.

Lemma wp_ret {A} (a : A) (Q : A -> S -> list E -> Prop) s :
  Q a s [] -> wp (mret a) Q s.
Proof. trivial. Qed.

Lemma wp_get (Q : S -> S -> list E -> Prop) s : Q s s [] -> wp get Q s.
Proof. trivial. Qed.

Lemma wp_modify g (Q : unit -> S -> list E -> Prop) s :
  Q tt (g s) [] -> wp (modify g) Q s.
Proof. trivial. Qed.

Lemma wp_emit c (Q : unit -> S -> list E -> Prop) s :
  Q tt s [c] -> wp (emit c) Q s.
Proof. trivial. Qed.

Lemma wp_when (b : bool) m (Q : unit -> S -> list E -> Prop) s :
  (b = true -> wp m Q s) -> (b = false -> Q tt s []) -> wp (when b m) Q s.
Proof. destruct b; intros H1 H2; [apply H1 | apply H2]; reflexivity. Qed.

Lemma wp_if {A} (b : bool) (m1 m2 : Run E S A) Q s :
  (b = true -> wp m1 Q s) -> (b = false -> wp m2 Q s) ->
  wp (if b then m1 else m2) Q s.
Proof. destruct b; intros H1 H2; [apply H1 | apply H2]; reflexivity. Qed.

Lemma wp_conseq {A} (m : Run E S A) (R Q : A -> S -> list E -> Prop) s :
  wp m R s -> (forall a s' e, R a s' e -> Q a s' e) -> wp m Q s.
Proof. unfold wp. auto. Qed.

End RunFacts.

(** One step of a run: a sequence, a primitive or a test. *)
Ltac wp_prim :=
  lazymatch goal with
  | |- wp (mbind _ _) _ _ => apply wp_bind
  | |- wp (mret _) _ _ => apply wp_ret
  | |- wp get _ _ => apply wp_get
  | |- wp (modify _) _ _ => apply wp_modify
  | |- wp (emit _) _ _ => apply wp_emit
  | |- wp (when _ _) _ _ => apply wp_when; intros ?
  | |- wp (if _ then _ else _) _ _ => apply wp_if; intros ?
  end; cbn beta.

(** ** Render settings *)

Lemma float_ne_false (a b : float) : float_eq a b = true -> float_ne a b = false.
Proof. unfold float_ne, float_eq. intros ->. reflexivity. Qed.

Lemma eqb_name_false (name known : string) (names : list string) :
  ~ In name (known :: names) -> String.eqb name known = false.
Proof.
  intros Hn. destruct (String.eqb_spec name known) as [->|]; [|done].
  destruct Hn. now left.
Qed.

Lemma not_In_tail {A} (x y : A) (l : list A) : ~ In x (y :: l) -> ~ In x l.
Proof. intros H Hin. apply H. now right. Qed.

(** C10: in both cores, [Setting] with a name the core does not recognise
    leaves the core object (so all render variables) and the shared memory
    as they were and issues no call, so nothing is staged to the device;
    [Setting("epsilon", v)] and [Setting("clampValue", v)] with [v] equal
    (by the float comparison of the source) to the stored value do the
    same. *)
Theorem C10_Setting_leaves_state :
  (forall (X : Optix7Filter.Externals) (o : Optix7Filter.Obj) name v,
      ~ In name Optix7Filter.settings ->
      Optix7Filter.Setting name v o = (tt, o, []))
  /\ (forall (X : Optix7Filter.Externals) (o : Optix7Filter.Obj) v,
      float_eq (Optix7Filter.geometryEpsilon
                  (Optix7Filter.vars (Optix7Filter.this o))) v = true ->
      Optix7Filter.Setting "epsilon" v o = (tt, o, []))
  /\ (forall (X : Optix7Filter.Externals) (o : Optix7Filter.Obj) v,
      float_eq (Optix7Filter.clampValue
                  (Optix7Filter.vars (Optix7Filter.this o))) v = true ->
      Optix7Filter.Setting "clampValue" v o = (tt, o, []))
  /\ (forall (X : OptixPrimePBRT.Externals) (o : OptixPrimePBRT.Obj) name v,
      ~ In name OptixPrimePBRT.settings ->
      OptixPrimePBRT.Setting name v o = (tt, o, []))
  /\ (forall (X : OptixPrimePBRT.Externals) (o : OptixPrimePBRT.Obj) v,
      float_eq (OptixPrimePBRT.geometryEpsilon
                  (OptixPrimePBRT.vars (OptixPrimePBRT.this o))) v = true ->
      OptixPrimePBRT.Setting "epsilon" v o = (tt, o, []))
  /\ (forall (X : OptixPrimePBRT.Externals) (o : OptixPrimePBRT.Obj) v,
      float_eq (OptixPrimePBRT.clampValue
                  (OptixPrimePBRT.vars (OptixPrimePBRT.this o))) v = true ->
      OptixPrimePBRT.Setting "clampValue" v o = (tt, o, [])).
Proof.
  repeat split.
  - intros X o name v Hn. unfold Optix7Filter.Setting, Optix7Filter.settings in *.
    run_unfold.
    repeat (rewrite (eqb_name_false _ _ _ Hn); apply not_In_tail in Hn).
    reflexivity.
  - intros X o v Heq. unfold Optix7Filter.Setting. run_unfold. cbn.
    rewrite (float_ne_false _ _ Heq). reflexivity.
  - intros X o v Heq. unfold Optix7Filter.Setting. run_unfold. cbn.
    rewrite (float_ne_false _ _ Heq). reflexivity.
  - intros X o name v Hn. unfold OptixPrimePBRT.Setting, OptixPrimePBRT.settings in *.
    run_unfold.
    repeat (rewrite (eqb_name_false _ _ _ Hn); apply not_In_tail in Hn).
    reflexivity.
  - intros X o v Heq. unfold OptixPrimePBRT.Setting. run_unfold. cbn.
    rewrite (float_ne_false _ _ Heq). reflexivity.
  - intros X o v Heq. unfold OptixPrimePBRT.Setting. run_unfold. cbn.
    rewrite (float_ne_false _ _ Heq). reflexivity.
Qed.

Lemma C10_Setting_leaves_state_witness :
  let X := Examples.X7 3 (fun n => n / 2) 1 in
  let o := Examples.obj7 3 (fun n => n / 2) 1 in
  let P := Examples.XP 3 (fun n => n / 2) 1 in
  let p := Examples.objP 3 (fun n => n / 2) 1 in
  let eps := S754_finite false 13743895 (-37) in
  let ten := S754_finite false 10485760 (-20) in
  (~ In "gamma"%string Optix7Filter.settings
   /\ @Optix7Filter.Setting X "gamma" f0_3 o = (tt, o, []))
  /\ (float_eq (Optix7Filter.geometryEpsilon
                  (Optix7Filter.vars (Optix7Filter.this o))) eps = true
      /\ @Optix7Filter.Setting X "epsilon" eps o = (tt, o, []))
  /\ (float_eq (Optix7Filter.clampValue
                  (Optix7Filter.vars (Optix7Filter.this o))) ten = true
      /\ @Optix7Filter.Setting X "clampValue" ten o = (tt, o, []))
  /\ (~ In "filter"%string OptixPrimePBRT.settings
      /\ @OptixPrimePBRT.Setting P "filter" f0_3 p = (tt, p, []))
  /\ (float_eq (OptixPrimePBRT.geometryEpsilon
                  (OptixPrimePBRT.vars (OptixPrimePBRT.this p))) eps = true
      /\ @OptixPrimePBRT.Setting P "epsilon" eps p = (tt, p, []))
  /\ (float_eq (OptixPrimePBRT.clampValue
                  (OptixPrimePBRT.vars (OptixPrimePBRT.this p))) ten = true
      /\ @OptixPrimePBRT.Setting P "clampValue" ten p = (tt, p, [])).
Proof.
  intros X o P p eps ten.
  assert (Hg : ~ In "gamma"%string Optix7Filter.settings).
  { intros H. repeat (destruct H as [H|H]; [discriminate H|]). exact H. }
  assert (Hf : ~ In "filter"%string OptixPrimePBRT.settings).
  { intros H. repeat (destruct H as [H|H]; [discriminate H|]). exact H. }
  pose proof C10_Setting_leaves_state as (H1 & H2 & H3 & H4 & H5 & H6).
  split; [split; [exact Hg | exact (H1 X o "gamma"%string f0_3 Hg)]|].
  split; [split; [reflexivity | exact (H2 X o eps eq_refl)]|].
  split; [split; [reflexivity | exact (H3 X o ten eq_refl)]|].
  split; [split; [exact Hf | exact (H4 P p "filter"%string f0_3 Hf)]|].
  split; [split; [reflexivity | exact (H5 P p eps eq_refl)]|].
  split; [reflexivity | exact (H6 P p ten eq_refl)].
Defined.

(** ** Frame orchestration *)

(** C9: [WaitForRender] called while no asynchronous render is in progress
    returns at once (it is not blocked), issues no call (so no finalize
    pass runs) and leaves the whole system as it was: the core object with
    [coreStats], [camRNGseed] and the render target, the worker, both
    events and the shared memory. *)
Theorem C9_WaitForRender_idle (X : Optix7Filter.Externals) (s : Optix7Filter.Sys) :
  Optix7Filter.asyncRenderInProgress (Optix7Filter.core s) = false ->
  Optix7Filter.WaitForRender s = Some (tt, s, []).
Proof.
  intros Hidle. unfold Optix7Filter.WaitForRender. rewrite Hidle. reflexivity.
Qed.

Lemma C9_WaitForRender_idle_witness :
  let X := Examples.X7 3 (fun n => n / 2) 1 in
  let s := Examples.sys7 3 (fun n => n / 2) 1 in
  Optix7Filter.asyncRenderInProgress (Optix7Filter.core s) = false
  /\ @Optix7Filter.WaitForRender X s = Some (tt, s, []).
Proof.
  intros X s. split; [reflexivity|].
  apply (C9_WaitForRender_idle X s). reflexivity.
Defined.

(** While a render is in progress and the worker has not signalled
    [doneEvent], the call does not return. *)
Lemma WaitForRender_blocks (X : Optix7Filter.Externals) (s : Optix7Filter.Sys) :
  Optix7Filter.asyncRenderInProgress (Optix7Filter.core s) = true ->
  Optix7Filter.doneEvent s = false ->
  Optix7Filter.WaitForRender s = None.
Proof.
  intros Hrun Hdone. unfold Optix7Filter.WaitForRender.
  rewrite Hrun, Hdone. reflexivity.
Qed.

(** In the OptixPrime_PBRT core every [Render] starts with [glFinish] and
    the rebuild of the top-level structure. *)
Lemma PBRT_Render_calls (X : OptixPrimePBRT.Externals) (o : OptixPrimePBRT.Obj)
    view converge async :
  exists cs,
    calls (OptixPrimePBRT.Render view converge async o) =
    OptixPrimePBRT.glFinish
      :: OptixPrimePBRT.UpdateToplevel
           (length (OptixPrimePBRT.instances (OptixPrimePBRT.this o)))
      :: cs.
Proof.
  unfold OptixPrimePBRT.Render.
  rewrite calls_bind. cbn [emit calls snd].
  rewrite calls_bind. cbn [get calls snd result state fst app].
  rewrite calls_bind. unfold OptixPrimePBRT.launch at 1.
  rewrite calls_bind. cbn. eexists. reflexivity.
Qed.

(** C4 (as amended): in the Optix7Filter core, [Render] called while
    [gpuHasSceneData] is still false is a silent no-op for every view,
    convergence mode and async flag: it returns, issues no call, and
    leaves the core object, the worker, the events and the shared memory
    (accumulator, sample count, statistics) as they were.  The
    OptixPrime_PBRT core has no such test: its [Render] always issues
    calls, starting with [glFinish] and the top-level rebuild. *)
Theorem C4_Render_without_scene_data :
  (forall (X : Optix7Filter.Externals) (s : Optix7Filter.Sys) view converge async,
      Optix7Filter.gpuHasSceneData (Optix7Filter.core s) = false ->
      Optix7Filter.Render view converge async s = (tt, s, []))
  /\ (forall (X : OptixPrimePBRT.Externals) (o : OptixPrimePBRT.Obj)
        view converge async,
      exists cs,
        calls (OptixPrimePBRT.Render view converge async o) =
        OptixPrimePBRT.glFinish
          :: OptixPrimePBRT.UpdateToplevel
               (length (OptixPrimePBRT.instances (OptixPrimePBRT.this o)))
          :: cs).
Proof.
  split.
  - intros X s view converge async Hno.
    unfold Optix7Filter.Render. run_unfold. rewrite Hno. reflexivity.
  - intros. apply PBRT_Render_calls.
Qed.

Lemma C4_Render_without_scene_data_witness :
  let X := Examples.X7 3 (fun n => n / 2) 1 in
  let s := Examples.sys7 3 (fun n => n / 2) 1 in
  Optix7Filter.gpuHasSceneData (Optix7Filter.core s) = false
  /\ @Optix7Filter.Render X tt Restart true s = (tt, s, []).
Proof.
  intros X s. split; [reflexivity|].
  apply (proj1 C4_Render_without_scene_data X s tt Restart true). reflexivity.
Defined.

(** C4, counterexample to the claim as stated: an OptixPrime_PBRT core
    whose target is set (4 by 4 pixels, every buffer allocated) and that
    has received no instance renders all the same; the call shades, and
    the sample count moves from 0 to 1. *)
Lemma C4_counterexample_PBRT_renders :
  let X := Examples.XP 3 (fun n => n / 2) 1 in
  let o := Examples.objP_4x4 3 (fun n => n / 2) 1 in
  let r := @OptixPrimePBRT.Render X tt Converge false o in
  OptixPrimePBRT.instances (OptixPrimePBRT.this o) = []
  /\ OptixPrimePBRT.buffers (OptixPrimePBRT.this o)
     = OptixPrimePBRT.new_buffers 17 1
  /\ existsb OptixPrimePBRT.is_shade (calls r) = true
  /\ OptixPrimePBRT.samplesTaken (OptixPrimePBRT.this o) = 0
  /\ OptixPrimePBRT.samplesTaken (OptixPrimePBRT.this (state r)) = 1.
Proof.
  cbv zeta. split; [|split; [|split; [|split]]]; vm_compute; reflexivity.
Qed.

(** *** What the steps of a frame leave alone: Optix7Filter *)
Section Optix7FilterKeeps.
Import Optix7Filter.
Context {X : Externals}.
Context {B : Type} (f : CoreData -> B).

Local Abbreviation HostRun := (Run (Call ViewPyramid) Obj).

Lemma keeps7_bind {A A'} (m : HostRun A) (k : A -> HostRun A') :
  keeps f m -> (forall a, keeps f (k a)) -> keeps f (m ≫= k).
Proof. intros Hm Hk o. rewrite state_bind, Hk. apply Hm. Qed.

Lemma keeps7_ret {A} (a : A) : keeps f (mret a : HostRun A).
Proof. intros o. reflexivity. Qed.

Lemma keeps7_get : keeps f (get : HostRun Obj).
Proof. intros o. reflexivity. Qed.

Lemma keeps7_emit c : keeps f (emit c : HostRun unit).
Proof. intros o. reflexivity. Qed.

Lemma keeps7_when b (m : HostRun unit) : keeps f m -> keeps f (when b m).
Proof. destruct b; [trivial|]. intros _ o. reflexivity. Qed.

Lemma keeps7_update_dev g : keeps f (update_dev g).
Proof. intros o. reflexivity. Qed.

Lemma keeps7_update_host g : keeps f (update_counterBuffer_host g).
Proof. intros o. reflexivity. Qed.

Lemma keeps7_update_this g : (forall c, f (g c) = f c) -> keeps f (update_this g).
Proof. intros Hg o. apply Hg. Qed.

Lemma keeps7_launch c : keeps f (launch c).
Proof.
  apply keeps7_bind; [apply keeps7_update_dev|]. intros _. apply keeps7_emit.
Qed.

Lemma keeps7_Clear : keeps f accumulator_Clear_ON_DEVICE.
Proof.
  apply keeps7_bind; [apply keeps7_update_dev|]. intros _. apply keeps7_emit.
Qed.

Lemma keeps7_CopyToHost : keeps f CopyToHost.
Proof.
  apply keeps7_bind; [apply keeps7_get|]. intros o.
  apply keeps7_bind; [apply keeps7_update_host|]. intros _. apply keeps7_emit.
Qed.

Lemma keeps7_CopyToDevice : keeps f CopyToDevice.
Proof.
  apply keeps7_bind; [apply keeps7_get|]. intros o.
  apply keeps7_bind; [apply keeps7_update_dev|]. intros _. apply keeps7_emit.
Qed.

End Optix7FilterKeeps.

(** Splits a sequence of the Optix7Filter core into its steps and settles
    those that do not write the observation; an assignment to a member is
    settled when the observation does not read it. *)
Ltac keeps7 :=
  repeat first
    [ apply keeps7_ret | apply keeps7_get | apply keeps7_emit
    | apply keeps7_update_dev | apply keeps7_update_host
    | apply keeps7_launch | apply keeps7_Clear
    | apply keeps7_CopyToHost | apply keeps7_CopyToDevice
    | apply keeps7_update_this; intros; reflexivity
    | apply keeps7_when
    | apply keeps7_bind; [|intros ?]
    | match goal with
      | |- Optix7Filter.keeps _ (if ?b then _ else _) => destruct b
      end ].

Section Optix7FilterFrame.
Import Optix7Filter.
Context {X : Externals}.

Lemma keeps_frame_loop_body pathLength pathCount :
  keeps frame (loop_body pathLength pathCount).
Proof.
  unfold loop_body, extend_and_shade, read_counters, flush_shadow_rays,
    update_coreStats.
  keeps7.
Qed.

Lemma keeps_frame_wavefront remaining :
  forall pathLength pathCount counters,
    keeps frame (wavefront remaining pathLength pathCount counters).
Proof.
  induction remaining as [|n IH]; intros pathLength pathCount counters; cbn.
  - apply keeps7_ret.
  - apply keeps7_bind; [apply keeps_frame_loop_body|].
    intros [[[] pc] cs]; [apply keeps7_ret | apply IH].
Qed.

(** [RenderImpl] writes nothing of the core object but [coreStats] and
    [camRNGseed]. *)
Lemma keeps_frame_RenderImpl view : keeps frame (RenderImpl view).
Proof.
  unfold RenderImpl, update_coreStats. keeps7. apply keeps_frame_wavefront.
Qed.

(** [FinalizeRender] adds [scrspp] to the sample count and keeps the flag
    and [scrspp]. *)
Lemma FinalizeRender_samplesTaken (o : Obj) :
  samplesTaken (this (state (FinalizeRender o))) =
  samplesTaken (this o) + scrspp (this o).
Proof.
  unfold FinalizeRender.
  rewrite state_bind. cbn [emit state result fst snd].
  rewrite state_bind.
  match goal with |- samplesTaken (this (state (?m ?s))) = _ =>
    assert (Hk : keeps samplesTaken m) end.
  { unfold applyFilter. keeps7. }
  rewrite Hk. reflexivity.
Qed.

Lemma keeps_FinalizeRender_flag :
  keeps (fun c => (firstConvergingFrame c, scrspp c)) FinalizeRender.
Proof. unfold FinalizeRender, applyFilter. keeps7. Qed.

(** With no sample taken yet, [RenderImpl] rebuilds the top level and
    clears the accumulator before anything else. *)
Lemma RenderImpl_calls_clear view (o : Obj) :
  samplesTaken (this o) = 0 ->
  exists rest,
    calls (RenderImpl view o) =
    UpdateToplevel (length (instances (this o))) :: accumulator_Clear :: rest.
Proof.
  intros H0. unfold RenderImpl.
  rewrite calls_bind. cbn [get calls snd result state fst app].
  rewrite calls_bind. unfold launch at 1. rewrite calls_bind.
  cbn [update_dev modify emit calls snd result state fst app].
  rewrite H0. cbn [Z.eqb when].
  rewrite calls_bind. unfold accumulator_Clear_ON_DEVICE at 1.
  rewrite calls_bind. cbn. eexists. reflexivity.
Qed.

End Optix7FilterFrame.

(** Runs the primitive steps of an Optix7Filter computation. *)
Ltac wp7 :=
  repeat first
    [ wp_prim; cbn [Optix7Filter.this Optix7Filter.shared Optix7Filter.dev
                    Optix7Filter.counterBuffer_host Optix7Filter.keyF4]
    | lazymatch goal with
      | |- wp (Optix7Filter.launch _) _ _ => unfold Optix7Filter.launch
      | |- wp Optix7Filter.accumulator_Clear_ON_DEVICE _ _ =>
          unfold Optix7Filter.accumulator_Clear_ON_DEVICE
      | |- wp Optix7Filter.CopyToHost _ _ => unfold Optix7Filter.CopyToHost
      | |- wp Optix7Filter.CopyToDevice _ _ => unfold Optix7Filter.CopyToDevice
      | |- wp (Optix7Filter.update_this _) _ _ => unfold Optix7Filter.update_this
      | |- wp (Optix7Filter.update_dev _) _ _ => unfold Optix7Filter.update_dev
      | |- wp (Optix7Filter.update_counterBuffer_host _) _ _ =>
          unfold Optix7Filter.update_counterBuffer_host
      | |- wp (Optix7Filter.update_coreStats _) _ _ =>
          unfold Optix7Filter.update_coreStats
      | |- wp (Optix7Filter.applyFilter _ _ _ _ _) _ _ =>
          unfold Optix7Filter.applyFilter
      end ].

(** *** What the steps of a frame leave alone: OptixPrime_PBRT *)
Section OptixPrimePBRTKeeps.
Import OptixPrimePBRT.
Context {X : Externals}.
Context {B : Type} (f : CoreData -> B).

Local Abbreviation HostRun := (Run (Call ViewPyramid) Obj).

Lemma keepsP_bind {A A'} (m : HostRun A) (k : A -> HostRun A') :
  keeps f m -> (forall a, keeps f (k a)) -> keeps f (m ≫= k).
Proof. intros Hm Hk o. rewrite state_bind, Hk. apply Hm. Qed.

Lemma keepsP_ret {A} (a : A) : keeps f (mret a : HostRun A).
Proof. intros o. reflexivity. Qed.

Lemma keepsP_get : keeps f (get : HostRun Obj).
Proof. intros o. reflexivity. Qed.

Lemma keepsP_emit c : keeps f (emit c : HostRun unit).
Proof. intros o. reflexivity. Qed.

Lemma keepsP_when b (m : HostRun unit) : keeps f m -> keeps f (when b m).
Proof. destruct b; [trivial|]. intros _ o. reflexivity. Qed.

Lemma keepsP_update_dev g : keeps f (update_dev g).
Proof. intros o. reflexivity. Qed.

Lemma keepsP_update_host g : keeps f (update_counterBuffer_host g).
Proof. intros o. reflexivity. Qed.

Lemma keepsP_update_this g : (forall c, f (g c) = f c) -> keeps f (update_this g).
Proof. intros Hg o. apply Hg. Qed.

Lemma keepsP_launch c : keeps f (launch c).
Proof.
  apply keepsP_bind; [apply keepsP_update_dev|]. intros _. apply keepsP_emit.
Qed.

Lemma keepsP_Clear : keeps f accumulator_Clear_ON_DEVICE.
Proof.
  apply keepsP_bind; [apply keepsP_update_dev|]. intros _. apply keepsP_emit.
Qed.

Lemma keepsP_CopyToHost : keeps f CopyToHost.
Proof.
  apply keepsP_bind; [apply keepsP_get|]. intros o.
  apply keepsP_bind; [apply keepsP_update_host|]. intros _. apply keepsP_emit.
Qed.

Lemma keepsP_CopyToDevice : keeps f CopyToDevice.
Proof.
  apply keepsP_bind; [apply keepsP_get|]. intros o.
  apply keepsP_bind; [apply keepsP_update_dev|]. intros _. apply keepsP_emit.
Qed.

(** A computation that keeps [f] can be run in one step. *)
Lemma wp_keepsP {A} (m : HostRun A) Q o :
  keeps f m ->
  (forall a o' e, f (this o') = f (this o) -> Q a o' e) ->
  wp m Q o.
Proof. intros Hk HQ. apply HQ, Hk. Qed.

End OptixPrimePBRTKeeps.

Ltac keepsP :=
  repeat first
    [ apply keepsP_ret | apply keepsP_get | apply keepsP_emit
    | apply keepsP_update_dev | apply keepsP_update_host
    | apply keepsP_launch | apply keepsP_Clear
    | apply keepsP_CopyToHost | apply keepsP_CopyToDevice
    | apply keepsP_update_this; intros; reflexivity
    | apply keepsP_when
    | apply keepsP_bind; [|intros ?]
    | match goal with
      | |- OptixPrimePBRT.keeps _ (if ?b then _ else _) => destruct b
      end ].

(** Runs the primitive steps of an OptixPrime_PBRT computation. *)
Ltac wpP :=
  repeat first
    [ wp_prim; cbn [OptixPrimePBRT.this OptixPrimePBRT.counterBuffer_host
                    OptixPrimePBRT.dev]
    | lazymatch goal with
      | |- wp (OptixPrimePBRT.launch _) _ _ => unfold OptixPrimePBRT.launch
      | |- wp OptixPrimePBRT.accumulator_Clear_ON_DEVICE _ _ =>
          unfold OptixPrimePBRT.accumulator_Clear_ON_DEVICE
      | |- wp OptixPrimePBRT.CopyToHost _ _ => unfold OptixPrimePBRT.CopyToHost
      | |- wp OptixPrimePBRT.CopyToDevice _ _ => unfold OptixPrimePBRT.CopyToDevice
      | |- wp (OptixPrimePBRT.update_this _) _ _ => unfold OptixPrimePBRT.update_this
      | |- wp (OptixPrimePBRT.update_dev _) _ _ => unfold OptixPrimePBRT.update_dev
      | |- wp (OptixPrimePBRT.update_counterBuffer_host _) _ _ =>
          unfold OptixPrimePBRT.update_counterBuffer_host
      | |- wp (OptixPrimePBRT.update_coreStats _) _ _ =>
          unfold OptixPrimePBRT.update_coreStats
      | |- wp (OptixPrimePBRT.trace_shadow_rays _) _ _ =>
          unfold OptixPrimePBRT.trace_shadow_rays
      end ].

Section OptixPrimePBRTFrame.
Import OptixPrimePBRT.
Context {X : Externals}.

Lemma keeps_frame_loop_bodyP view pathLength pathCount :
  keeps frame (loop_body view pathLength pathCount).
Proof.
  unfold loop_body, extend_and_shade, read_counters, flush_shadow_rays,
    trace_shadow_rays, update_coreStats.
  keepsP.
Qed.

(** The wavefront loop writes nothing of the core object but [coreStats]
    and the roles of the two ray buffers. *)
Lemma keeps_frame_wavefrontP view remaining :
  forall pathLength pathCount actualPathLength,
    keeps frame (wavefront view remaining pathLength pathCount actualPathLength).
Proof.
  induction remaining as [|n IH]; intros pathLength pathCount apl; cbn.
  - apply keepsP_ret.
  - apply keepsP_bind; [apply keeps_frame_loop_bodyP|].
    intros [[] pc]; [apply keepsP_ret | apply IH].
Qed.

(** What [Render] does to the sample count and to the flag, and how its
    calls start when the frame restarts convergence. *)
Lemma PBRT_Render_convergence (o : Obj) view converge async :
  wp (Render view converge async) (fun _ o' e =>
    samplesTaken (this o') =
      (if Convergence_eqb converge Restart || firstConvergingFrame (this o)
       then 0 else samplesTaken (this o)) + scrspp (this o)
    /\ firstConvergingFrame (this o') =
       (if Convergence_eqb converge Converge then false
        else Convergence_eqb converge Restart || firstConvergingFrame (this o))
    /\ (Convergence_eqb converge Restart || firstConvergingFrame (this o) = true ->
        exists rest,
          e = glFinish :: UpdateToplevel (length (instances (this o)))
                :: accumulator_Clear :: rest)) o.
Proof.
  unfold Render. wpP.
  all: (eapply (wp_keepsP frame); [apply keeps_frame_wavefrontP|]);
    intros apl o1 e1 Hframe; cbn in Hframe;
    pose proof (f_equal samplesTaken Hframe) as Hs;
    pose proof (f_equal scrspp Hframe) as Hp;
    pose proof (f_equal firstConvergingFrame Hframe) as Hfl;
    cbn in Hs, Hp, Hfl; wpP; cbn;
    rewrite ?Hs, ?Hp, ?Hfl;
    repeat match goal with H : _ = _ :> bool |- _ => rewrite H end.
  all: repeat split; try reflexivity;
    try (intros Hc; first [discriminate Hc | eexists; reflexivity]).
  all: match goal with H : _ || _ = false |- _ =>
         apply orb_false_elim in H as [_ H]; exact H end.
Qed.

End OptixPrimePBRTFrame.

Section Optix7FilterRender.
Import Optix7Filter.
Context {X : Externals}.

Lemma wp_on_core {A} (m : Run (Call ViewPyramid) Obj A) Q (s : Sys) :
  wp m (fun a o e =>
          Q a (mkSys (this o) (renderThread s) (startEvent s) (doneEvent s)
                     (shared o)) e)
     (mkObj (core s) (env s)) ->
  wp (on_core m) Q s.
Proof.
  unfold wp, on_core.
  destruct (m (mkObj (core s) (env s))) as [[a o] e]. trivial.
Qed.

Lemma wp_on_coreState {A} (m : Run (Call ViewPyramid) Obj A) Q (s : Sys) :
  wp m (fun a o e =>
          Q a (mkSys (core s) (mkThread (this o) (view (renderThread s)))
                     (startEvent s) (doneEvent s) (shared o)) e)
     (mkObj (coreState (renderThread s)) (env s)) ->
  wp (on_coreState m) Q s.
Proof.
  unfold wp, on_coreState.
  destruct (m (mkObj (coreState (renderThread s)) (env s))) as [[a o] e].
  trivial.
Qed.

Lemma RenderImpl_spec view (o : Obj) :
  wp (RenderImpl view) (fun _ o' e =>
    frame (this o') = frame (this o)
    /\ (samplesTaken (this o) = 0 ->
        exists rest,
          e = UpdateToplevel (length (instances (this o)))
                :: accumulator_Clear :: rest)) o.
Proof.
  split; [apply keeps_frame_RenderImpl | apply RenderImpl_calls_clear].
Qed.

Lemma FinalizeRender_spec (o : Obj) :
  wp FinalizeRender (fun _ o' _ =>
    samplesTaken (this o') = samplesTaken (this o) + scrspp (this o)
    /\ firstConvergingFrame (this o') = firstConvergingFrame (this o)) o.
Proof.
  split; [apply FinalizeRender_samplesTaken|].
  exact (f_equal fst (keeps_FinalizeRender_flag o)).
Qed.

(** Runs the steps of [Render] and [WaitForRender] on the system. *)
Ltac wp_sys :=
  repeat first
    [ wp_prim; cbn [core renderThread startEvent doneEvent env this shared
                    coreState view]
    | lazymatch goal with
      | |- wp (update_core _) _ _ => unfold update_core
      | |- wp (on_core (update_this _)) _ _ => apply wp_on_core; apply wp_modify
      end; cbn [core renderThread startEvent doneEvent env this shared
                coreState view] ].

(** A synchronous [Render] on a core that has scene data. *)
Lemma Render_sync_convergence (s : Sys) v converge :
  gpuHasSceneData (core s) = true ->
  wp (Render v converge false) (fun _ s' e =>
    samplesTaken (core s') =
      (if Convergence_eqb converge Restart || firstConvergingFrame (core s)
       then 0 else samplesTaken (core s)) + scrspp (core s)
    /\ firstConvergingFrame (core s') =
       (if Convergence_eqb converge Converge then false
        else Convergence_eqb converge Restart || firstConvergingFrame (core s))
    /\ (Convergence_eqb converge Restart || firstConvergingFrame (core s) = true ->
        exists rest,
          e = glFinish :: pushStagedCopies :: renderTimer_reset
                :: UpdateToplevel (length (instances (core s)))
                :: accumulator_Clear :: rest)) s.
Proof.
  intros Hd. unfold Render. wp_sys.
  { rewrite Hd in *. discriminate. }
  all: apply wp_on_core; (eapply wp_conseq; [apply RenderImpl_spec|]);
    cbn [this shared]; intros _ o1 e1 [Hframe Hcalls]; cbn in Hframe;
    pose proof (f_equal samplesTaken Hframe) as Hs;
    pose proof (f_equal scrspp Hframe) as Hp;
    pose proof (f_equal firstConvergingFrame Hframe) as Hfl;
    cbn in Hs, Hp, Hfl, Hcalls;
    cbn [core renderThread startEvent doneEvent env this shared];
    wp_sys; apply wp_on_core; (eapply wp_conseq; [apply FinalizeRender_spec|]);
    cbn [this shared]; intros _ o2 e2 [Hs2 Hfl2];
    cbn [core renderThread startEvent doneEvent env this shared] in Hs2, Hfl2 |- *;
    wp_sys; cbn;
    rewrite ?Hs2, ?Hfl2, ?Hs, ?Hp, ?Hfl;
    repeat match goal with H : _ = _ :> bool |- _ => rewrite H end.
  all: repeat split; try reflexivity;
    try (intros Hc; first [discriminate Hc
                          | destruct (Hcalls eq_refl) as [rest ->];
                            eexists; reflexivity]).
  all: match goal with H : _ || _ = false |- _ =>
         apply orb_false_elim in H as [_ H]; exact H end.
Qed.

(** An asynchronous [Render] on a core that has scene data. *)
Lemma Render_async_convergence (s : Sys) v converge :
  gpuHasSceneData (core s) = true ->
  wp (Render v converge true) (fun _ s' e =>
    samplesTaken (core s') =
      (if Convergence_eqb converge Restart || firstConvergingFrame (core s)
       then 0 else samplesTaken (core s))
    /\ firstConvergingFrame (core s') =
       (if Convergence_eqb converge Converge then false
        else Convergence_eqb converge Restart || firstConvergingFrame (core s))
    /\ e = [glFinish; pushStagedCopies; renderTimer_reset; RenderThread_Init;
            SetEvent_startEvent]
    /\ startEvent s' = true
    /\ asyncRenderInProgress (core s') = true
    /\ samplesTaken (coreState (renderThread s')) = samplesTaken (core s')
    /\ instances (coreState (renderThread s')) = instances (core s)) s.
Proof.
  intros Hd. unfold Render. wp_sys.
  { rewrite Hd in *. discriminate. }
  all: cbn; repeat match goal with H : _ = _ :> bool |- _ => rewrite H end.
  all: repeat split; try reflexivity.
  all: match goal with H : _ || _ = false |- _ =>
         apply orb_false_elim in H as [_ H]; exact H end.
Qed.

(** The worker, once started on a core state with no sample taken,
    rebuilds the top level and clears the accumulator first. *)
Lemma RenderThread_run_clears (s : Sys) :
  startEvent s = true ->
  samplesTaken (coreState (renderThread s)) = 0 ->
  exists w rest,
    RenderThread_run s = Some w
    /\ calls w =
       UpdateToplevel (length (instances (coreState (renderThread s))))
         :: accumulator_Clear :: rest.
Proof.
  intros Hstart H0. unfold RenderThread_run. rewrite Hstart.
  eexists. 
  match goal with |- exists rest, Some (?m ?s) = _ /\ _ =>
    assert (Hw : wp m (fun _ _ e => exists rest,
      e = UpdateToplevel (length (instances (coreState (renderThread s))))
            :: accumulator_Clear :: rest) s) end.
  { wp_sys. apply wp_on_coreState.
    eapply wp_conseq; [apply RenderImpl_spec|].
    cbn [this shared]. intros _ o1 e1 [_ Hcalls].
    destruct (Hcalls H0) as [rest ->]. wp_sys. cbn. eexists. reflexivity. }
  destruct Hw as [rest Hrest]. exists rest. split; [reflexivity | exact Hrest].
Qed.

End Optix7FilterRender.

(** C5 (as amended): for every call of [Render] that gets past the
    scene-data test (every call in the OptixPrime_PBRT core, a call with
    [gpuHasSceneData] set in the Optix7Filter core): if [converge] is
    [Restart], or [firstConvergingFrame] is set, the sample count is reset
    to zero (so a synchronous frame ends with [scrspp] samples), the
    accumulator is cleared before the accumulation of the frame, right
    after the rebuild of the top-level structure (by the worker, when it
    runs the frame, in asynchronous mode), and the flag ends true for
    [Restart]; if [converge] is [Converge], the flag ends false. *)
Theorem C5_Render_convergence :
  (forall (X : Optix7Filter.Externals) (s : Optix7Filter.Sys) v converge,
      Optix7Filter.gpuHasSceneData (Optix7Filter.core s) = true ->
      let r := Optix7Filter.Render v converge false s in
      let c' := Optix7Filter.core (state r) in
      (converge = Restart
       \/ Optix7Filter.firstConvergingFrame (Optix7Filter.core s) = true ->
       Optix7Filter.samplesTaken c' = 0 + Optix7Filter.scrspp (Optix7Filter.core s)
       /\ (exists rest,
             calls r =
             Optix7Filter.glFinish :: Optix7Filter.pushStagedCopies
               :: Optix7Filter.renderTimer_reset
               :: Optix7Filter.UpdateToplevel
                    (length (Optix7Filter.instances (Optix7Filter.core s)))
               :: Optix7Filter.accumulator_Clear :: rest)
       /\ (converge = Restart -> Optix7Filter.firstConvergingFrame c' = true))
      /\ (converge = Converge -> Optix7Filter.firstConvergingFrame c' = false))
  /\ (forall (X : Optix7Filter.Externals) (s : Optix7Filter.Sys) v converge,
      Optix7Filter.gpuHasSceneData (Optix7Filter.core s) = true ->
      let r := Optix7Filter.Render v converge true s in
      let c' := Optix7Filter.core (state r) in
      (converge = Restart
       \/ Optix7Filter.firstConvergingFrame (Optix7Filter.core s) = true ->
       Optix7Filter.samplesTaken c' = 0
       /\ (exists w rest,
             Optix7Filter.RenderThread_run (state r) = Some w
             /\ calls w =
                Optix7Filter.UpdateToplevel
                  (length (Optix7Filter.instances (Optix7Filter.core s)))
                  :: Optix7Filter.accumulator_Clear :: rest)
       /\ (converge = Restart -> Optix7Filter.firstConvergingFrame c' = true))
      /\ (converge = Converge -> Optix7Filter.firstConvergingFrame c' = false))
  /\ (forall (X : OptixPrimePBRT.Externals) (o : OptixPrimePBRT.Obj)
        v converge async,
      let r := OptixPrimePBRT.Render v converge async o in
      let c' := OptixPrimePBRT.this (state r) in
      (converge = Restart
       \/ OptixPrimePBRT.firstConvergingFrame (OptixPrimePBRT.this o) = true ->
       OptixPrimePBRT.samplesTaken c'
         = 0 + OptixPrimePBRT.scrspp (OptixPrimePBRT.this o)
       /\ (exists rest,
             calls r =
             OptixPrimePBRT.glFinish
               :: OptixPrimePBRT.UpdateToplevel
                    (length (OptixPrimePBRT.instances (OptixPrimePBRT.this o)))
               :: OptixPrimePBRT.accumulator_Clear :: rest)
       /\ (converge = Restart -> OptixPrimePBRT.firstConvergingFrame c' = true))
      /\ (converge = Converge -> OptixPrimePBRT.firstConvergingFrame c' = false)).
Proof.
  assert (Hcond : forall converge flag,
             converge = Restart \/ flag = true ->
             Convergence_eqb converge Restart || flag = true).
  { intros converge flag [->| ->]; [reflexivity | apply orb_true_r]. }
  split; [|split].
  - intros X s v converge Hd r c'.
    destruct (Render_sync_convergence s v converge Hd) as (Hs & Hfl & Hcalls).
    fold r in Hs, Hfl, Hcalls. fold c' in Hs, Hfl. split.
    + intros Hc. apply Hcond in Hc. rewrite Hc in Hs.
      split; [exact Hs|]. split; [exact (Hcalls Hc)|].
      intros ->. exact Hfl.
    + intros ->. exact Hfl.
  - intros X s v converge Hd r c'.
    destruct (Render_async_convergence s v converge Hd)
      as (Hs & Hfl & _ & Hstart & _ & Hts & Hti).
    fold r in Hs, Hfl, Hstart, Hts, Hti. fold c' in Hs, Hfl, Hts. split.
    + intros Hc. apply Hcond in Hc. rewrite Hc in Hs.
      split; [exact Hs|]. split.
      * rewrite <- Hti. apply RenderThread_run_clears; [exact Hstart|].
        rewrite Hts. exact Hs.
      * intros ->. exact Hfl.
    + intros ->. exact Hfl.
  - intros X o v converge async r c'.
    destruct (PBRT_Render_convergence o v converge async) as (Hs & Hfl & Hcalls).
    fold r in Hs, Hfl, Hcalls. fold c' in Hs, Hfl. split.
    + intros Hc. apply Hcond in Hc. rewrite Hc in Hs.
      split; [exact Hs|]. split; [exact (Hcalls Hc)|].
      intros ->. exact Hfl.
    + intros ->. exact Hfl.
Qed.

Lemma C5_Render_convergence_witness :
  let X := Examples.X7 3 (fun n => n / 2) 1 in
  let s := Examples.sys7_ready 3 (fun n => n / 2) 1 in
  let r := @Optix7Filter.Render X tt Restart false s in
  Optix7Filter.gpuHasSceneData (Optix7Filter.core s) = true
  /\ Optix7Filter.samplesTaken (Optix7Filter.core (state r)) = 0 + 1
  /\ Optix7Filter.firstConvergingFrame (Optix7Filter.core (state r)) = true.
Proof.
  intros X s r.
  pose proof (proj1 C5_Render_convergence X s tt Restart eq_refl) as [H _].
  destruct (H (or_introl eq_refl)) as (Hs & _ & Hfl).
  split; [reflexivity|]. split; [exact Hs | exact (Hfl eq_refl)].
Defined.

(** C5, counterexample to the claim as stated: an Optix7Filter core
    without scene data ignores [Render( view, Restart, false )]; the flag
    stays false and no call, so no clearing of the accumulator, is
    issued. *)
Lemma C5_counterexample_no_scene_data :
  let X := Examples.X7 3 (fun n => n / 2) 1 in
  let s := Examples.sys7 3 (fun n => n / 2) 1 in
  let r := @Optix7Filter.Render X tt Restart false s in
  Optix7Filter.firstConvergingFrame (Optix7Filter.core (state r)) = false
  /\ calls r = [].
Proof. cbv zeta. split; reflexivity. Qed.

(** ** Render target *)

Lemma int32_small (z : Z) : - 2 ^ 31 <= z < 2 ^ 31 -> int32 z = z.
Proof. intros H. unfold int32. rewrite Z.mod_small by lia. lia. Qed.

Lemma uint32_small (z : Z) : 0 <= z < 2 ^ 32 -> uint32 z = z.
Proof. intros H. unfold uint32. apply Z.mod_small. exact H. Qed.

(** A target whose pixels, with the sixteenth kept in reserve, are counted
    by an [int]: the 32-bit operations of [SetTarget] are exact. *)
Lemma target_fits (width height : Z) :
  0 <= width -> 0 <= height ->
  width * height + width * height / 16 < 2 ^ 31 ->
  int32 (width * height) = width * height
  /\ int32 (width * height + Z.shiftr (width * height) 4)
     = width * height + width * height / 16
  /\ int32 (width * height + Z.quot (width * height) 16)
     = width * height + width * height / 16
  /\ width * height <= width * height + width * height / 16.
Proof.
  intros Hw Hh Hfit.
  assert (Hp : 0 <= width * height) by nia.
  assert (Hq : 0 <= width * height / 16) by (apply Z.div_pos; lia).
  rewrite Z.shiftr_div_pow2 by lia.
  rewrite Z.quot_div_nonneg by lia.
  change (2 ^ 4) with 16.
  rewrite !int32_small by lia. repeat split; lia.
Qed.

Section Optix7FilterSetTarget.
Import Optix7Filter.
Context {X : Externals}.

Lemma emit_all_eq (cs : list (Call ViewPyramid)) (o : Obj) :
  emit_all cs o = (tt, o, cs).
Proof.
  induction cs as [|c cs IH]; cbn [emit_all].
  - reflexivity.
  - rewrite run_bind_eq. cbn [emit result state calls fst snd]. rewrite IH.
    reflexivity.
Qed.

(** [SetTarget] written out: the core object, the device and the calls it
    leaves. *)
Lemma SetTarget7_eq width height spp (o : Obj) :
  let c := this o in
  let re := SetTarget_reallocate width height spp c in
  let mp := int32 (int32 (width * height)
                   + Z.shiftr (int32 (width * height)) 4) in
  let bs := new_buffers mp spp in
  SetTarget width height spp o =
  (tt,
   mkObj (mkCore width height spp
            (if re then mp else maxPixels c)
            (if re then spp else currentSPP c)
            0 (firstConvergingFrame c) (gpuHasSceneData c)
            (asyncRenderInProgress c) (noDirectLightsInScene c)
            (frameCycle c) (blueSlot c) (camRNGseed c) (j0 c) (j1 c)
            (prevj0 c) (prevj1 c) (probePos c) (vars c) (coreStats c)
            (instances c) (meshes c)
            (if re then bs else buffers c)
            (width, height) (prevView c))
         (mkShared (counterBuffer_host (shared o))
                   (mkDevice (d_counters (dev (shared o))) acc_cleared
                             (d_mem (dev (shared o))))
                   (keyF4 (shared o))),
   [SetTexture width height; LinkToSurface]
   ++ (if re
       then (delete_buffer <$> deleted_buffers (buffers c))
            ++ (new_buffer <$> allocated_buffers bs)
            ++ [stageDebugData;
                printf "buffers resized for %i pixels @ %i samples."]
       else [])
   ++ [accumulator_Clear]).
Proof.
  destruct o as [c [hst [cnt acc mem] k]]. destruct c.
  unfold SetTarget, SetTarget_reallocate, accumulator_Clear_ON_DEVICE,
    update_this, update_dev.
  cbn [this shared maxPixels currentSPP].
  generalize (int32 (width * height)). intros wh.
  destruct ((maxPixels0 <? wh) || negb (spp =? currentSPP0)) eqn:Hre.
  - run_unfold. cbn. rewrite Hre. cbn. reflexivity.
  - run_unfold. cbn. rewrite Hre. cbn. reflexivity.
Qed.

(** The same for a target that fits: the 32-bit operations on the pixel
    count are exact. *)
Lemma SetTarget7_fits width height spp (o : Obj) :
  0 <= width -> 0 <= height ->
  width * height + width * height / 16 < 2 ^ 31 ->
  let c := this o in
  let re := (maxPixels c <? width * height) || negb (spp =? currentSPP c) in
  let mp := width * height + width * height / 16 in
  let bs := new_buffers mp spp in
  SetTarget width height spp o =
  (tt,
   mkObj (mkCore width height spp
            (if re then mp else maxPixels c)
            (if re then spp else currentSPP c)
            0 (firstConvergingFrame c) (gpuHasSceneData c)
            (asyncRenderInProgress c) (noDirectLightsInScene c)
            (frameCycle c) (blueSlot c) (camRNGseed c) (j0 c) (j1 c)
            (prevj0 c) (prevj1 c) (probePos c) (vars c) (coreStats c)
            (instances c) (meshes c)
            (if re then bs else buffers c)
            (width, height) (prevView c))
         (mkShared (counterBuffer_host (shared o))
                   (mkDevice (d_counters (dev (shared o))) acc_cleared
                             (d_mem (dev (shared o))))
                   (keyF4 (shared o))),
   [SetTexture width height; LinkToSurface]
   ++ (if re
       then (delete_buffer <$> deleted_buffers (buffers c))
            ++ (new_buffer <$> allocated_buffers bs)
            ++ [stageDebugData;
                printf "buffers resized for %i pixels @ %i samples."]
       else [])
   ++ [accumulator_Clear]).
Proof.
  intros Hw Hh Hfit. cbv zeta.
  destruct (target_fits width height Hw Hh Hfit) as (E1 & E2 & _ & _).
  rewrite SetTarget7_eq. cbv zeta. unfold SetTarget_reallocate.
  rewrite !E1, !E2. reflexivity.
Qed.

Lemma SetTarget7_test width height spp (c : CoreData) :
  (maxPixels c <? width * height) || negb (spp =? currentSPP c) = true
  <-> (maxPixels c < width * height \/ spp <> currentSPP c).
Proof.
  rewrite orb_true_iff, negb_true_iff, Z.ltb_lt, Z.eqb_neq. reflexivity.
Qed.

(** After [SetTarget] the same target needs no reallocation. *)
Lemma SetTarget7_repeated width height spp (o : Obj) :
  0 <= width -> 0 <= height ->
  width * height + width * height / 16 < 2 ^ 31 ->
  let r1 := SetTarget width height spp o in
  let r2 := SetTarget width height spp (state r1) in
  calls r2 = [SetTexture width height; LinkToSurface; accumulator_Clear]
  /\ state r2 = state r1.
Proof.
  intros Hw Hh Hfit r1 r2. subst r2 r1.
  destruct (target_fits width height Hw Hh Hfit) as (_ & _ & _ & Hle).
  rewrite (SetTarget7_fits width height spp
             (state (SetTarget width height spp o)) Hw Hh Hfit).
  rewrite (SetTarget7_fits width height spp o Hw Hh Hfit).
  cbv zeta. cbn [state calls fst snd this maxPixels currentSPP buffers shared
                 counterBuffer_host dev keyF4 d_counters d_mem
                 firstConvergingFrame gpuHasSceneData asyncRenderInProgress
                 noDirectLightsInScene frameCycle blueSlot camRNGseed j0 j1
                 prevj0 prevj1 probePos vars coreStats instances meshes
                 prevView].
  destruct ((maxPixels (this o) <? width * height)
            || negb (spp =? currentSPP (this o))) eqn:Hre.
  - rewrite Z.eqb_refl.
    destruct (Z.ltb_spec (width * height + width * height / 16)
                (width * height)); [lia|].
    cbn [orb negb app]. split; reflexivity.
  - rewrite Hre. cbn [app]. split; reflexivity.
Qed.

(** [SetTarget] leaves buffers that hold the paths of a frame, when the
    element counts fit an [int]. *)
Lemma SetTarget7_capacity width height spp (o : Obj) :
  0 <= width -> 0 <= height -> 0 <= spp ->
  width * height + width * height / 16 < 2 ^ 31 ->
  buffers_sized (this o)
  \/ SetTarget_reallocate width height spp (this o) = true ->
  let c' := this (state (SetTarget width height spp o)) in
  let pathCount := scrwidth c' * scrheight c' * scrspp c' in
  maxPixels c' * scrspp c' * 3 * 2 < 2 ^ 31 ->
  buffers_sized c'
  /\ scrspp c' = currentSPP c'
  /\ scrwidth c' * scrheight c' <= maxPixels c'
  /\ pathCount <= GetSize (hitBuffer (buffers c'))
  /\ 3 * pathCount <= GetSize (pathStateBuffer (buffers c'))
  /\ 6 * pathCount <= GetSize (connectionBuffer (buffers c')).
Proof.
  intros Hw Hh Hs Hfit Hpre c' pathCount. subst pathCount c'.
  destruct (target_fits width height Hw Hh Hfit) as (E1 & _ & _ & Hle).
  unfold SetTarget_reallocate in Hpre. rewrite E1 in Hpre.
  rewrite (SetTarget7_fits width height spp o Hw Hh Hfit).
  cbv zeta. cbn [state fst snd this].
  unfold buffers_sized in *.
  cbn [scrwidth scrheight scrspp maxPixels currentSPP buffers].
  assert (Hp : 0 <= width * height) by nia.
  destruct ((maxPixels (this o) <? width * height)
            || negb (spp =? currentSPP (this o))) eqn:Hre.
  - intros Hsz. cbn [new_buffers GetSize from_option hitBuffer
                     pathStateBuffer connectionBuffer buf_size].
    rewrite !int32_small by nia.
    repeat split; try reflexivity; nia.
  - destruct Hpre as [Hb|Hb]; [|discriminate Hb].
    apply orb_false_elim in Hre as [Hlt Hspp].
    apply Z.ltb_ge in Hlt. apply negb_false_iff, Z.eqb_eq in Hspp.
    rewrite Hb, <- Hspp. intros Hsz.
    cbn [new_buffers GetSize from_option hitBuffer
         pathStateBuffer connectionBuffer buf_size].
    rewrite !int32_small by nia.
    repeat split; try reflexivity; nia.
Qed.

End Optix7FilterSetTarget.

Section OptixPrimePBRTSetTarget.
Import OptixPrimePBRT.
Context {X : Externals}.

Lemma emit_allP_eq (cs : list (Call ViewPyramid)) (o : Obj) :
  emit_all cs o = (tt, o, cs).
Proof.
  induction cs as [|c cs IH]; cbn [emit_all].
  - reflexivity.
  - rewrite run_bind_eq. cbn [emit result state calls fst snd]. rewrite IH.
    reflexivity.
Qed.

(** [SetTarget] written out: the core object, the device and the calls it
    leaves. *)
Lemma SetTargetP_eq width height spp (o : Obj) :
  let c := this o in
  let re := SetTarget_reallocate width height spp c in
  let mp := int32 (int32 (width * height)
                   + Z.quot (int32 (width * height)) 16) in
  let bs := new_buffers mp spp in
  SetTarget width height spp o =
  (tt,
   mkObj (mkCore width height spp
            (if re then mp else maxPixels c)
            (if re then spp else currentSPP c)
            0 (firstConvergingFrame c) (camRNGseed c) (SMcount c)
            (inBuffer c) (outBuffer c) (probePos c) (vars c) (coreStats c)
            (instances c)
            (if re then bs else buffers c)
            (width, height))
         (counterBuffer_host o)
         (mkDevice (d_counters (dev o)) acc_cleared (d_mem (dev o))),
   [SetTexture width height; LinkToSurface]
   ++ (if re
       then (if maxPixels c =? 0 then []
             else rtpBufferDescDestroy <$>
                    [extensionRaysDesc 0; extensionRaysDesc 1;
                     extensionHitsDesc; shadowRaysDesc; shadowHitsDesc])
            ++ (delete_buffer <$> deleted_buffers (buffers c))
            ++ allocations bs
            ++ [printf "buffers resized for %i pixels @ %i samples."]
       else [])
   ++ [accumulator_Clear]).
Proof.
  destruct o as [c hst [cnt acc mem]]. destruct c.
  unfold SetTarget, SetTarget_reallocate, accumulator_Clear_ON_DEVICE,
    update_this, update_dev.
  cbn [this maxPixels currentSPP].
  generalize (int32 (width * height)). intros wh.
  destruct ((maxPixels0 <? wh) || negb (spp =? currentSPP0)) eqn:Hre.
  - run_unfold. cbn. rewrite Hre. cbn.
    destruct (maxPixels0 =? 0); cbn; reflexivity.
  - run_unfold. cbn. rewrite Hre. cbn. reflexivity.
Qed.

Lemma SetTargetP_fits width height spp (o : Obj) :
  0 <= width -> 0 <= height ->
  width * height + width * height / 16 < 2 ^ 31 ->
  let c := this o in
  let re := (maxPixels c <? width * height) || negb (spp =? currentSPP c) in
  let mp := width * height + width * height / 16 in
  let bs := new_buffers mp spp in
  SetTarget width height spp o =
  (tt,
   mkObj (mkCore width height spp
            (if re then mp else maxPixels c)
            (if re then spp else currentSPP c)
            0 (firstConvergingFrame c) (camRNGseed c) (SMcount c)
            (inBuffer c) (outBuffer c) (probePos c) (vars c) (coreStats c)
            (instances c)
            (if re then bs else buffers c)
            (width, height))
         (counterBuffer_host o)
         (mkDevice (d_counters (dev o)) acc_cleared (d_mem (dev o))),
   [SetTexture width height; LinkToSurface]
   ++ (if re
       then (if maxPixels c =? 0 then []
             else rtpBufferDescDestroy <$>
                    [extensionRaysDesc 0; extensionRaysDesc 1;
                     extensionHitsDesc; shadowRaysDesc; shadowHitsDesc])
            ++ (delete_buffer <$> deleted_buffers (buffers c))
            ++ allocations bs
            ++ [printf "buffers resized for %i pixels @ %i samples."]
       else [])
   ++ [accumulator_Clear]).
Proof.
  intros Hw Hh Hfit. cbv zeta.
  destruct (target_fits width height Hw Hh Hfit) as (E1 & _ & E3 & _).
  rewrite SetTargetP_eq. cbv zeta. unfold SetTarget_reallocate.
  rewrite !E1, !E3. reflexivity.
Qed.

Lemma SetTargetP_test width height spp (c : CoreData) :
  (maxPixels c <? width * height) || negb (spp =? currentSPP c) = true
  <-> (maxPixels c < width * height \/ spp <> currentSPP c).
Proof.
  rewrite orb_true_iff, negb_true_iff, Z.ltb_lt, Z.eqb_neq. reflexivity.
Qed.

Lemma SetTargetP_repeated width height spp (o : Obj) :
  0 <= width -> 0 <= height ->
  width * height + width * height / 16 < 2 ^ 31 ->
  let r1 := SetTarget width height spp o in
  let r2 := SetTarget width height spp (state r1) in
  calls r2 = [SetTexture width height; LinkToSurface; accumulator_Clear]
  /\ state r2 = state r1.
Proof.
  intros Hw Hh Hfit r1 r2. subst r2 r1.
  destruct (target_fits width height Hw Hh Hfit) as (_ & _ & _ & Hle).
  rewrite (SetTargetP_fits width height spp
             (state (SetTarget width height spp o)) Hw Hh Hfit).
  rewrite (SetTargetP_fits width height spp o Hw Hh Hfit).
  cbv zeta. cbn [state calls fst snd this maxPixels currentSPP buffers
                 counterBuffer_host dev d_counters d_mem
                 firstConvergingFrame camRNGseed SMcount inBuffer outBuffer
                 probePos vars coreStats instances].
  destruct ((maxPixels (this o) <? width * height)
            || negb (spp =? currentSPP (this o))) eqn:Hre.
  - rewrite Z.eqb_refl.
    destruct (Z.ltb_spec (width * height + width * height / 16)
                (width * height)); [lia|].
    cbn [orb negb app]. split; reflexivity.
  - rewrite Hre. cbn [app]. split; reflexivity.
Qed.

(** [SetTarget] leaves buffers that hold the paths of a frame, when the
    element counts fit a [uint]. *)
Lemma SetTargetP_capacity width height spp (o : Obj) :
  0 <= width -> 0 <= height -> 0 <= spp ->
  width * height + width * height / 16 < 2 ^ 31 ->
  buffers_sized (this o)
  \/ SetTarget_reallocate width height spp (this o) = true ->
  let c' := this (state (SetTarget width height spp o)) in
  let pathCount := scrwidth c' * scrheight c' * scrspp c' in
  maxPixels c' * scrspp c' * 2 < 2 ^ 32 ->
  buffers_sized c'
  /\ scrspp c' = currentSPP c'
  /\ scrwidth c' * scrheight c' <= maxPixels c'
  /\ pathCount <= GetSize (extensionRayBuffer0 (buffers c'))
  /\ pathCount <= GetSize (extensionRayBuffer1 (buffers c'))
  /\ pathCount <= GetSize (extensionHitBuffer (buffers c'))
  /\ 2 * pathCount <= GetSize (shadowRayBuffer (buffers c')).
Proof.
  intros Hw Hh Hs Hfit Hpre c' pathCount. subst pathCount c'.
  destruct (target_fits width height Hw Hh Hfit) as (E1 & _ & _ & Hle).
  unfold SetTarget_reallocate in Hpre. rewrite E1 in Hpre.
  rewrite (SetTargetP_fits width height spp o Hw Hh Hfit).
  cbv zeta. cbn [state fst snd this].
  unfold buffers_sized in *.
  cbn [scrwidth scrheight scrspp maxPixels currentSPP buffers].
  assert (Hp : 0 <= width * height) by nia.
  destruct ((maxPixels (this o) <? width * height)
            || negb (spp =? currentSPP (this o))) eqn:Hre.
  - intros Hsz. cbn [new_buffers GetSize from_option extensionRayBuffer0
                     extensionRayBuffer1 extensionHitBuffer shadowRayBuffer
                     buf_size].
    rewrite !uint32_small by nia.
    repeat split; try reflexivity; nia.
  - destruct Hpre as [Hb|Hb]; [|discriminate Hb].
    apply orb_false_elim in Hre as [Hlt Hspp].
    apply Z.ltb_ge in Hlt. apply negb_false_iff, Z.eqb_eq in Hspp.
    rewrite Hb, <- Hspp. intros Hsz.
    cbn [new_buffers GetSize from_option extensionRayBuffer0
         extensionRayBuffer1 extensionHitBuffer shadowRayBuffer buf_size].
    rewrite !uint32_small by nia.
    repeat split; try reflexivity; nia.
Qed.

End OptixPrimePBRTSetTarget.

(** C7: in both cores, for every call of [SetTarget] on a target of
    [width] by [height] pixels whose pixel count, with the sixteenth kept
    in reserve, is counted by an [int].  When [width * height] exceeds
    [maxPixels] or [spp] differs from [currentSPP], every device buffer is
    reallocated: the call deletes the old buffers and allocates each
    buffer anew, in the order and with the element counts listed; the new
    [maxPixels] is [width * height] and a sixteenth more, so at least
    [width * height], and the accumulator holds at least that many
    elements.  Otherwise the call allocates and deletes nothing, and
    capacity and buffers stay.  After every call the accumulator is
    cleared and the sample count is zero. *)
Theorem C7_SetTarget_reallocation :
  (forall (X : Optix7Filter.Externals) (o : Optix7Filter.Obj) width height spp,
      0 <= width -> 0 <= height ->
      2 * (width * height + width * height / 16) < 2 ^ 31 ->
      let r := Optix7Filter.SetTarget width height spp o in
      let c := Optix7Filter.this o in
      let c' := Optix7Filter.this (state r) in
      let b := Optix7Filter.buffers c in
      let M := width * height + width * height / 16 in
      let connectionBuffer' :=
        Optix7Filter.mkBuffer Optix7Filter.connectionBuffer_site
          (int32 (M * spp * 3 * 2)) in
      let accumulator' :=
        Optix7Filter.mkBuffer Optix7Filter.accumulator_site (int32 (M * 2)) in
      let hitBuffer' :=
        Optix7Filter.mkBuffer Optix7Filter.hitBuffer_site (int32 (M * spp)) in
      let pathStateBuffer' :=
        Optix7Filter.mkBuffer Optix7Filter.pathStateBuffer_site
          (int32 (M * spp * 3)) in
      let features' := Optix7Filter.mkBuffer Optix7Filter.features_site M in
      let shading' :=
        Optix7Filter.mkBuffer Optix7Filter.shading_site (int32 (M * 2)) in
      let motion' := Optix7Filter.mkBuffer Optix7Filter.motion_site M in
      let moments' := Optix7Filter.mkBuffer Optix7Filter.moments_site M in
      let prevMoments' :=
        Optix7Filter.mkBuffer Optix7Filter.prevMoments_site M in
      let prevPixels' :=
        Optix7Filter.mkBuffer Optix7Filter.prevPixels_site (int32 (M * 2)) in
      let worldPos' := Optix7Filter.mkBuffer Optix7Filter.worldPos_site M in
      let prevWorldPos' :=
        Optix7Filter.mkBuffer Optix7Filter.prevWorldPos_site M in
      let filteredIN' :=
        Optix7Filter.mkBuffer Optix7Filter.filteredIN_site (int32 (M * 2)) in
      let filteredOUT' :=
        Optix7Filter.mkBuffer Optix7Filter.filteredOUT_site (int32 (M * 2)) in
      let deltaDepth' :=
        Optix7Filter.mkBuffer Optix7Filter.deltaDepth_site (int32 (M * 2)) in
      let debugData' := Optix7Filter.mkBuffer Optix7Filter.debugData_site M in
      (Optix7Filter.maxPixels c < width * height
       \/ spp <> Optix7Filter.currentSPP c ->
       calls r =
       [Optix7Filter.SetTexture width height; Optix7Filter.LinkToSurface;
        Optix7Filter.delete_buffer (Optix7Filter.connectionBuffer b);
        Optix7Filter.delete_buffer (Optix7Filter.accumulator b);
        Optix7Filter.delete_buffer (Optix7Filter.hitBuffer b);
        Optix7Filter.delete_buffer (Optix7Filter.pathStateBuffer b);
        Optix7Filter.delete_buffer (Optix7Filter.features b);
        Optix7Filter.delete_buffer (Optix7Filter.motion b);
        Optix7Filter.delete_buffer (Optix7Filter.moments b);
        Optix7Filter.delete_buffer (Optix7Filter.prevMoments b);
        Optix7Filter.delete_buffer (Optix7Filter.prevPixels b);
        Optix7Filter.delete_buffer (Optix7Filter.worldPos b);
        Optix7Filter.delete_buffer (Optix7Filter.prevWorldPos b);
        Optix7Filter.delete_buffer (Optix7Filter.filteredIN b);
        Optix7Filter.delete_buffer (Optix7Filter.filteredOUT b);
        Optix7Filter.delete_buffer (Optix7Filter.deltaDepth b);
        Optix7Filter.delete_buffer (Optix7Filter.debugData b);
        Optix7Filter.new_buffer connectionBuffer';
        Optix7Filter.new_buffer accumulator';
        Optix7Filter.new_buffer hitBuffer';
        Optix7Filter.new_buffer pathStateBuffer';
        Optix7Filter.new_buffer features';
        Optix7Filter.new_buffer shading';
        Optix7Filter.new_buffer motion';
        Optix7Filter.new_buffer moments';
        Optix7Filter.new_buffer prevMoments';
        Optix7Filter.new_buffer prevPixels';
        Optix7Filter.new_buffer worldPos';
        Optix7Filter.new_buffer prevWorldPos';
        Optix7Filter.new_buffer filteredIN';
        Optix7Filter.new_buffer filteredOUT';
        Optix7Filter.new_buffer deltaDepth';
        Optix7Filter.new_buffer debugData';
        Optix7Filter.stageDebugData;
        Optix7Filter.printf "buffers resized for %i pixels @ %i samples.";
        Optix7Filter.accumulator_Clear]
       /\ Optix7Filter.buffers c' =
          Optix7Filter.mkBuffers
            (Some connectionBuffer') (Some accumulator') (Some hitBuffer')
            (Some pathStateBuffer') (Some features') (Some shading')
            (Some motion') (Some moments') (Some prevMoments')
            (Some prevPixels') (Some worldPos') (Some prevWorldPos')
            (Some filteredIN') (Some filteredOUT') (Some deltaDepth')
            (Some debugData')
       /\ Optix7Filter.maxPixels c' = M
       /\ Optix7Filter.currentSPP c' = spp
       /\ width * height <= Optix7Filter.maxPixels c'
       /\ width * height <=
          Optix7Filter.GetSize
            (Optix7Filter.accumulator (Optix7Filter.buffers c')))
      /\ (~ (Optix7Filter.maxPixels c < width * height
             \/ spp <> Optix7Filter.currentSPP c) ->
          calls r =
          [Optix7Filter.SetTexture width height; Optix7Filter.LinkToSurface;
           Optix7Filter.accumulator_Clear]
          /\ Optix7Filter.buffers c' = Optix7Filter.buffers c
          /\ Optix7Filter.maxPixels c' = Optix7Filter.maxPixels c
          /\ Optix7Filter.currentSPP c' = Optix7Filter.currentSPP c)
      /\ d_accumulator (Optix7Filter.dev (Optix7Filter.shared (state r))) =
         Optix7Filter.acc_cleared
      /\ Optix7Filter.samplesTaken c' = 0)
  /\ (forall (X : OptixPrimePBRT.Externals) (o : OptixPrimePBRT.Obj)
        width height spp,
      0 <= width -> 0 <= height ->
      width * height + width * height / 16 < 2 ^ 31 ->
      let r := OptixPrimePBRT.SetTarget width height spp o in
      let c := OptixPrimePBRT.this o in
      let c' := OptixPrimePBRT.this (state r) in
      let b := OptixPrimePBRT.buffers c in
      let M := width * height + width * height / 16 in
      let maxShadowRays := uint32 (M * spp * 2) in
      let extensionHitBuffer' :=
        OptixPrimePBRT.mkBuffer OptixPrimePBRT.extensionHitBuffer_site
          (uint32 (M * spp)) in
      let shadowRayBuffer' :=
        OptixPrimePBRT.mkBuffer OptixPrimePBRT.shadowRayBuffer_site
          maxShadowRays in
      let shadowRayPotential' :=
        OptixPrimePBRT.mkBuffer OptixPrimePBRT.shadowRayPotential_site
          maxShadowRays in
      let shadowHitBuffer' :=
        OptixPrimePBRT.mkBuffer OptixPrimePBRT.shadowHitBuffer_site
          (Z.shiftr (uint32 (maxShadowRays + 31)) 5) in
      let accumulator' :=
        OptixPrimePBRT.mkBuffer OptixPrimePBRT.accumulator_site M in
      let extensionRayBuffer' i :=
        OptixPrimePBRT.mkBuffer (OptixPrimePBRT.extensionRayBuffer_site i)
          (uint32 (M * spp)) in
      let extensionRayExBuffer' i :=
        OptixPrimePBRT.mkBuffer (OptixPrimePBRT.extensionRayExBuffer_site i)
          (uint32 (M * 2 * spp)) in
      (OptixPrimePBRT.maxPixels c < width * height
       \/ spp <> OptixPrimePBRT.currentSPP c ->
       calls r =
       [OptixPrimePBRT.SetTexture width height; OptixPrimePBRT.LinkToSurface]
       ++ (if OptixPrimePBRT.maxPixels c =? 0 then []
           else [OptixPrimePBRT.rtpBufferDescDestroy
                   (OptixPrimePBRT.extensionRaysDesc 0);
                 OptixPrimePBRT.rtpBufferDescDestroy
                   (OptixPrimePBRT.extensionRaysDesc 1);
                 OptixPrimePBRT.rtpBufferDescDestroy
                   OptixPrimePBRT.extensionHitsDesc;
                 OptixPrimePBRT.rtpBufferDescDestroy
                   OptixPrimePBRT.shadowRaysDesc;
                 OptixPrimePBRT.rtpBufferDescDestroy
                   OptixPrimePBRT.shadowHitsDesc])
       ++ [OptixPrimePBRT.delete_buffer (OptixPrimePBRT.extensionRayBuffer0 b);
           OptixPrimePBRT.delete_buffer (OptixPrimePBRT.extensionRayBuffer1 b);
           OptixPrimePBRT.delete_buffer (OptixPrimePBRT.extensionRayExBuffer0 b);
           OptixPrimePBRT.delete_buffer (OptixPrimePBRT.extensionRayExBuffer1 b);
           OptixPrimePBRT.delete_buffer (OptixPrimePBRT.extensionHitBuffer b);
           OptixPrimePBRT.delete_buffer (OptixPrimePBRT.shadowRayBuffer b);
           OptixPrimePBRT.delete_buffer (OptixPrimePBRT.shadowRayPotential b);
           OptixPrimePBRT.delete_buffer (OptixPrimePBRT.shadowHitBuffer b);
           OptixPrimePBRT.delete_buffer (OptixPrimePBRT.accumulator b);
           OptixPrimePBRT.new_buffer extensionHitBuffer';
           OptixPrimePBRT.new_buffer shadowRayBuffer';
           OptixPrimePBRT.new_buffer shadowRayPotential';
           OptixPrimePBRT.new_buffer shadowHitBuffer';
           OptixPrimePBRT.new_buffer accumulator';
           OptixPrimePBRT.new_buffer (extensionRayBuffer' 0);
           OptixPrimePBRT.new_buffer (extensionRayExBuffer' 0);
           OptixPrimePBRT.rtpBufferDescCreate
             (OptixPrimePBRT.extensionRaysDesc 0);
           OptixPrimePBRT.new_buffer (extensionRayBuffer' 1);
           OptixPrimePBRT.new_buffer (extensionRayExBuffer' 1);
           OptixPrimePBRT.rtpBufferDescCreate
             (OptixPrimePBRT.extensionRaysDesc 1);
           OptixPrimePBRT.rtpBufferDescCreate OptixPrimePBRT.extensionHitsDesc;
           OptixPrimePBRT.rtpBufferDescCreate OptixPrimePBRT.shadowRaysDesc;
           OptixPrimePBRT.rtpBufferDescCreate OptixPrimePBRT.shadowHitsDesc;
           OptixPrimePBRT.printf "buffers resized for %i pixels @ %i samples.";
           OptixPrimePBRT.accumulator_Clear]
       /\ OptixPrimePBRT.buffers c' =
          OptixPrimePBRT.mkBuffers
            (Some (extensionRayBuffer' 0)) (Some (extensionRayBuffer' 1))
            (Some (extensionRayExBuffer' 0)) (Some (extensionRayExBuffer' 1))
            (Some extensionHitBuffer') (Some shadowRayBuffer')
            (Some shadowRayPotential') (Some shadowHitBuffer')
            (Some accumulator')
       /\ OptixPrimePBRT.maxPixels c' = M
       /\ OptixPrimePBRT.currentSPP c' = spp
       /\ width * height <= OptixPrimePBRT.maxPixels c'
       /\ width * height <=
          OptixPrimePBRT.GetSize
            (OptixPrimePBRT.accumulator (OptixPrimePBRT.buffers c')))
      /\ (~ (OptixPrimePBRT.maxPixels c < width * height
             \/ spp <> OptixPrimePBRT.currentSPP c) ->
          calls r =
          [OptixPrimePBRT.SetTexture width height;
           OptixPrimePBRT.LinkToSurface; OptixPrimePBRT.accumulator_Clear]
          /\ OptixPrimePBRT.buffers c' = OptixPrimePBRT.buffers c
          /\ OptixPrimePBRT.maxPixels c' = OptixPrimePBRT.maxPixels c
          /\ OptixPrimePBRT.currentSPP c' = OptixPrimePBRT.currentSPP c)
      /\ d_accumulator (OptixPrimePBRT.dev (state r)) =
         OptixPrimePBRT.acc_cleared
      /\ OptixPrimePBRT.samplesTaken c' = 0).
Proof.
  split.
  - intros X o width height spp Hw Hh Hfit2. cbv zeta.
    assert (Hp : 0 <= width * height) by nia.
    assert (Hq : 0 <= width * height / 16) by (apply Z.div_pos; lia).
    assert (Hfit : width * height + width * height / 16 < 2 ^ 31) by lia.
    rewrite (SetTarget7_fits width height spp o Hw Hh Hfit). cbv zeta.
    cbn [state calls fst snd Optix7Filter.this Optix7Filter.shared
         Optix7Filter.dev d_accumulator Optix7Filter.samplesTaken
         Optix7Filter.maxPixels Optix7Filter.currentSPP Optix7Filter.buffers].
    split; [|split; [|split; reflexivity]].
    + intros Hc. apply SetTarget7_test in Hc. rewrite Hc.
      split; [reflexivity|]. split; [reflexivity|]. split; [reflexivity|].
      split; [reflexivity|]. split; [lia|].
      cbn [Optix7Filter.new_buffers Optix7Filter.accumulator
           Optix7Filter.GetSize from_option Optix7Filter.buf_size].
      rewrite int32_small by lia. lia.
    + intros Hc.
      destruct ((Optix7Filter.maxPixels (Optix7Filter.this o) <? width * height)
                || negb (spp =? Optix7Filter.currentSPP (Optix7Filter.this o)))
        eqn:Hre.
      * exfalso. apply Hc. apply SetTarget7_test. exact Hre.
      * repeat split; reflexivity.
  - intros X o width height spp Hw Hh Hfit. cbv zeta.
    assert (Hp : 0 <= width * height) by nia.
    assert (Hq : 0 <= width * height / 16) by (apply Z.div_pos; lia).
    rewrite (SetTargetP_fits width height spp o Hw Hh Hfit). cbv zeta.
    cbn [state calls fst snd OptixPrimePBRT.this OptixPrimePBRT.dev
         d_accumulator OptixPrimePBRT.samplesTaken OptixPrimePBRT.maxPixels
         OptixPrimePBRT.currentSPP OptixPrimePBRT.buffers].
    split; [|split; [|split; reflexivity]].
    + intros Hc. apply SetTargetP_test in Hc. rewrite Hc.
      split.
      { destruct (OptixPrimePBRT.maxPixels (OptixPrimePBRT.this o) =? 0);
          reflexivity. }
      split; [reflexivity|]. split; [reflexivity|].
      split; [reflexivity|]. split; [lia|].
      cbn [OptixPrimePBRT.new_buffers OptixPrimePBRT.accumulator
           OptixPrimePBRT.GetSize from_option OptixPrimePBRT.buf_size].
      lia.
    + intros Hc.
      destruct ((OptixPrimePBRT.maxPixels (OptixPrimePBRT.this o)
                 <? width * height)
                || negb (spp =? OptixPrimePBRT.currentSPP (OptixPrimePBRT.this o)))
        eqn:Hre.
      * exfalso. apply Hc. apply SetTargetP_test. exact Hre.
      * repeat split; reflexivity.
Qed.

(** The scenario of the design: a target of 100 by 100 pixels resized to
    400 by 400.  The capacity of 10625 pixels becomes 170000, and the
    accumulator is allocated anew with 340000 elements. *)
Lemma C7_SetTarget_reallocation_witness :
  let X := Examples.X7 3 (fun n => n / 2) 1 in
  let o := state (@Optix7Filter.SetTarget X 100 100 1
                    (Examples.obj7 3 (fun n => n / 2) 1)) in
  let r := @Optix7Filter.SetTarget X 400 400 1 o in
  Optix7Filter.maxPixels (Optix7Filter.this o) = 10625
  /\ In (Optix7Filter.new_buffer
           (Optix7Filter.mkBuffer Optix7Filter.accumulator_site 340000))
        (calls r)
  /\ Optix7Filter.maxPixels (Optix7Filter.this (state r)) = 170000
  /\ 160000 <= Optix7Filter.maxPixels (Optix7Filter.this (state r))
  /\ d_accumulator (Optix7Filter.dev (Optix7Filter.shared (state r))) = 0%nat
  /\ Optix7Filter.samplesTaken (Optix7Filter.this (state r)) = 0.
Proof.
  intros X o r.
  assert (Hw : 0 <= 400) by lia.
  assert (Hfit : 2 * (400 * 400 + 400 * 400 / 16) < 2 ^ 31)
    by (vm_compute; reflexivity).
  destruct (proj1 C7_SetTarget_reallocation X o 400 400 1 Hw Hw Hfit)
    as (Hre & _ & Hacc & Hs).
  assert (Hold : Optix7Filter.maxPixels (Optix7Filter.this o) = 10625)
    by (vm_compute; reflexivity).
  destruct Hre as (Hcalls & _ & Hmp & _ & Hcap & _).
  { left. rewrite Hold. lia. }
  split; [exact Hold|]. split.
  { fold r in Hcalls. rewrite Hcalls. do 18 right. left. reflexivity. }
  split; [exact Hmp|]. split; [exact Hcap|]. split; [exact Hacc|exact Hs].
Defined.

(** ** The instance list *)

Lemma size_t_of_int_small (z : Z) : 0 <= z < 2 ^ 63 -> size_t_of_int z = z.
Proof. intros Hz. unfold size_t_of_int. apply Z.mod_small. lia. Qed.

Lemma size_t_of_int_negative (z : Z) :
  - 2 ^ 63 <= z < 0 -> 2 ^ 63 <= size_t_of_int z.
Proof.
  intros Hz. unfold size_t_of_int.
  replace z with (z + 2 ^ 64 - 1 * 2 ^ 64) by lia.
  rewrite Zminus_mod, Z_mod_mult, Z.sub_0_r, Z.mod_mod by lia.
  rewrite Z.mod_small; lia.
Qed.

Section Optix7FilterInstances.
Import Optix7Filter.
Context {X : Externals}.

Lemma SetInstance7_truncate (c : CoreData) instanceIdx matrix :
  0 <= instanceIdx < 2 ^ 63 ->
  exists c',
    SetInstance instanceIdx (-1) matrix c = Some c'
    /\ instances c' = take (Z.to_nat instanceIdx) (instances c)
    /\ set_instances [] c' = set_instances [] c.
Proof.
  intros Hidx. unfold SetInstance. rewrite (size_t_of_int_small _ Hidx).
  cbn [Z.eqb Pos.eqb]. destruct (Z.ltb_spec instanceIdx (Z.of_nat (length (instances c)))).
  - eexists. split; [reflexivity|]. split; reflexivity.
  - exists c. split; [reflexivity|]. split; [|reflexivity].
    symmetry. apply take_ge. lia.
Qed.

Lemma SetInstance7_negative (c : CoreData) instanceIdx matrix :
  - 2 ^ 63 <= instanceIdx < 0 ->
  Z.of_nat (length (instances c)) < 2 ^ 63 ->
  SetInstance instanceIdx (-1) matrix c = Some c.
Proof.
  intros Hidx Hlen. unfold SetInstance.
  pose proof (size_t_of_int_negative _ Hidx).
  cbn [Z.eqb Pos.eqb].
  destruct (Z.ltb_spec (size_t_of_int instanceIdx)
                       (Z.of_nat (length (instances c)))); [lia | reflexivity].
Qed.

Lemma SetInstance7_append (c : CoreData) instanceIdx meshIdx matrix m :
  meshIdx <> -1 ->
  instanceIdx = Z.of_nat (length (instances c)) ->
  instanceIdx < 2 ^ 63 ->
  meshes c !! Z.to_nat (size_t_of_int meshIdx) = Some m ->
  SetInstance instanceIdx meshIdx matrix c =
  Some (set_instances
          (instances c ++
           [mkInstance
              (mkOptixInstance OPTIX_INSTANCE_FLAG_NONE instanceIdx 0 255
                               (gasHandle m) (memcpy12 matrix))
              (memcpy12 matrix) meshIdx]) c).
Proof.
  intros Hmesh Hidx Hsmall Hm. unfold SetInstance.
  rewrite size_t_of_int_small by lia.
  destruct (Z.eqb_spec meshIdx (-1)) as [|_]; [contradiction|].
  destruct (Z.leb_spec (Z.of_nat (length (instances c))) instanceIdx); [|lia].
  rewrite Hm. cbn [mbind option_bind].
  rewrite Hidx, Nat2Z.id.
  rewrite list_lookup_middle by reflexivity. cbn [mbind option_bind].
  rewrite insert_app_r_alt, Nat.sub_diag by lia. reflexivity.
Qed.

Lemma SetInstance7_overwrite (c : CoreData) instanceIdx meshIdx matrix old :
  meshIdx <> -1 ->
  0 <= instanceIdx ->
  instances c !! Z.to_nat instanceIdx = Some old ->
  Z.of_nat (length (instances c)) < 2 ^ 63 ->
  SetInstance instanceIdx meshIdx matrix c =
  Some (set_instances
          (<[Z.to_nat instanceIdx :=
               mkInstance
                 (mkOptixInstance (oi_flags (instance old))
                    (oi_instanceId (instance old)) (oi_sbtOffset (instance old))
                    (oi_visibilityMask (instance old))
                    (oi_traversableHandle (instance old)) (memcpy12 matrix))
                 (memcpy12 matrix) meshIdx]> (instances c)) c).
Proof.
  intros Hmesh Hidx Hold Hlen. unfold SetInstance.
  pose proof (lookup_lt_Some _ _ _ Hold) as Hlt.
  rewrite size_t_of_int_small by lia.
  destruct (Z.eqb_spec meshIdx (-1)) as [|_]; [contradiction|].
  destruct (Z.leb_spec (Z.of_nat (length (instances c))) instanceIdx); [lia|].
  cbn [mbind option_bind]. rewrite Hold. reflexivity.
Qed.

Lemma SetInstance7_defined (c c' : CoreData) instanceIdx meshIdx matrix :
  meshIdx <> -1 ->
  0 <= instanceIdx < 2 ^ 63 ->
  SetInstance instanceIdx meshIdx matrix c = Some c' ->
  instanceIdx <= Z.of_nat (length (instances c)).
Proof.
  intros Hmesh Hidx. unfold SetInstance.
  rewrite size_t_of_int_small by lia.
  destruct (Z.eqb_spec meshIdx (-1)) as [|_]; [contradiction|].
  destruct (Z.leb_spec (Z.of_nat (length (instances c))) instanceIdx) as [Hle|]; [|lia].
  destruct (meshes c !! _) as [m|]; [|discriminate]. cbn [mbind option_bind].
  destruct (_ !! Z.to_nat instanceIdx) as [old|] eqn:Hold; [|discriminate].
  intros _. apply lookup_lt_Some in Hold. rewrite length_app in Hold.
  cbn in Hold. lia.
Qed.

End Optix7FilterInstances.

Section OptixPrimePBRTInstances.
Import OptixPrimePBRT.

Lemma SetInstanceP_truncate (c : CoreData) instanceIdx matrix :
  0 <= instanceIdx < 2 ^ 63 ->
  exists c',
    SetInstance instanceIdx (-1) matrix c = Some c'
    /\ instances c' = take (Z.to_nat instanceIdx) (instances c)
    /\ set_instances [] c' = set_instances [] c.
Proof.
  intros Hidx. unfold SetInstance. rewrite (size_t_of_int_small _ Hidx).
  cbn [Z.eqb Pos.eqb]. destruct (Z.ltb_spec instanceIdx (Z.of_nat (length (instances c)))).
  - eexists. split; [reflexivity|]. split; reflexivity.
  - exists c. split; [reflexivity|]. split; [|reflexivity].
    symmetry. apply take_ge. lia.
Qed.

Lemma SetInstanceP_negative (c : CoreData) instanceIdx matrix :
  - 2 ^ 63 <= instanceIdx < 0 ->
  Z.of_nat (length (instances c)) < 2 ^ 63 ->
  SetInstance instanceIdx (-1) matrix c = Some c.
Proof.
  intros Hidx Hlen. unfold SetInstance.
  pose proof (size_t_of_int_negative _ Hidx).
  cbn [Z.eqb Pos.eqb].
  destruct (Z.ltb_spec (size_t_of_int instanceIdx)
                       (Z.of_nat (length (instances c)))); [lia | reflexivity].
Qed.

Lemma SetInstanceP_append (c : CoreData) instanceIdx meshIdx matrix :
  meshIdx <> -1 ->
  instanceIdx = Z.of_nat (length (instances c)) ->
  instanceIdx < 2 ^ 63 ->
  SetInstance instanceIdx meshIdx matrix c =
  Some (set_instances (instances c ++ [mkInstance meshIdx matrix]) c).
Proof.
  intros Hmesh Hidx Hsmall. unfold SetInstance.
  rewrite size_t_of_int_small by lia.
  destruct (Z.eqb_spec meshIdx (-1)) as [|_]; [contradiction|].
  destruct (Z.leb_spec (Z.of_nat (length (instances c))) instanceIdx); [|lia].
  rewrite Hidx, Nat2Z.id.
  rewrite list_lookup_middle by reflexivity. cbn [mbind option_bind].
  rewrite insert_app_r_alt, Nat.sub_diag by lia. reflexivity.
Qed.

Lemma SetInstanceP_overwrite (c : CoreData) instanceIdx meshIdx matrix old :
  meshIdx <> -1 ->
  0 <= instanceIdx ->
  instances c !! Z.to_nat instanceIdx = Some old ->
  Z.of_nat (length (instances c)) < 2 ^ 63 ->
  SetInstance instanceIdx meshIdx matrix c =
  Some (set_instances
          (<[Z.to_nat instanceIdx := mkInstance meshIdx matrix]> (instances c)) c).
Proof.
  intros Hmesh Hidx Hold Hlen. unfold SetInstance.
  pose proof (lookup_lt_Some _ _ _ Hold) as Hlt.
  rewrite size_t_of_int_small by lia.
  destruct (Z.eqb_spec meshIdx (-1)) as [|_]; [contradiction|].
  destruct (Z.leb_spec (Z.of_nat (length (instances c))) instanceIdx); [lia|].
  rewrite Hold. reflexivity.
Qed.

Lemma SetInstanceP_defined (c c' : CoreData) instanceIdx meshIdx matrix :
  meshIdx <> -1 ->
  0 <= instanceIdx < 2 ^ 63 ->
  SetInstance instanceIdx meshIdx matrix c = Some c' ->
  instanceIdx <= Z.of_nat (length (instances c)).
Proof.
  intros Hmesh Hidx. unfold SetInstance.
  rewrite size_t_of_int_small by lia.
  destruct (Z.eqb_spec meshIdx (-1)) as [|_]; [contradiction|].
  destruct (Z.leb_spec (Z.of_nat (length (instances c))) instanceIdx) as [Hle|]; [|lia].
  destruct (_ !! Z.to_nat instanceIdx) as [old|] eqn:Hold; [|discriminate].
  intros _. apply lookup_lt_Some in Hold. rewrite length_app in Hold.
  cbn in Hold. lia.
Qed.

End OptixPrimePBRTInstances.

(** C8 (as amended): in both cores, for every [instanceIdx] that is not
    negative, [SetInstance( instanceIdx, -1, transform )] truncates the
    instance list: its length becomes the minimum of the previous length
    and [instanceIdx], the entries below [instanceIdx] are the old ones,
    and nothing else of the core object changes.  For [meshIdx] other than
    -1 the call appends one instance, with this mesh and transform, when
    [instanceIdx] is the current length (in the Optix7Filter core
    [meshIdx] has to index a mesh), and overwrites mesh and transform of
    the slot in place when [instanceIdx] is below it; it is defined for no
    larger [instanceIdx]. *)
Theorem C8_SetInstance :
  (forall (X : Optix7Filter.Externals) (c : Optix7Filter.CoreData)
      instanceIdx matrix,
      0 <= instanceIdx < 2 ^ 63 ->
      (exists c',
          Optix7Filter.SetInstance instanceIdx (-1) matrix c = Some c'
          /\ length (Optix7Filter.instances c') =
             Nat.min (length (Optix7Filter.instances c)) (Z.to_nat instanceIdx)
          /\ (forall i, (i < Z.to_nat instanceIdx)%nat ->
                Optix7Filter.instances c' !! i = Optix7Filter.instances c !! i)
          /\ Optix7Filter.set_instances [] c' = Optix7Filter.set_instances [] c)
      /\ (forall meshIdx,
          meshIdx <> -1 ->
          Z.of_nat (length (Optix7Filter.instances c)) < 2 ^ 63 ->
          (forall m,
              instanceIdx = Z.of_nat (length (Optix7Filter.instances c)) ->
              Optix7Filter.meshes c !! Z.to_nat (size_t_of_int meshIdx) = Some m ->
              Optix7Filter.SetInstance instanceIdx meshIdx matrix c =
              Some (Optix7Filter.set_instances
                      (Optix7Filter.instances c ++
                       [Optix7Filter.mkInstance
                          (Optix7Filter.mkOptixInstance
                             Optix7Filter.OPTIX_INSTANCE_FLAG_NONE instanceIdx
                             0 255 (Optix7Filter.gasHandle m)
                             (Optix7Filter.memcpy12 matrix))
                          (Optix7Filter.memcpy12 matrix) meshIdx]) c))
          /\ (forall old,
              Optix7Filter.instances c !! Z.to_nat instanceIdx = Some old ->
              Optix7Filter.SetInstance instanceIdx meshIdx matrix c =
              Some (Optix7Filter.set_instances
                      (<[Z.to_nat instanceIdx :=
                           Optix7Filter.update_CoreInstance meshIdx matrix old]>
                         (Optix7Filter.instances c)) c))
          /\ (forall c',
              Optix7Filter.SetInstance instanceIdx meshIdx matrix c = Some c' ->
              instanceIdx <= Z.of_nat (length (Optix7Filter.instances c)))))
  /\ (forall (c : OptixPrimePBRT.CoreData) instanceIdx matrix,
      0 <= instanceIdx < 2 ^ 63 ->
      (exists c',
          OptixPrimePBRT.SetInstance instanceIdx (-1) matrix c = Some c'
          /\ length (OptixPrimePBRT.instances c') =
             Nat.min (length (OptixPrimePBRT.instances c)) (Z.to_nat instanceIdx)
          /\ (forall i, (i < Z.to_nat instanceIdx)%nat ->
                OptixPrimePBRT.instances c' !! i = OptixPrimePBRT.instances c !! i)
          /\ OptixPrimePBRT.set_instances [] c' = OptixPrimePBRT.set_instances [] c)
      /\ (forall meshIdx,
          meshIdx <> -1 ->
          Z.of_nat (length (OptixPrimePBRT.instances c)) < 2 ^ 63 ->
          (instanceIdx = Z.of_nat (length (OptixPrimePBRT.instances c)) ->
           OptixPrimePBRT.SetInstance instanceIdx meshIdx matrix c =
           Some (OptixPrimePBRT.set_instances
                   (OptixPrimePBRT.instances c ++
                    [OptixPrimePBRT.mkInstance meshIdx matrix]) c))
          /\ (forall old,
              OptixPrimePBRT.instances c !! Z.to_nat instanceIdx = Some old ->
              OptixPrimePBRT.SetInstance instanceIdx meshIdx matrix c =
              Some (OptixPrimePBRT.set_instances
                      (<[Z.to_nat instanceIdx :=
                           OptixPrimePBRT.mkInstance meshIdx matrix]>
                         (OptixPrimePBRT.instances c)) c))
          /\ (forall c',
              OptixPrimePBRT.SetInstance instanceIdx meshIdx matrix c = Some c' ->
              instanceIdx <= Z.of_nat (length (OptixPrimePBRT.instances c))))).
Proof.
  split.
  - intros X c instanceIdx matrix Hidx. split.
    + destruct (SetInstance7_truncate c instanceIdx matrix Hidx)
        as (c' & Hc' & Hinst & Hframe).
      exists c'. split; [exact Hc'|]. rewrite Hinst.
      split; [rewrite length_take; lia|]. split; [|exact Hframe].
      intros i Hi. apply lookup_take_lt. exact Hi.
    + intros meshIdx Hmesh Hlen. split; [|split].
      * intros m Heq Hm. apply SetInstance7_append; [assumption | assumption | lia | assumption].
      * intros old Hold.
        apply (SetInstance7_overwrite c instanceIdx meshIdx matrix old);
          [assumption | lia | assumption | assumption].
      * intros c'. apply SetInstance7_defined; assumption.
  - intros c instanceIdx matrix Hidx. split.
    + destruct (SetInstanceP_truncate c instanceIdx matrix Hidx)
        as (c' & Hc' & Hinst & Hframe).
      exists c'. split; [exact Hc'|]. rewrite Hinst.
      split; [rewrite length_take; lia|]. split; [|exact Hframe].
      intros i Hi. apply lookup_take_lt. exact Hi.
    + intros meshIdx Hmesh Hlen. split; [|split].
      * intros Heq. apply SetInstanceP_append; [assumption | assumption | lia].
      * intros old Hold.
        apply (SetInstanceP_overwrite c instanceIdx meshIdx matrix old);
          [assumption | lia | assumption | assumption].
      * intros c'. apply SetInstanceP_defined; assumption.
Qed.

Lemma C8_SetInstance_witness :
  let c := Examples.coreP2 in
  let m := Examples.mat_identity in
  0 <= 1 < 2 ^ 63
  /\ (exists c', OptixPrimePBRT.SetInstance 1 (-1) m c = Some c'
                 /\ length (OptixPrimePBRT.instances c') = 1%nat)
  /\ OptixPrimePBRT.SetInstance 1 7 m c =
     Some (OptixPrimePBRT.set_instances
             [OptixPrimePBRT.mkInstance 0 m; OptixPrimePBRT.mkInstance 7 m] c).
Proof.
  intros c m.
  assert (Hidx : 0 <= 1 < 2 ^ 63) by lia.
  destruct (proj2 C8_SetInstance c 1 m Hidx) as [Htrunc Hset].
  split; [exact Hidx|]. split.
  - destruct Htrunc as (c' & Hc' & Hlen & _). exists c'. split; assumption.
  - assert (Hmesh : 7 <> -1) by lia.
    assert (Hlen : Z.of_nat (length (OptixPrimePBRT.instances c)) < 2 ^ 63)
      by (cbn; lia).
    destruct (Hset 7 Hmesh Hlen) as (_ & Hover & _).
    exact (Hover (OptixPrimePBRT.mkInstance 0 m) eq_refl).
Defined.

(** C8, counterexample to the claim as stated: a negative [instanceIdx]
    becomes a huge [size_t], so the test [instances.size() > instanceIdx]
    fails and a list of two instances keeps its length, which is not the
    minimum of 2 and -1; and with a mesh, an [instanceIdx] beyond the
    length leaves the vector after the append. *)
Lemma C8_counterexample_negative_index :
  let c := Examples.coreP2 in
  let m := Examples.mat_identity in
  OptixPrimePBRT.SetInstance (-1) (-1) m c = Some c
  /\ length (OptixPrimePBRT.instances c) = 2%nat
  /\ Z.min 2 (-1) = -1
  /\ OptixPrimePBRT.SetInstance 5 0 m c = None.
Proof. cbv zeta. repeat split; vm_compute; reflexivity. Qed.

(** ** The wavefront loop *)

(** The number of calls of one kind among the calls of a computation. *)
Lemma count_app {A} (p : A -> bool) (l1 l2 : list A) :
  length (List.filter p (l1 ++ l2)) =
  (length (List.filter p l1) + length (List.filter p l2))%nat.
Proof. rewrite List.filter_app, length_app. reflexivity. Qed.

Section Optix7FilterLoop.
Import Optix7Filter.
Context {X : Externals}.

(** The first half of an iteration shades once and resolves no shadow
    ray. *)
Lemma extend_and_shade_calls pathLength pathCount (o : Obj) :
  wp (extend_and_shade pathLength pathCount) (fun _ _ e =>
    existsb is_shadow_launch e = false
    /\ length (List.filter is_shade e) = 1%nat) o.
Proof. unfold extend_and_shade. wp7; cbn; split; reflexivity. Qed.

Lemma read_counters_spec (o : Obj) :
  wp read_counters (fun res o' e =>
    let counters := d_counters (dev (shared o)) in
    let pathCount := uint32 (extensionRays counters) in
    res = (pathCount =? 0, pathCount, counters)
    /\ existsb is_shadow_launch e = overflow_test o
    /\ length (List.filter is_shade e) = 0%nat
    /\ (overflow_test o = true ->
        shadowRays (counterBuffer_host (shared o')) = 0
        /\ shadowRays (d_counters (dev (shared o'))) = 0)) o.
Proof.
  unfold read_counters, flush_shadow_rays, overflow_test.
  wp7; cbn; (split; [|split; [|split; [|intros Hflush]]]);
    repeat match goal with
           | H : _ && _ = true |- _ => apply andb_prop in H as [? ?]
           | H : _ = _ :> bool |- _ => rewrite H in *; clear H
           end;
    cbn in *; try congruence; split; reflexivity.
Qed.

(** The shadow rays are flushed in an iteration exactly when the overflow
    test holds after its shading pass, and then the counter is zero on
    host and device at the end of the iteration. *)
Lemma loop_body_flush pathLength pathCount (o : Obj) :
  let o1 := state (extend_and_shade pathLength pathCount o) in
  let r := loop_body pathLength pathCount o in
  existsb is_shadow_launch (calls r) = overflow_test o1
  /\ length (List.filter is_shade (calls r)) = 1%nat
  /\ result r =
     (uint32 (extensionRays (d_counters (dev (shared o1)))) =? 0,
      uint32 (extensionRays (d_counters (dev (shared o1)))),
      d_counters (dev (shared o1)))
  /\ (overflow_test o1 = true ->
      shadowRays (counterBuffer_host (shared (state r))) = 0
      /\ shadowRays (d_counters (dev (shared (state r)))) = 0).
Proof.
  intros o1 r. subst r. unfold loop_body.
  rewrite run_bind_eq. cbn [calls state result fst snd].
  destruct (extend_and_shade_calls pathLength pathCount o) as [Hes1 Hes2].
  destruct (read_counters_spec o1) as (Hres & Hfl & Hsh & Hzero).
  fold o1. rewrite existsb_app, count_app, Hes1, Hes2, Hfl, Hsh, Hres.
  repeat split; try reflexivity; apply Hzero; assumption.
Qed.

(** The loop runs at most [remaining] iterations. *)
Lemma wavefront_iterations remaining :
  forall pathLength pathCount counters (o : Obj),
    (length (List.filter is_shade
               (calls (wavefront remaining pathLength pathCount counters o)))
     <= remaining)%nat.
Proof.
  induction remaining as [|n IH]; intros pathLength pathCount counters o;
    cbn [wavefront].
  - cbn. lia.
  - rewrite calls_bind, count_app.
    destruct (loop_body_flush pathLength pathCount o) as (_ & Hsh & Hres & _).
    rewrite Hsh.
    destruct (result (loop_body pathLength pathCount o)) as [[brk pc] cs].
    destruct brk.
    + cbn. lia.
    + specialize (IH (pathLength + 1) pc cs (state (loop_body pathLength pathCount o))).
      lia.
Qed.

(** When the path count read back after the shading pass of an iteration
    is zero, the loop ends with this iteration. *)
Lemma wavefront_stops remaining pathLength pathCount counters (o : Obj) :
  let o1 := state (extend_and_shade pathLength pathCount o) in
  uint32 (extensionRays (d_counters (dev (shared o1)))) = 0 ->
  let r := wavefront (S remaining) pathLength pathCount counters o in
  calls r = calls (loop_body pathLength pathCount o)
  /\ state r = state (loop_body pathLength pathCount o)
  /\ length (List.filter is_shade (calls r)) = 1%nat.
Proof.
  intros o1 Hzero r. subst r. cbn [wavefront].
  destruct (loop_body_flush pathLength pathCount o) as (_ & Hsh & Hres & _).
  fold o1 in Hres. rewrite Hzero in Hres. cbn [Z.eqb] in Hres.
  rewrite run_bind_eq. cbn [calls state result fst snd].
  rewrite Hres. cbn. rewrite app_nil_r. repeat split. exact Hsh.
Qed.

End Optix7FilterLoop.

Section OptixPrimePBRTLoop.
Import OptixPrimePBRT.
Context {X : Externals}.

Lemma swapped_S n (r : Z * Z) : swapped (S n) r = swapped n (r.2, r.1).
Proof. exact (Nat.iter_succ_r n (fun r : Z * Z => (r.2, r.1)) r). Qed.

(** The first half of an iteration shades once, resolves no shadow ray
    and keeps the roles of the ray buffers. *)
Lemma extend_and_shadeP_calls view pathLength pathCount (o : Obj) :
  wp (extend_and_shade view pathLength pathCount) (fun _ o' e =>
    existsb is_any_query e = false
    /\ length (List.filter is_shade e) = 1%nat
    /\ length (List.filter is_swap e) = 0%nat
    /\ roles (this o') = roles (this o)) o.
Proof. unfold extend_and_shade. wpP; cbn; repeat split; reflexivity. Qed.

(** Right after the flush the shadow ray counter is zero on host and
    device. *)
Lemma flush_shadow_raysP_zero (o : Obj) :
  wp flush_shadow_rays (fun _ o' e =>
    existsb is_any_query e = true
    /\ length (List.filter is_shade e) = 0%nat
    /\ length (List.filter is_swap e) = 0%nat
    /\ this o' = this o
    /\ shadowRays (counterBuffer_host o') = 0
    /\ shadowRays (d_counters (dev o')) = 0) o.
Proof. unfold flush_shadow_rays. wpP; cbn; repeat split; reflexivity. Qed.

Lemma read_countersP_spec (o : Obj) :
  wp read_counters (fun pathCount o' e =>
    pathCount = uint32 (extensionRays (d_counters (dev o)))
    /\ existsb is_any_query e = overflow_test o
    /\ length (List.filter is_shade e) = 0%nat
    /\ length (List.filter is_swap e) = 1%nat
    /\ roles (this o') = ((roles (this o)).2, (roles (this o)).1)
    /\ (overflow_test o = true -> shadowRays (counterBuffer_host o') = 0)) o.
Proof.
  unfold read_counters, overflow_test. wpP.
  - eapply wp_conseq; [apply flush_shadow_raysP_zero|].
    cbn [this counterBuffer_host dev].
    intros _ o1 e1 (Hq & Hsh & Hsw & Hthis & Hhost & Hdev).
    wpP. cbn [this counterBuffer_host dev].
    rewrite !existsb_app, !count_app, Hq, Hsh, Hsw, Hthis.
    cbn. repeat split; try reflexivity; try assumption;
      try (symmetry; assumption); intros _; assumption.
  - cbn. repeat split; try reflexivity; try congruence;
      symmetry; assumption.
Qed.

(** One iteration: it shades once; unless it is the last one it swaps the
    ray buffers once and flushes the shadow rays exactly when the overflow
    test holds. *)
Lemma loop_bodyP_spec view pathLength pathCount (o : Obj) :
  let o1 := state (extend_and_shade view pathLength pathCount o) in
  let last := pathLength =? Z.of_nat MAXPATHLENGTH in
  let r := loop_body view pathLength pathCount o in
  (result r).1 = last
  /\ existsb is_any_query (calls r) = negb last && overflow_test o1
  /\ length (List.filter is_shade (calls r)) = 1%nat
  /\ length (List.filter is_swap (calls r)) = (if last then 0 else 1)%nat
  /\ roles (this (state r)) =
     (if last then roles (this o)
      else ((roles (this o)).2, (roles (this o)).1))
  /\ (negb last && overflow_test o1 = true ->
      shadowRays (counterBuffer_host (state r)) = 0).
Proof.
  intros o1 last r. subst r. unfold loop_body.
  rewrite run_bind_eq. cbn [calls state result fst snd].
  destruct (extend_and_shadeP_calls view pathLength pathCount o)
    as (Hq & Hsh & Hsw & Hroles).
  fold o1 in Hroles |- *. fold last.
  rewrite !existsb_app, !count_app, Hq, Hsh, Hsw.
  destruct last.
  - cbn. repeat split; try reflexivity; try discriminate; try exact Hroles.
  - rewrite run_bind_eq. cbn [calls state result fst snd mret Run_ret].
    destruct (read_countersP_spec o1) as (_ & Hq1 & Hsh1 & Hsw1 & Hr1 & Hz1).
    rewrite app_nil_r, Hq1, Hsh1, Hsw1, Hr1, Hroles.
    cbn. repeat split; try reflexivity; try exact Hz1.
Qed.

(** The loop started at [pathLength] with [remaining] iterations that end
    at or before [MAXPATHLENGTH]: it shades [remaining] times, and swaps
    once per iteration except in the iteration at [MAXPATHLENGTH]. *)
Lemma wavefrontP_counts view remaining :
  forall pathLength pathCount actualPathLength (o : Obj),
    pathLength + Z.of_nat remaining - 1 <= Z.of_nat MAXPATHLENGTH ->
    let r := wavefront view remaining pathLength pathCount actualPathLength o in
    let swaps :=
      if pathLength + Z.of_nat remaining - 1 =? Z.of_nat MAXPATHLENGTH
      then Nat.pred remaining else remaining in
    length (List.filter is_shade (calls r)) = remaining
    /\ length (List.filter is_swap (calls r)) = swaps
    /\ roles (this (state r)) = swapped swaps (roles (this o)).
Proof.
  induction remaining as [|n IH]; intros pathLength pathCount apl o Hbound.
  - cbn. destruct (_ =? _); repeat split; reflexivity.
  - cbn [wavefront]. cbv zeta.
    rewrite run_bind_eq. cbn [calls state result fst snd].
    destruct (loop_bodyP_spec view pathLength pathCount o)
      as (Hbrk & _ & Hsh & Hsw & Hroles & _).
    destruct (loop_body view pathLength pathCount o) as [[[brk pc] o2] e2].
    cbn [calls state result fst snd] in *. subst brk.
    rewrite !count_app, Hsh, Hsw.
    destruct (Z.eqb_spec pathLength (Z.of_nat MAXPATHLENGTH)) as [Hlast|Hnot].
    + assert (n = 0%nat) by lia. subst n.
      replace (pathLength + Z.of_nat 1 - 1 =? Z.of_nat MAXPATHLENGTH) with true
        by (symmetry; apply Z.eqb_eq; lia).
      cbn. repeat split. exact Hroles.
    + assert (Hb : pathLength + 1 + Z.of_nat n - 1 <= Z.of_nat MAXPATHLENGTH) by lia.
      destruct (IH (pathLength + 1) pc pathLength o2 Hb) as (IHsh & IHsw & IHr).
      rewrite IHsh, IHsw, IHr, Hroles.
      replace (pathLength + Z.of_nat (S n) - 1) with (pathLength + 1 + Z.of_nat n - 1)
        by lia.
      destruct (Z.eqb_spec (pathLength + 1 + Z.of_nat n - 1) (Z.of_nat MAXPATHLENGTH)).
      * assert (n <> 0%nat) by lia. destruct n as [|n']; [contradiction|].
        cbn [Nat.pred]. repeat split; try lia.
        rewrite swapped_S. reflexivity.
      * repeat split; try lia. rewrite swapped_S. reflexivity.
Qed.

(** The first iterations of the loop are the same whatever the number of
    iterations that remain after them. *)
Lemma wavefrontP_prefix view n :
  forall k pathLength pathCount actualPathLength (o : Obj),
    pathLength + Z.of_nat n - 1 < Z.of_nat MAXPATHLENGTH ->
    exists rest,
      calls (wavefront view (n + k) pathLength pathCount actualPathLength o) =
      calls (wavefront view n pathLength pathCount actualPathLength o) ++ rest.
Proof.
  induction n as [|n IH]; intros k pathLength pathCount apl o Hbound.
  - cbn. eexists. reflexivity.
  - cbn [Nat.add wavefront]. rewrite !run_bind_eq. cbn [calls state result fst snd].
    destruct (loop_bodyP_spec view pathLength pathCount o) as (Hbrk & _).
    destruct (loop_body view pathLength pathCount o) as [[[brk pc] o2] e2].
    cbn [calls state result fst snd] in *.
    destruct (Z.eqb_spec pathLength (Z.of_nat MAXPATHLENGTH)); [lia|].
    subst brk.
    destruct (IH k (pathLength + 1) pc pathLength o2) as [rest Hrest]; [lia|].
    rewrite Hrest. exists rest. rewrite app_assoc. reflexivity.
Qed.

End OptixPrimePBRTLoop.

(** When the loops flush: in the Optix7Filter loop the shadow rays are
    flushed in an iteration exactly when, for the counters read back
    after its shading pass, the continuing path count is not zero, the
    pending shadow ray count is not zero, and their 32-bit sum reaches
    the capacity of the connection buffer; in the OptixPrime_PBRT loop
    exactly when the iteration is not the one at [MAXPATHLENGTH] and the
    32-bit sum reaches the capacity of the shadow ray buffer.  At the end of an
    iteration that flushed, the host copy of the shadow ray counter is
    zero (in the Optix7Filter core the device copy too), and right after
    the flush of the OptixPrime_PBRT core both copies are zero. *)
Theorem shadow_ray_flush_condition :
  (forall (X : Optix7Filter.Externals) (o : Optix7Filter.Obj)
      pathLength pathCount,
      let o1 := state (Optix7Filter.extend_and_shade pathLength pathCount o) in
      let counters := d_counters (Optix7Filter.dev (Optix7Filter.shared o1)) in
      let continuing := uint32 (extensionRays counters) in
      let r := Optix7Filter.loop_body pathLength pathCount o in
      let flushed := existsb Optix7Filter.is_shadow_launch (calls r) in
      (flushed = true <->
       (continuing <> 0
        /\ Optix7Filter.maxShadowRays (Optix7Filter.this o1)
           <= uint32 (continuing + shadowRays counters)
        /\ 0 < shadowRays counters))
      /\ (flushed = true ->
          shadowRays (Optix7Filter.counterBuffer_host
                        (Optix7Filter.shared (state r))) = 0
          /\ shadowRays (d_counters (Optix7Filter.dev
                           (Optix7Filter.shared (state r)))) = 0))
  /\ (forall (X : OptixPrimePBRT.Externals) (o : OptixPrimePBRT.Obj)
        view pathLength pathCount,
      let o1 := state (OptixPrimePBRT.extend_and_shade view pathLength pathCount o) in
      let counters := d_counters (OptixPrimePBRT.dev o1) in
      let continuing := uint32 (extensionRays counters) in
      let r := OptixPrimePBRT.loop_body view pathLength pathCount o in
      let flushed := existsb OptixPrimePBRT.is_any_query (calls r) in
      (flushed = true <->
       (pathLength <> Z.of_nat OptixPrimePBRT.MAXPATHLENGTH
        /\ OptixPrimePBRT.maxShadowRays (OptixPrimePBRT.this o1)
           <= uint32 (shadowRays counters + continuing)))
      /\ (flushed = true ->
          shadowRays (OptixPrimePBRT.counterBuffer_host (state r)) = 0))
  /\ (forall (X : OptixPrimePBRT.Externals) (o : OptixPrimePBRT.Obj),
      let o' := state (OptixPrimePBRT.flush_shadow_rays o) in
      shadowRays (OptixPrimePBRT.counterBuffer_host o') = 0
      /\ shadowRays (d_counters (OptixPrimePBRT.dev o')) = 0).
Proof.
  split; [|split].
  - intros X o pathLength pathCount o1 counters continuing r flushed.
    destruct (loop_body_flush pathLength pathCount o) as (Hfl & _ & _ & Hzero).
    fold o1 r in Hfl, Hzero. fold flushed in Hfl. rewrite Hfl.
    split; [|exact Hzero].
    unfold Optix7Filter.overflow_test. fold counters continuing.
    rewrite !andb_true_iff, negb_true_iff, Z.eqb_neq, Z.leb_le, Z.ltb_lt.
    tauto.
  - intros X o view pathLength pathCount o1 counters continuing r flushed.
    destruct (loop_bodyP_spec view pathLength pathCount o)
      as (_ & Hfl & _ & _ & _ & Hzero).
    fold o1 r in Hfl, Hzero. fold flushed in Hfl. rewrite Hfl.
    split; [|exact Hzero].
    unfold OptixPrimePBRT.overflow_test. fold counters continuing.
    rewrite andb_true_iff, negb_true_iff, Z.eqb_neq, Z.leb_le. tauto.
  - intros X o o'.
    destruct (flush_shadow_raysP_zero o) as (_ & _ & _ & _ & Hhost & Hdev).
    split; assumption.
Qed.

(** A device on which the first shading pass over 16 paths leaves 8
    continuing paths and 40 shadow rays, more than the 34 the connection
    buffer holds: the iteration flushes. *)
Lemma shadow_ray_flush_condition_witness :
  let X := Examples.X7 3 (fun n => n / 2) 40 in
  let o := Examples.obj7_4x4 3 (fun n => n / 2) 40 in
  let o1 := state (@Optix7Filter.extend_and_shade X 1 16 o) in
  let counters := d_counters (Optix7Filter.dev (Optix7Filter.shared o1)) in
  let r := @Optix7Filter.loop_body X 1 16 o in
  (uint32 (extensionRays counters) <> 0
   /\ Optix7Filter.maxShadowRays (Optix7Filter.this o1)
      <= uint32 (uint32 (extensionRays counters) + shadowRays counters)
   /\ 0 < shadowRays counters)
  /\ existsb Optix7Filter.is_shadow_launch (calls r) = true
  /\ shadowRays (Optix7Filter.counterBuffer_host
                   (Optix7Filter.shared (state r))) = 0.
Proof.
  intros X o o1 counters r.
  assert (Hcond : uint32 (extensionRays counters) <> 0
                  /\ Optix7Filter.maxShadowRays (Optix7Filter.this o1)
                     <= uint32 (uint32 (extensionRays counters) + shadowRays counters)
                  /\ 0 < shadowRays counters).
  { vm_compute. repeat split; discriminate. }
  destruct (proj1 shadow_ray_flush_condition X o 1 16) as [Hiff Hzero].
  split; [exact Hcond|].
  split; [exact (proj2 Hiff Hcond)|].
  exact (proj1 (Hzero (proj2 Hiff Hcond))).
Defined.

(** The sum of continuing paths and pending shadow rays can reach the
    capacity in an iteration that does not flush.  In the Optix7Filter
    loop with no path continuing (0 + 40 against 34) and with no shadow
    ray pending (40 + 0 against 34); in the OptixPrime_PBRT loop in the
    iteration at [MAXPATHLENGTH] (8 + 40 against 34). *)
Lemma shadow_ray_flush_skipped :
  (let X := Examples.X7 3 (fun _ => 0) 40 in
   let o := Examples.obj7_4x4 3 (fun _ => 0) 40 in
   let o1 := state (@Optix7Filter.extend_and_shade X 1 16 o) in
   let counters := d_counters (Optix7Filter.dev (Optix7Filter.shared o1)) in
   Optix7Filter.maxShadowRays (Optix7Filter.this o1)
     <= uint32 (extensionRays counters) + shadowRays counters
   /\ existsb Optix7Filter.is_shadow_launch
        (calls (@Optix7Filter.loop_body X 1 16 o)) = false)
  /\ (let X := Examples.X7 3 (fun _ => 40) 0 in
      let o := Examples.obj7_4x4 3 (fun _ => 40) 0 in
      let o1 := state (@Optix7Filter.extend_and_shade X 1 16 o) in
      let counters := d_counters (Optix7Filter.dev (Optix7Filter.shared o1)) in
      Optix7Filter.maxShadowRays (Optix7Filter.this o1)
        <= uint32 (extensionRays counters) + shadowRays counters
      /\ existsb Optix7Filter.is_shadow_launch
           (calls (@Optix7Filter.loop_body X 1 16 o)) = false)
  /\ (let X := Examples.XP 3 (fun n => n / 2) 40 in
      let o := Examples.objP_4x4 3 (fun n => n / 2) 40 in
      let o1 := state (@OptixPrimePBRT.extend_and_shade X tt 3 16 o) in
      let counters := d_counters (OptixPrimePBRT.dev o1) in
      OptixPrimePBRT.maxShadowRays (OptixPrimePBRT.this o1)
        <= uint32 (extensionRays counters) + shadowRays counters
      /\ existsb OptixPrimePBRT.is_any_query
           (calls (@OptixPrimePBRT.loop_body X tt 3 16 o)) = false).
Proof.
  cbv zeta. split; [|split]; (split; [vm_compute; discriminate|vm_compute; reflexivity]).
Qed.

(** C2: the loop of the OptixPrime_PBRT core never stops early.  Started
    as [Render] starts it, it runs [MAXPATHLENGTH] shading passes whatever
    the counters hold; on a device whose first pass leaves no path, the
    second and third pass are still submitted, over zero paths.  (The
    bound of [MAXPATHLENGTH] iterations holds; the stop at a zero path
    count is what the loop lacks.) *)
Theorem C2_PBRT_loop_ignores_zero_path_count :
  (forall (X : OptixPrimePBRT.Externals) view pathCount (o : OptixPrimePBRT.Obj),
      length (List.filter OptixPrimePBRT.is_shade
                (calls (OptixPrimePBRT.wavefront view OptixPrimePBRT.MAXPATHLENGTH
                          1 pathCount 0 o)))
      = OptixPrimePBRT.MAXPATHLENGTH)
  /\ (let X := Examples.XP 3 (fun _ => 0) 0 in
      let o := Examples.objP_4x4 3 (fun _ => 0) 0 in
      uint32 (extensionRays
                (d_counters (OptixPrimePBRT.dev
                   (state (@OptixPrimePBRT.extend_and_shade X tt 1 16 o))))) = 0
      /\ List.filter OptixPrimePBRT.is_shade
           (calls (@OptixPrimePBRT.wavefront X tt 3 1 16 0 o))
         = [OptixPrimePBRT.shade 16 0 1 91771 0 0 1 tt;
            OptixPrimePBRT.shade 0 1 0 183542 0 0 2 tt;
            OptixPrimePBRT.shade 0 0 1 275313 0 0 3 tt]).
Proof.
  split.
  - intros X view pathCount o.
    destruct (wavefrontP_counts view OptixPrimePBRT.MAXPATHLENGTH 1 pathCount 0 o)
      as (Hsh & _); [lia|exact Hsh].
  - cbv zeta. split; vm_compute; reflexivity.
Qed.

Section OptixPrimePBRTQueues.
Import OptixPrimePBRT.
Context {X : Externals}.

(** The first half of an iteration traces the input queue and shades
    from the input queue into the output queue. *)
Lemma extend_and_shadeP_queues view pathLength pathCount (o : Obj) :
  wp (extend_and_shade view pathLength pathCount) (fun _ o' e =>
    omap query_queue e = [inBuffer (this o)]
    /\ omap shade_queues e = [roles (this o)]) o.
Proof. unfold extend_and_shade. wpP; cbn; split; reflexivity. Qed.

(** The second half neither traces an extension ray nor shades. *)
Lemma read_countersP_queues (o : Obj) :
  wp read_counters (fun _ o' e =>
    omap query_queue e = [] /\ omap shade_queues e = []) o.
Proof.
  unfold read_counters, flush_shadow_rays, trace_shadow_rays.
  wpP; cbn; split; reflexivity.
Qed.

Lemma loop_bodyP_queues view pathLength pathCount (o : Obj) :
  let r := loop_body view pathLength pathCount o in
  omap query_queue (calls r) = [inBuffer (this o)]
  /\ omap shade_queues (calls r) = [roles (this o)].
Proof.
  intros r. subst r. unfold loop_body.
  rewrite run_bind_eq. cbn [calls state result fst snd].
  destruct (extend_and_shadeP_queues view pathLength pathCount o) as [Hq Hs].
  rewrite !omap_app, Hq, Hs.
  destruct (pathLength =? Z.of_nat MAXPATHLENGTH).
  - cbn. split; reflexivity.
  - rewrite run_bind_eq. cbn [calls state result fst snd mret Run_ret].
    destruct (read_countersP_queues
                (state (extend_and_shade view pathLength pathCount o)))
      as [Hq1 Hs1].
    rewrite !omap_app, Hq1, Hs1. cbn. split; reflexivity.
Qed.

(** The queues of the passes of the loop: pass [k], counted from zero,
    traces and shades the queue that is the input after [k] swaps, and
    writes the extension rays to the queue that is the output then. *)
Lemma wavefrontP_queues view remaining :
  forall pathLength pathCount actualPathLength (o : Obj),
    pathLength + Z.of_nat remaining - 1 <= Z.of_nat MAXPATHLENGTH ->
    let r := wavefront view remaining pathLength pathCount actualPathLength o in
    omap shade_queues (calls r)
    = (fun k => swapped k (roles (this o))) <$> seq 0 remaining
    /\ omap query_queue (calls r)
       = (fun k => (swapped k (roles (this o))).1) <$> seq 0 remaining.
Proof.
  induction remaining as [|n IH]; intros pathLength pathCount apl o Hbound.
  - cbn. split; reflexivity.
  - cbn [wavefront]. cbv zeta.
    rewrite run_bind_eq. cbn [calls state result fst snd].
    destruct (loop_bodyP_spec view pathLength pathCount o)
      as (Hbrk & _ & _ & _ & Hroles & _).
    destruct (loop_bodyP_queues view pathLength pathCount o) as [Hq Hs].
    destruct (loop_body view pathLength pathCount o) as [[[brk pc] o2] e2].
    cbn [calls state result fst snd] in *. subst brk.
    rewrite !omap_app, Hq, Hs.
    destruct (Z.eqb_spec pathLength (Z.of_nat MAXPATHLENGTH)) as [Hlast|Hnot].
    + assert (n = 0%nat) by lia. subst n. cbn. split; reflexivity.
    + destruct (IH (pathLength + 1) pc pathLength o2) as [IHs IHq]; [lia|].
      rewrite IHs, IHq, Hroles.
      cbn [seq fmap list_fmap app]. rewrite <- seq_shift.
      rewrite <- !list_fmap_compose.
      split; f_equal; apply list_fmap_ext; intros i k _; unfold compose;
        rewrite swapped_S; reflexivity.
Qed.

End OptixPrimePBRTQueues.

(** C6 (as amended): in the OptixPrime_PBRT loop of one frame, after [N]
    bounce iterations (N shading passes) the roles of the two extension
    ray queues have been swapped [N] times when [N < MAXPATHLENGTH], and
    [N - 1] times when [N = MAXPATHLENGTH]: the last iteration leaves the
    loop before the swap.  Pass [k] of the [N], counted from zero, traces
    the queue that is the input after [k] swaps, and its shading pass
    reads that queue and writes the extension rays to the queue that is
    the output after [k] swaps.  The first [N < MAXPATHLENGTH] iterations
    are a prefix of the whole loop. *)
Theorem C6_ping_pong_swaps (X : OptixPrimePBRT.Externals) view (N : nat)
    pathCount actualPathLength (o : OptixPrimePBRT.Obj) :
  (N <= OptixPrimePBRT.MAXPATHLENGTH)%nat ->
  let r := OptixPrimePBRT.wavefront view N 1 pathCount actualPathLength o in
  let swaps :=
    if (N =? OptixPrimePBRT.MAXPATHLENGTH)%nat then Nat.pred N else N in
  let queues k :=
    OptixPrimePBRT.swapped k (OptixPrimePBRT.roles (OptixPrimePBRT.this o)) in
  length (List.filter OptixPrimePBRT.is_shade (calls r)) = N
  /\ length (List.filter OptixPrimePBRT.is_swap (calls r)) = swaps
  /\ OptixPrimePBRT.roles (OptixPrimePBRT.this (state r)) = queues swaps
  /\ omap OptixPrimePBRT.shade_queues (calls r) = queues <$> seq 0 N
  /\ omap OptixPrimePBRT.query_queue (calls r)
     = (fun k => (queues k).1) <$> seq 0 N
  /\ ((N < OptixPrimePBRT.MAXPATHLENGTH)%nat ->
      exists rest,
        calls (OptixPrimePBRT.wavefront view OptixPrimePBRT.MAXPATHLENGTH 1
                 pathCount actualPathLength o) = calls r ++ rest).
Proof.
  intros HN r swaps queues.
  destruct (wavefrontP_counts view N 1 pathCount actualPathLength o)
    as (Hsh & Hsw & Hroles); [lia|].
  destruct (wavefrontP_queues view N 1 pathCount actualPathLength o)
    as (Hsq & Hqq); [lia|].
  assert (Hswaps :
            (if 1 + Z.of_nat N - 1 =? Z.of_nat OptixPrimePBRT.MAXPATHLENGTH
             then Nat.pred N else N) = swaps).
  { subst swaps.
    destruct (Nat.eqb_spec N OptixPrimePBRT.MAXPATHLENGTH) as [->|Hne].
    - replace (1 + Z.of_nat OptixPrimePBRT.MAXPATHLENGTH - 1)
        with (Z.of_nat OptixPrimePBRT.MAXPATHLENGTH) by lia.
      rewrite Z.eqb_refl. reflexivity.
    - destruct (Z.eqb_spec (1 + Z.of_nat N - 1)
                  (Z.of_nat OptixPrimePBRT.MAXPATHLENGTH)); [lia|reflexivity]. }
  rewrite Hswaps in Hsw, Hroles.
  split; [exact Hsh|]. split; [exact Hsw|]. split; [exact Hroles|].
  split; [exact Hsq|]. split; [exact Hqq|].
  intros Hlt.
  destruct (wavefrontP_prefix view N (OptixPrimePBRT.MAXPATHLENGTH - N) 1
              pathCount actualPathLength o) as [rest Hrest]; [lia|].
  exists rest.
  replace (N + (OptixPrimePBRT.MAXPATHLENGTH - N))%nat
    with OptixPrimePBRT.MAXPATHLENGTH in Hrest by lia.
  exact Hrest.
Qed.

(** Two iterations of a loop of at most three: two shading passes, the
    first from queue 0 into queue 1 and the second from queue 1 into
    queue 0, two swaps, and the queues are back in their initial
    roles. *)
Lemma C6_ping_pong_swaps_witness :
  let X := Examples.XP 3 (fun n => n / 2) 1 in
  let o := Examples.objP_4x4 3 (fun n => n / 2) 1 in
  let r := @OptixPrimePBRT.wavefront X tt 2 1 16 0 o in
  (2 <= @OptixPrimePBRT.MAXPATHLENGTH X)%nat
  /\ length (List.filter OptixPrimePBRT.is_shade (calls r)) = 2%nat
  /\ length (List.filter OptixPrimePBRT.is_swap (calls r)) = 2%nat
  /\ omap OptixPrimePBRT.shade_queues (calls r) = [(0, 1); (1, 0)]
  /\ OptixPrimePBRT.roles (OptixPrimePBRT.this (state r))
     = OptixPrimePBRT.roles (OptixPrimePBRT.this o).
Proof.
  intros X o r.
  assert (HN : (2 <= @OptixPrimePBRT.MAXPATHLENGTH X)%nat) by (cbn; lia).
  destruct (C6_ping_pong_swaps X tt 2 16 0 o HN)
    as (Hsh & Hsw & Hroles & Hq & _).
  split; [exact HN|]. split; [exact Hsh|]. split; [exact Hsw|].
  split; [exact Hq|exact Hroles].
Defined.

(** C6, counterexample to the claim as stated: with [MAXPATHLENGTH = 3],
    the three iterations of a frame swap the queues twice, and the input
    queue ends where it started. *)
Lemma C6_counterexample_last_iteration :
  let X := Examples.XP 3 (fun n => n / 2) 1 in
  let o := Examples.objP_4x4 3 (fun n => n / 2) 1 in
  let r := @OptixPrimePBRT.wavefront X tt 3 1 16 0 o in
  length (List.filter OptixPrimePBRT.is_shade (calls r)) = 3%nat
  /\ length (List.filter OptixPrimePBRT.is_swap (calls r)) = 2%nat
  /\ OptixPrimePBRT.roles (OptixPrimePBRT.this (state r))
     = OptixPrimePBRT.roles (OptixPrimePBRT.this o).
Proof. cbv zeta. split; [|split]; vm_compute; reflexivity. Qed.

Section ShadingFacts.
Import ShadingSpec.
Context {Path ShadowRay : Type}.
Variable shade_path : Z -> Path -> @Shaded Path ShadowRay.

Lemma shade_thread_extensionRays pathLength p (q : @Queues Path ShadowRay) :
  let q' := shade_thread shade_path pathLength p q in
  extensionRays (counters q) <= extensionRays (counters q')
    <= extensionRays (counters q) + 1
  /\ Z.of_nat (length (extensionQueue q')) - extensionRays (counters q')
     = Z.of_nat (length (extensionQueue q)) - extensionRays (counters q).
Proof.
  unfold shade_thread.
  destruct (continuation (shade_path pathLength p)) as [p'|]; cbn.
  - rewrite length_app. cbn. lia.
  - lia.
Qed.

Lemma shade_fold_extensionRays pathLength (l : list Path) :
  forall q : @Queues Path ShadowRay,
    let q' := foldl (fun q p => shade_thread shade_path pathLength p q) q l in
    extensionRays (counters q) <= extensionRays (counters q')
      <= extensionRays (counters q) + Z.of_nat (length l)
    /\ Z.of_nat (length (extensionQueue q')) - extensionRays (counters q')
       = Z.of_nat (length (extensionQueue q)) - extensionRays (counters q).
Proof.
  induction l as [|p l IH]; intros q; cbn [foldl length].
  - cbv zeta. lia.
  - specialize (IH (shade_thread shade_path pathLength p q)).
    pose proof (shade_thread_extensionRays pathLength p q) as Hp.
    cbv zeta in *. lia.
Qed.

End ShadingFacts.

(** C3: after a shading pass, the extension ray counter (and the 32-bit
    value read back from it) is at most the path count submitted to the
    pass, and it is the number of rays the pass wrote to the output
    queue: each path yields at most one continuation ray. *)
Theorem C3_extension_rays_bounded {Path ShadowRay : Type}
    (shade_path : Z -> Path -> @ShadingSpec.Shaded Path ShadowRay)
    (pathLength : Z) (pathCount : nat) (input : list Path)
    (q : @ShadingSpec.Queues Path ShadowRay) :
  let q' := ShadingSpec.shading_pass shade_path pathLength pathCount input q in
  let n := extensionRays (ShadingSpec.counters q') in
  0 <= n <= Z.of_nat pathCount
  /\ uint32 n <= Z.of_nat pathCount
  /\ n = Z.of_nat (length (ShadingSpec.extensionQueue q')).
Proof.
  intros q' n. subst n q'.
  unfold ShadingSpec.shading_pass, ShadingSpec.shade.
  pose proof (shade_fold_extensionRays shade_path pathLength
                (take pathCount input) (ShadingSpec.InitCounters q)) as H.
  cbv zeta in H. cbn [ShadingSpec.InitCounters ShadingSpec.counters
                      ShadingSpec.extensionQueue extensionRays length] in H.
  pose proof (length_take_le input pathCount) as Hlen.
  assert (Hle : (length (take pathCount input) <= pathCount)%nat).
  { rewrite length_take. lia. }
  set (n := extensionRays _) in *.
  assert (Hn : 0 <= n <= Z.of_nat pathCount) by lia.
  split; [exact Hn|]. split; [|lia].
  unfold uint32.
  pose proof (Z.mod_le n (2 ^ 32)) as Hmod. lia.
Qed.

(** The loop of the Optix7Filter core submits at most [MAXPATHLENGTH]
    shading passes per frame, and an iteration whose readback shows no
    continuing path is the last one: the rest of the loop issues no call
    and changes no state. *)
Theorem Optix7Filter_loop_stops_at_zero (X : Optix7Filter.Externals)
    (remaining : nat) pathLength pathCount counters (o : Optix7Filter.Obj) :
  uint32 (extensionRays
            (d_counters (Optix7Filter.dev (Optix7Filter.shared
               (state (Optix7Filter.extend_and_shade pathLength pathCount o))))))
  = 0 ->
  let r := Optix7Filter.wavefront (S remaining) pathLength pathCount counters o in
  calls r = calls (Optix7Filter.loop_body pathLength pathCount o)
  /\ state r = state (Optix7Filter.loop_body pathLength pathCount o)
  /\ length (List.filter Optix7Filter.is_shade (calls r)) = 1%nat
  /\ (forall pathCount' counters' (o' : Optix7Filter.Obj),
        (length (List.filter Optix7Filter.is_shade
                   (calls (Optix7Filter.wavefront Optix7Filter.MAXPATHLENGTH 1
                             pathCount' counters' o')))
         <= Optix7Filter.MAXPATHLENGTH)%nat).
Proof.
  intros Hzero r.
  destruct (wavefront_stops remaining pathLength pathCount counters o Hzero)
    as (Hcalls & Hstate & Hsh).
  split; [exact Hcalls|]. split; [exact Hstate|]. split; [exact Hsh|].
  intros pathCount' counters' o'. apply wavefront_iterations.
Qed.

(** A device whose first pass over 16 paths leaves none: the loop of at
    most three iterations makes one. *)
Lemma Optix7Filter_loop_stops_at_zero_witness :
  let X := Examples.X7 3 (fun _ => 0) 0 in
  let o := Examples.obj7_4x4 3 (fun _ => 0) 0 in
  let r := @Optix7Filter.wavefront X 3 1 16 Examples.counters0 o in
  uint32 (extensionRays
            (d_counters (Optix7Filter.dev (Optix7Filter.shared
               (state (@Optix7Filter.extend_and_shade X 1 16 o)))))) = 0
  /\ calls r = calls (@Optix7Filter.loop_body X 1 16 o)
  /\ length (List.filter Optix7Filter.is_shade (calls r)) = 1%nat.
Proof.
  intros X o r.
  assert (Hzero : uint32 (extensionRays
            (d_counters (Optix7Filter.dev (Optix7Filter.shared
               (state (@Optix7Filter.extend_and_shade X 1 16 o)))))) = 0)
    by (vm_compute; reflexivity).
  destruct (Optix7Filter_loop_stops_at_zero X 2 1 16 Examples.counters0 o Hzero)
    as (Hcalls & _ & Hsh & _).
  split; [exact Hzero|]. split; [exact Hcalls|exact Hsh].
Defined.

(** ** The resolve after the loop of the Optix7Filter core *)

Section Optix7FilterLastFlush.
Import Optix7Filter.
Context {X : Externals}.

Local Abbreviation HostCall := (Call ViewPyramid).




(** The calls of a flush of [n] shadow rays. *)
Local Abbreviation flush_calls n :=
  [optixLaunch SPAWN_SHADOW n 1 1; counterBuffer_CopyToDevice;
   printf "WARNING: connection buffer overflowed."].








End Optix7FilterLastFlush.



(** * Further properties of the Optix7Filter core *)

Section Optix7FilterCommutes.
Import Optix7Filter.
Context {X : Externals}.
Variable f : CoreData -> CoreData.

Lemma commutes_ret {A} (a : A) : commutes f (mret a).
Proof. intros o. reflexivity. Qed.

Lemma commutes_emit c : commutes f (emit c).
Proof. intros o. reflexivity. Qed.

Lemma commutes_bind {A B} (m : Run (Call ViewPyramid) Obj A)
    (k : A -> Run (Call ViewPyramid) Obj B) :
  commutes f m -> (forall a, commutes f (k a)) -> commutes f (m ≫= k).
Proof.
  intros Hm Hk o. rewrite !run_bind_eq, Hm. cbn [result state calls fst snd].
  rewrite Hk. reflexivity.
Qed.

(** Reading the object: the rest of the computation must not look at what
    [f] changes. *)
Lemma commutes_get {A} (k : Obj -> Run (Call ViewPyramid) Obj A) :
  (forall o, commutes f (k o)) ->
  (forall o s, k (shift f o) s = k o s) ->
  commutes f (get ≫= k).
Proof.
  intros Hk Heq o. rewrite !run_bind_eq. cbn [get result state calls fst snd].
  rewrite Heq, Hk. cbn [app]. reflexivity.
Qed.

Lemma commutes_update_this g :
  (forall c, f (g c) = g (f c)) -> commutes f (update_this g).
Proof.
  intros Hg o. unfold update_this, modify, shift. cbn. rewrite Hg. reflexivity.
Qed.

Lemma commutes_update_dev g : commutes f (update_dev g).
Proof. intros o. reflexivity. Qed.

Lemma commutes_update_host g : commutes f (update_counterBuffer_host g).
Proof. intros o. reflexivity. Qed.

Lemma commutes_when (b : bool) m : commutes f m -> commutes f (when b m).
Proof. intros Hm. destruct b; [exact Hm | apply commutes_ret]. Qed.

Lemma commutes_launch c : commutes f (launch c).
Proof. intros o. reflexivity. Qed.

Lemma commutes_Clear : commutes f accumulator_Clear_ON_DEVICE.
Proof. intros o. reflexivity. Qed.

Lemma commutes_CopyToHost : commutes f CopyToHost.
Proof. intros o. reflexivity. Qed.

Lemma commutes_CopyToDevice : commutes f CopyToDevice.
Proof. intros o. reflexivity. Qed.

End Optix7FilterCommutes.

(** Steps through an Optix7Filter computation that commutes with a setter
    of the core object.  Side conditions on what the code reads are
    closed by computation on a core object in constructor form. *)
Ltac commutes7 :=
  repeat first
    [ apply commutes_ret | apply commutes_emit
    | apply commutes_update_dev | apply commutes_update_host
    | apply commutes_launch | apply commutes_Clear
    | apply commutes_CopyToHost | apply commutes_CopyToDevice
    | apply commutes_update_this; intros []; reflexivity
    | apply commutes_when
    | apply commutes_get; [intros ? | intros [[] ?] ?; reflexivity]
    | apply commutes_bind; [|intros ?]
    | match goal with
      | |- Optix7Filter.commutes _ (if ?b then _ else _) => destruct b
      | |- Optix7Filter.commutes _ (let '(_, _) := ?p in _) => destruct p
      end ].

Section Optix7FilterAsync.
Import Optix7Filter.
Context {X : Externals}.

Lemma commutes_loop_body b pathLength pathCount :
  commutes (set_asyncRenderInProgress b) (loop_body pathLength pathCount).
Proof.
  unfold loop_body, extend_and_shade, read_counters, flush_shadow_rays,
    update_coreStats.
  commutes7.
Qed.

Lemma commutes_wavefront b remaining :
  forall pathLength pathCount counters,
    commutes (set_asyncRenderInProgress b)
             (wavefront remaining pathLength pathCount counters).
Proof.
  induction remaining as [|n IH]; intros pathLength pathCount counters; cbn.
  - apply commutes_ret.
  - apply commutes_bind; [apply commutes_loop_body|].
    intros [[[] pc] cs]; [apply commutes_ret | apply IH].
Qed.

Lemma commutes_RenderImpl b view :
  commutes (set_asyncRenderInProgress b) (RenderImpl view).
Proof.
  unfold RenderImpl, update_coreStats. commutes7. apply commutes_wavefront.
Qed.

End Optix7FilterAsync.

Section Optix7FilterProtocol.
Import Optix7Filter.
Context {X : Externals}.

(** What [RenderImpl] leaves of a core object: the object with new
    statistics and a new seed. *)
Lemma frame_eq (c c1 : CoreData) :
  frame c1 = frame c ->
  c1 = set_coreStats (coreStats c1) (set_camRNGseed (camRNGseed c1) c).
Proof.
  destruct c, c1. cbn. intros H. injection H. intros. subst. reflexivity.
Qed.

Lemma Render_sync_eq (s : Sys) v converge :
  gpuHasSceneData (core s) = true ->
  let rI := RenderImpl v (mkObj (Render_prepare converge (core s)) (env s)) in
  let rF := FinalizeRender (state rI) in
  Render v converge false s =
  (tt,
   mkSys (set_prevView v (this (state rF))) (renderThread s) (startEvent s)
         (doneEvent s) (shared (state rF)),
   [glFinish; pushStagedCopies; renderTimer_reset] ++ calls rI ++ calls rF).
Proof.
  intros Hd rI rF. subst rI rF. unfold Render, Render_prepare.
  destruct s as [c th se de sh]. cbn [core env] in *.
  rewrite run_bind_eq. cbn [get result state calls fst snd core]. rewrite Hd.
  cbn [negb].
  destruct (Convergence_eqb converge Restart || firstConvergingFrame c);
    destruct (Convergence_eqb converge Converge);
    destruct (negb (TAAEnabled (vars c) =? 0) && negb (filterEnabled (vars c) =? 0));
    unfold update_core, on_core, when; run_unfold; cbn;
    repeat (match goal with
       | |- context [RenderImpl ?v ?o] =>
           destruct (RenderImpl v o) as [[[] [? ?]] ?]
       | |- context [FinalizeRender ?o] =>
           destruct (FinalizeRender o) as [[[] [? ?]] ?]
       end; cbn);
    rewrite ?app_nil_r; reflexivity.
Qed.


Lemma Render_async_eq (s : Sys) v converge :
  gpuHasSceneData (core s) = true ->
  let c' := set_asyncRenderInProgress true (Render_prepare converge (core s)) in
  Render v converge true s =
  (tt,
   mkSys (set_prevView v c') (mkThread c' v) true (doneEvent s) (env s),
   [glFinish; pushStagedCopies; renderTimer_reset; RenderThread_Init;
    SetEvent_startEvent]).
Proof.
  intros Hd c'. subst c'. unfold Render, Render_prepare.
  destruct s as [c th se de sh]. cbn [core env] in *.
  rewrite run_bind_eq. cbn [get result state calls fst snd core]. rewrite Hd.
  cbn [negb].
  destruct (Convergence_eqb converge Restart || firstConvergingFrame c);
    destruct (Convergence_eqb converge Converge);
    destruct (negb (TAAEnabled (vars c) =? 0) && negb (filterEnabled (vars c) =? 0));
    unfold update_core, on_core, when; run_unfold; cbn; reflexivity.
Qed.

Lemma RenderThread_run_eq (s : Sys) :
  startEvent s = true ->
  let rI := RenderImpl (view (renderThread s))
                       (mkObj (coreState (renderThread s)) (env s)) in
  RenderThread_run s =
  Some (tt,
        mkSys (core s) (mkThread (this (state rI)) (view (renderThread s)))
              false true (shared (state rI)),
        calls rI ++ [SetEvent_doneEvent]).
Proof.
  intros Hs rI. subst rI. unfold RenderThread_run. rewrite Hs.
  destruct s as [c [cs vw] se de sh]. unfold on_coreState. run_unfold. cbn.
  destruct (RenderImpl vw _) as [[[] [? ?]] ?]. cbn. reflexivity.
Qed.

Lemma WaitForRender_eq (s : Sys) :
  asyncRenderInProgress (core s) = true ->
  doneEvent s = true ->
  let cs := coreState (renderThread s) in
  let rF := FinalizeRender
              (mkObj (set_camRNGseed (camRNGseed cs)
                        (set_coreStats (coreStats cs)
                           (set_asyncRenderInProgress false (core s))))
                     (env s)) in
  WaitForRender s =
  Some (tt,
        mkSys (this (state rF)) (renderThread s) (startEvent s) false
              (shared (state rF)),
        calls rF).
Proof.
  intros Ha Hdn cs rF. subst cs rF. unfold WaitForRender. rewrite Ha, Hdn.
  destruct s as [c [cs vw] se de sh]. unfold update_core, on_core.
  run_unfold. cbn.
  destruct (FinalizeRender _) as [[[] [? ?]] ?]. cbn. reflexivity.
Qed.

(** Without the filter, [FinalizeRender] does not look at [prevView]. *)
Lemma FinalizeRender_prevView v (o : Obj) :
  filter_active (this o) = false ->
  FinalizeRender (shift (set_prevView v) o) =
  (tt, shift (set_prevView v) (state (FinalizeRender o)),
   calls (FinalizeRender o)).
Proof.
  destruct o as [c sh]. destruct c.
  unfold FinalizeRender, applyFilter, launch, update_this, update_dev,
    filter_active, shift.
  cbn [this buffers vars]. intros Hf.
  run_unfold. cbn. rewrite Hf. cbn. reflexivity.
Qed.

End Optix7FilterProtocol.

Section Optix7FilterEmits.
Import Optix7Filter.
Context {X : Externals}.
Variable P : Call ViewPyramid -> bool.

Lemma emits_ret {A} (a : A) : emits_only P (mret a).
Proof. intros o. reflexivity. Qed.

Lemma emits_get : emits_only P get.
Proof. intros o. reflexivity. Qed.

Lemma emits_emit c : P c = true -> emits_only P (emit c).
Proof. intros Hc o. cbn. rewrite Hc. reflexivity. Qed.

Lemma emits_bind {A B} (m : Run (Call ViewPyramid) Obj A)
    (k : A -> Run (Call ViewPyramid) Obj B) :
  emits_only P m -> (forall a, emits_only P (k a)) -> emits_only P (m ≫= k).
Proof.
  intros Hm Hk o. rewrite calls_bind, forallb_app, Hm, Hk. reflexivity.
Qed.

Lemma emits_update_this g : emits_only P (update_this g).
Proof. intros o. reflexivity. Qed.

Lemma emits_update_dev g : emits_only P (update_dev g).
Proof. intros o. reflexivity. Qed.

Lemma emits_update_host g : emits_only P (update_counterBuffer_host g).
Proof. intros o. reflexivity. Qed.

Lemma emits_when (b : bool) m : emits_only P m -> emits_only P (when b m).
Proof. intros Hm. destruct b; [exact Hm | apply emits_ret]. Qed.

Lemma emits_launch c : P c = true -> emits_only P (launch c).
Proof.
  intros Hc o. unfold launch, update_dev. run_unfold. cbn. rewrite Hc.
  reflexivity.
Qed.

Lemma emits_Clear :
  P accumulator_Clear = true -> emits_only P accumulator_Clear_ON_DEVICE.
Proof.
  intros Hc o. unfold accumulator_Clear_ON_DEVICE, update_dev. run_unfold.
  cbn. rewrite Hc. reflexivity.
Qed.

Lemma emits_CopyToHost :
  P counterBuffer_CopyToHost = true -> emits_only P CopyToHost.
Proof.
  intros Hc o. unfold CopyToHost, update_counterBuffer_host. run_unfold.
  cbn. rewrite Hc. reflexivity.
Qed.

Lemma emits_CopyToDevice :
  P counterBuffer_CopyToDevice = true -> emits_only P CopyToDevice.
Proof.
  intros Hc o. unfold CopyToDevice, update_dev. run_unfold.
  cbn. rewrite Hc. reflexivity.
Qed.

Lemma emits_filter {A} (m : Run (Call ViewPyramid) Obj A) o :
  emits_only P m -> List.filter P (calls (m o)) = calls (m o).
Proof.
  intros Hm. specialize (Hm o). induction (calls (m o)) as [|c l IH]; cbn in *.
  - reflexivity.
  - apply andb_prop in Hm as [Hc Hl]. rewrite Hc, (IH Hl). reflexivity.
Qed.

End Optix7FilterEmits.

(** Steps through an Optix7Filter computation whose calls all satisfy a
    test that computes on each call. *)
Ltac emits7 :=
  repeat first
    [ apply emits_ret | apply emits_get
    | apply emits_update_dev | apply emits_update_host | apply emits_update_this
    | apply emits_emit; reflexivity
    | apply emits_launch; reflexivity
    | apply emits_Clear; reflexivity
    | apply emits_CopyToHost; reflexivity
    | apply emits_CopyToDevice; reflexivity
    | apply emits_when
    | apply emits_bind; [|intros ?]
    | match goal with
      | |- Optix7Filter.emits_only _ (if ?b then _ else _) => destruct b
      end ].

Section Optix7FilterQuiet.
Import Optix7Filter.
Context {X : Externals}.

Lemma emits_wavefront P remaining :
  (forall pathLength pathCount, emits_only P (loop_body pathLength pathCount)) ->
  forall pathLength pathCount counters,
    emits_only P (wavefront remaining pathLength pathCount counters).
Proof.
  intros Hbody.
  induction remaining as [|n IH]; intros pathLength pathCount counters; cbn.
  - apply emits_ret.
  - apply emits_bind; [apply Hbody|].
    intros [[[] pc] cs]; [apply emits_ret | apply IH].
Qed.

(** Neither [RenderImpl] nor [FinalizeRender] touches the events or the
    worker. *)
Lemma RenderImpl_no_thread_call view :
  emits_only (fun c => negb (is_thread_call c)) (RenderImpl view).
Proof.
  unfold RenderImpl, update_coreStats. emits7.
  apply emits_wavefront. intros pathLength pathCount.
  unfold loop_body, extend_and_shade, read_counters, flush_shadow_rays,
    update_coreStats.
  emits7.
Qed.

Lemma FinalizeRender_no_thread_call :
  emits_only (fun c => negb (is_thread_call c)) FinalizeRender.
Proof. unfold FinalizeRender, applyFilter. emits7. Qed.

End Optix7FilterQuiet.

Section Optix7FilterAsyncFrame.
Import Optix7Filter.
Context {X : Externals}.

Lemma Render_prepare_keeps converge (c : CoreData) :
  asyncRenderInProgress (Render_prepare converge c) = asyncRenderInProgress c
  /\ filter_active (Render_prepare converge c) = filter_active c
  /\ prevView (Render_prepare converge c) = prevView c
  /\ scrspp (Render_prepare converge c) = scrspp c
  /\ gpuHasSceneData (Render_prepare converge c) = gpuHasSceneData c.
Proof.
  unfold Render_prepare, filter_active. destruct c. cbn.
  repeat match goal with |- context [if ?b then _ else _] => destruct b end;
    cbn; repeat split; reflexivity.
Qed.

Lemma frame_filter_active (c c1 : CoreData) :
  frame c1 = frame c -> filter_active c1 = filter_active c.
Proof.
  intros H. unfold filter_active.
  pose proof (f_equal buffers H) as Hb. pose proof (f_equal vars H) as Hv.
  destruct c, c1. cbn in *. subst. reflexivity.
Qed.

Lemma async_set_prevView v (c : CoreData) :
  asyncRenderInProgress (set_prevView v c) = asyncRenderInProgress c.
Proof. destruct c. reflexivity. Qed.

Lemma async_set_stats st seed (c : CoreData) :
  asyncRenderInProgress (set_coreStats st (set_camRNGseed seed c)) =
  asyncRenderInProgress c.
Proof. destruct c. reflexivity. Qed.

Lemma keeps_FinalizeRender_async : keeps asyncRenderInProgress FinalizeRender.
Proof. unfold FinalizeRender, applyFilter. keeps7. Qed.

(** The worker's round on the copy that an asynchronous [Render] made. *)
Lemma worker_step (c : CoreData) (cm : CoreData) v de (sh : Shared) :
  let rI := RenderImpl v (mkObj c sh) in
  RenderThread_run
    (mkSys cm (mkThread (set_asyncRenderInProgress true c) v) true de sh) =
  Some (tt,
        mkSys cm (mkThread (set_asyncRenderInProgress true (this (state rI))) v)
              false true (shared (state rI)),
        calls rI ++ [SetEvent_doneEvent]).
Proof.
  intros rI. rewrite RenderThread_run_eq by reflexivity.
  cbn [renderThread view coreState env core].
  pose proof (commutes_RenderImpl true v (mkObj c sh)) as HcI.
  unfold shift in HcI. cbn [this shared] in HcI. rewrite HcI. reflexivity.
Qed.

(** [WaitForRender] after the worker's round, without the filter: the
    frame is finalized as the synchronous [Render] does it. *)
Lemma wait_step (c c1 : CoreData) v th se (sh1 : Shared) :
  asyncRenderInProgress c = false ->
  filter_active c1 = false ->
  frame c1 = frame c ->
  let rF := FinalizeRender (mkObj c1 sh1) in
  WaitForRender
    (mkSys (set_prevView v (set_asyncRenderInProgress true c))
           (mkThread (set_asyncRenderInProgress true c1) th) se true sh1) =
  Some (tt,
        mkSys (set_prevView v (this (state rF)))
              (mkThread (set_asyncRenderInProgress true c1) th) se false
              (shared (state rF)),
        calls rF).
Proof.
  intros Ha Hf Hfr rF.
  rewrite WaitForRender_eq; [|reflexivity|reflexivity].
  cbn [renderThread view coreState env core startEvent this shared].
  pose proof (FinalizeRender_prevView v (mkObj c1 sh1) Hf) as HFp.
  unfold shift in HFp. cbn [this shared] in HFp. fold rF in HFp.
  replace (set_camRNGseed (camRNGseed (set_asyncRenderInProgress true c1))
             (set_coreStats (coreStats (set_asyncRenderInProgress true c1))
                (set_asyncRenderInProgress false
                   (set_prevView v (set_asyncRenderInProgress true c)))))
    with (set_prevView v c1).
  - rewrite HFp. reflexivity.
  - rewrite (frame_eq _ _ Hfr) at 1. clear -Ha.
    destruct c. cbn in Ha. subst. destruct c1. reflexivity.
Qed.

Lemma async_frame_state (s : Sys) v converge :
  gpuHasSceneData (core s) = true ->
  asyncRenderInProgress (core s) = false ->
  filter_active (core s) = false ->
  let sync := Render v converge false s in
  let r1 := Render v converge true s in
  exists r2 r3,
    RenderThread_run (state r1) = Some r2
    /\ WaitForRender (state r2) = Some r3
    /\ core (state r3) = core (state sync)
    /\ env (state r3) = env (state sync)
    /\ List.filter (fun c => negb (is_thread_call c))
         (calls r1 ++ calls r2 ++ calls r3) = calls sync
    /\ asyncRenderInProgress (core (state r3)) = false
    /\ startEvent (state r3) = false /\ doneEvent (state r3) = false.
Proof.
  intros Hd Ha Hf sync r1. subst sync r1.
  rewrite (Render_sync_eq s v converge Hd), (Render_async_eq s v converge Hd).
  cbv zeta. cbn [state calls fst snd].
  destruct (Render_prepare_keeps converge (core s)) as (Hpa & Hpf & _).
  remember (Render_prepare converge (core s)) as cp eqn:Hcp in *. clear Hcp.
  rewrite Ha in Hpa. rewrite Hf in Hpf.
  pose proof (worker_step cp (set_prevView v (set_asyncRenderInProgress true cp))
                v (doneEvent s) (env s)) as H2.
  pose proof (keeps_frame_RenderImpl v (mkObj cp (env s))) as Hfr.
  cbn [this] in Hfr.
  pose proof (emits_filter _ _ (mkObj cp (env s)) (RenderImpl_no_thread_call v))
    as HqI.
  cbv zeta in H2.
  remember (RenderImpl v (mkObj cp (env s))) as rI eqn:HrI in *. clear HrI.
  destruct rI as [[[] [c1 sh1]] eI]. cbn [state calls this shared fst snd] in *.
  pose proof (frame_filter_active _ _ Hfr) as Hf1. rewrite Hpf in Hf1.
  pose proof (wait_step cp c1 v v false sh1 Hpa Hf1 Hfr) as H3.
  cbv zeta in H3.
  pose proof (emits_filter _ _ (mkObj c1 sh1) FinalizeRender_no_thread_call)
    as HqF.
  pose proof (keeps_FinalizeRender_async (mkObj c1 sh1)) as Hka.
  cbn [this] in Hka.
  remember (FinalizeRender (mkObj c1 sh1)) as rF eqn:HrF in *. clear HrF.
  destruct rF as [[[] [c2 sh2]] eF]. cbn [state calls this shared fst snd] in *.
  eexists. eexists.
  split; [exact H2|]. split; [exact H3|].
  cbn [state calls fst snd core env startEvent doneEvent].
  repeat split.
  - cbn [app List.filter is_thread_call negb].
    rewrite !List.filter_app. cbn [List.filter is_thread_call negb app].
    rewrite HqI, HqF, app_nil_r. reflexivity.
  - rewrite async_set_prevView, Hka.
    rewrite (frame_eq _ _ Hfr), async_set_stats. exact Hpa.
Qed.

End Optix7FilterAsyncFrame.

(** An asynchronous frame without the filter is the synchronous frame:
    after [Render] with [async] set, [WaitForRender] blocks until the
    worker has made its round; then it returns, and the core object, the
    memory it points into and the calls made, the worker protocol apart,
    are those of the same [Render] with [async] clear.  A further
    [WaitForRender] returns at once. *)
Theorem Optix7Filter_async_frame_is_sync_frame (X : Optix7Filter.Externals)
    (s : Optix7Filter.Sys) v converge :
  Optix7Filter.gpuHasSceneData (Optix7Filter.core s) = true ->
  Optix7Filter.asyncRenderInProgress (Optix7Filter.core s) = false ->
  Optix7Filter.doneEvent s = false ->
  Optix7Filter.filter_active (Optix7Filter.core s) = false ->
  let sync := Optix7Filter.Render v converge false s in
  let r1 := Optix7Filter.Render v converge true s in
  Optix7Filter.WaitForRender (state r1) = None
  /\ exists r2 r3,
       Optix7Filter.RenderThread_run (state r1) = Some r2
       /\ Optix7Filter.WaitForRender (state r2) = Some r3
       /\ Optix7Filter.core (state r3) = Optix7Filter.core (state sync)
       /\ Optix7Filter.env (state r3) = Optix7Filter.env (state sync)
       /\ List.filter (fun c => negb (Optix7Filter.is_thread_call c))
            (calls r1 ++ calls r2 ++ calls r3) = calls sync
       /\ Optix7Filter.WaitForRender (state r3) = Some (tt, state r3, []).
Proof.
  intros Hd Ha Hdone Hf sync r1.
  destruct (async_frame_state s v converge Hd Ha Hf)
    as (r2 & r3 & H2 & H3 & Hcore & Henv & Hcalls & Hflag & _).
  fold sync r1 in H2, Hcore, Henv, Hcalls.
  split.
  - subst r1. rewrite (Render_async_eq s v converge Hd). cbn [state fst snd].
    unfold Optix7Filter.WaitForRender. cbn [Optix7Filter.core Optix7Filter.doneEvent].
    rewrite async_set_prevView.
    replace (Optix7Filter.asyncRenderInProgress
               (Optix7Filter.set_asyncRenderInProgress true
                  (Optix7Filter.Render_prepare converge (Optix7Filter.core s))))
      with true
      by (destruct (Optix7Filter.Render_prepare converge (Optix7Filter.core s));
          reflexivity).
    rewrite Hdone. reflexivity.
  - exists r2, r3. repeat split; try assumption.
    unfold Optix7Filter.WaitForRender. rewrite Hflag. reflexivity.
Qed.

Lemma Optix7Filter_async_frame_is_sync_frame_witness :
  let s := Examples.sys7_ready 3 (fun n => n / 2) 1 in
  let sync := @Optix7Filter.Render (Examples.X7 3 (fun n => n / 2) 1) tt Restart false s in
  let r1 := @Optix7Filter.Render (Examples.X7 3 (fun n => n / 2) 1) tt Restart true s in
  Optix7Filter.WaitForRender (state r1) = None
  /\ exists r2 r3,
       Optix7Filter.RenderThread_run (state r1) = Some r2
       /\ Optix7Filter.WaitForRender (state r2) = Some r3
       /\ Optix7Filter.core (state r3) = Optix7Filter.core (state sync)
       /\ Optix7Filter.env (state r3) = Optix7Filter.env (state sync)
       /\ List.filter (fun c => negb (Optix7Filter.is_thread_call c))
            (calls r1 ++ calls r2 ++ calls r3) = calls sync
       /\ Optix7Filter.WaitForRender (state r3) = Some (tt, state r3, []).
Proof.
  intros s sync r1.
  exact (Optix7Filter_async_frame_is_sync_frame
           (Examples.X7 3 (fun n => n / 2) 1) s tt Restart
           eq_refl eq_refl eq_refl eq_refl).
Defined.

Section Optix7FilterAsyncFilter.
Import Optix7Filter.
Context {X : Externals}.

(** With the filter, [FinalizeRender] binds the surface and hands the
    stored previous view to [prepareFilter]. *)
Lemma FinalizeRender_filter_calls (o : Obj) :
  filter_active (this o) = true ->
  exists rest,
    calls (FinalizeRender o) =
    BindSurface
      :: prepareFilter (prevView (this o))
           (samplesTaken (this o) + scrspp (this o))
           (if samplesTaken (this o) + scrspp (this o) =? scrspp (this o)
            then 0 else 1)
      :: rest.
Proof.
  intros Hf.
  assert (Hw : wp FinalizeRender (fun _ _ e => exists rest,
    e =
    BindSurface
      :: prepareFilter (prevView (this o))
           (samplesTaken (this o) + scrspp (this o))
           (if samplesTaken (this o) + scrspp (this o) =? scrspp (this o)
            then 0 else 1)
      :: rest) o).
  { unfold filter_active in Hf. destruct o as [c sh]. destruct c.
    cbn [this buffers vars] in Hf.
    unfold FinalizeRender, applyFilter. wp7;
      match goal with H : _ && _ = _ |- _ => cbn in H; rewrite Hf in H end;
      try discriminate; cbn; eexists; reflexivity. }
  exact Hw.
Qed.

(** The core object on which [WaitForRender] finalizes the frame of the
    worker: the core with the worker's statistics and seed. *)
Lemma wait_step_any (c c1 : CoreData) v th se (sh1 : Shared) :
  let cW := set_camRNGseed (camRNGseed c1)
              (set_coreStats (coreStats c1)
                 (set_asyncRenderInProgress false (set_prevView v c))) in
  let rF := FinalizeRender (mkObj cW sh1) in
  WaitForRender
    (mkSys (set_prevView v (set_asyncRenderInProgress true c))
           (mkThread (set_asyncRenderInProgress true c1) th) se true sh1) =
  Some (tt,
        mkSys (this (state rF))
              (mkThread (set_asyncRenderInProgress true c1) th) se false
              (shared (state rF)),
        calls rF).
Proof.
  intros cW rF.
  rewrite WaitForRender_eq; [|reflexivity|reflexivity].
  cbn [renderThread view coreState env core startEvent this shared].
  replace (set_camRNGseed (camRNGseed (set_asyncRenderInProgress true c1))
             (set_coreStats (coreStats (set_asyncRenderInProgress true c1))
                (set_asyncRenderInProgress false
                   (set_prevView v (set_asyncRenderInProgress true c)))))
    with cW by (subst cW; destruct c, c1; reflexivity).
  reflexivity.
Qed.

Lemma async_filter_calls (s : Sys) v converge :
  gpuHasSceneData (core s) = true ->
  filter_active (core s) = true ->
  let cp := Render_prepare converge (core s) in
  let rI := RenderImpl v (mkObj cp (env s)) in
  let spp := samplesTaken cp + scrspp cp in
  let stationary := if spp =? scrspp cp then 0 else 1 in
  exists r2 r3 rest rest',
    RenderThread_run (state (Render v converge true s)) = Some r2
    /\ WaitForRender (state r2) = Some r3
    /\ calls r3 = BindSurface :: prepareFilter v spp stationary :: rest
    /\ calls (Render v converge false s) =
       [glFinish; pushStagedCopies; renderTimer_reset] ++ calls rI
       ++ BindSurface :: prepareFilter (prevView (core s)) spp stationary
       :: rest'.
Proof.
  intros Hd Hf cp rI spp stationary. subst spp stationary rI.
  rewrite (Render_sync_eq s v converge Hd), (Render_async_eq s v converge Hd).
  cbv zeta. cbn [state calls fst snd].
  destruct (Render_prepare_keeps converge (core s)) as (_ & Hpf & Hpv & _).
  fold cp in Hpf, Hpv |- *. rewrite Hf in Hpf. rewrite <- Hpv.
  clearbody cp. clear Hpv.
  pose proof (worker_step cp (set_prevView v (set_asyncRenderInProgress true cp))
                v (doneEvent s) (env s)) as H2.
  pose proof (keeps_frame_RenderImpl v (mkObj cp (env s))) as Hfr.
  cbn [this] in Hfr. cbv zeta in H2.
  remember (RenderImpl v (mkObj cp (env s))) as rI eqn:HrI in *. clear HrI.
  destruct rI as [[[] [c1 sh1]] eI]. cbn [state calls this shared fst snd] in *.
  pose proof (frame_filter_active _ _ Hfr) as Hf1. rewrite Hpf in Hf1.
  destruct (FinalizeRender_filter_calls (mkObj c1 sh1) Hf1) as [rest' Hsync].
  pose proof (wait_step_any cp c1 v v false sh1) as H3. cbv zeta in H3.
  assert (HW : forall cW,
            cW = set_camRNGseed (camRNGseed c1)
                   (set_coreStats (coreStats c1)
                      (set_asyncRenderInProgress false (set_prevView v cp))) ->
            filter_active cW = true /\ prevView cW = v
            /\ samplesTaken cW = samplesTaken cp /\ scrspp cW = scrspp cp).
  { intros cW ->. clear -Hpf. unfold filter_active in *.
    destruct cp, c1. cbn in *. repeat split; try reflexivity. exact Hpf. }
  remember (set_camRNGseed (camRNGseed c1)
              (set_coreStats (coreStats c1)
                 (set_asyncRenderInProgress false (set_prevView v cp))))
    as cW eqn:HcW in *.
  destruct (HW cW eq_refl) as (HWf & HWv & HWs & HWp). clear HW HcW.
  destruct (FinalizeRender_filter_calls (mkObj cW sh1) HWf) as [rest Hasync].
  cbn [this] in Hsync, Hasync. rewrite HWv, HWs, HWp in Hasync.
  assert (Hc1 : prevView c1 = prevView cp /\ samplesTaken c1 = samplesTaken cp
                /\ scrspp c1 = scrspp cp).
  { clear -Hfr. destruct cp, c1. cbn in Hfr. injection Hfr. intros. subst.
    repeat split. }
  destruct Hc1 as (Hv1 & Hs1 & Hp1). rewrite Hv1, Hs1, Hp1 in Hsync.
  remember (FinalizeRender (mkObj cW sh1)) as rFa eqn:HrFa in *. clear HrFa.
  remember (FinalizeRender (mkObj c1 sh1)) as rFs eqn:HrFs in *. clear HrFs.
  eexists. eexists. exists rest, rest'.
  split; [exact H2|]. split; [exact H3|].
  cbn [state calls fst snd].
  split; [exact Hasync|]. rewrite Hsync. reflexivity.
Qed.

End Optix7FilterAsyncFilter.

(** With the filter on, the asynchronous frame and the synchronous frame
    differ: [Render] stores the view of the frame as [prevView] before
    [WaitForRender] finalizes the frame, so [prepareFilter] is given the
    frame's own view as the previous view, where the synchronous frame
    gives it the view of the frame before. *)
Theorem Optix7Filter_async_filter_previous_view (X : Optix7Filter.Externals)
    (s : Optix7Filter.Sys) v converge :
  Optix7Filter.gpuHasSceneData (Optix7Filter.core s) = true ->
  Optix7Filter.filter_active (Optix7Filter.core s) = true ->
  let cp := Optix7Filter.Render_prepare converge (Optix7Filter.core s) in
  let rI := Optix7Filter.RenderImpl v (Optix7Filter.mkObj cp (Optix7Filter.env s)) in
  let spp := Optix7Filter.samplesTaken cp + Optix7Filter.scrspp cp in
  let stationary := if spp =? Optix7Filter.scrspp cp then 0 else 1 in
  exists r2 r3 rest rest',
    Optix7Filter.RenderThread_run (state (Optix7Filter.Render v converge true s))
    = Some r2
    /\ Optix7Filter.WaitForRender (state r2) = Some r3
    /\ calls r3 =
       Optix7Filter.BindSurface
         :: Optix7Filter.prepareFilter v spp stationary :: rest
    /\ calls (Optix7Filter.Render v converge false s) =
       [Optix7Filter.glFinish; Optix7Filter.pushStagedCopies;
        Optix7Filter.renderTimer_reset] ++ calls rI
       ++ Optix7Filter.BindSurface
            :: Optix7Filter.prepareFilter
                 (Optix7Filter.prevView (Optix7Filter.core s)) spp stationary
            :: rest'.
Proof. intros Hd Hf. exact (async_filter_calls s v converge Hd Hf). Qed.

(** A frame of view 2 after a frame of view 1, filter on. *)
Lemma Optix7Filter_async_filter_previous_view_witness :
  let s := Examples.sys7v 1 in
  exists r2 r3 rest rest' pre,
    Optix7Filter.RenderThread_run
      (state (@Optix7Filter.Render Examples.X7v 2 Converge true s)) = Some r2
    /\ Optix7Filter.WaitForRender (state r2) = Some r3
    /\ calls r3 =
       Optix7Filter.BindSurface :: Optix7Filter.prepareFilter 2 1 0 :: rest
    /\ calls (@Optix7Filter.Render Examples.X7v 2 Converge false s) =
       pre ++ Optix7Filter.BindSurface
           :: Optix7Filter.prepareFilter 1 1 0 :: rest'.
Proof.
  intros s.
  destruct (Optix7Filter_async_filter_previous_view Examples.X7v s 2 Converge
              eq_refl eq_refl) as (r2 & r3 & rest & rest' & H2 & H3 & Ha & Hs).
  exists r2, r3, rest, rest'. eexists.
  split; [exact H2|]. split; [exact H3|]. split; [exact Ha|].
  rewrite Hs, app_assoc. reflexivity.
Defined.

(** * Frames in a row *)

Section Optix7FilterFrames.
Import Optix7Filter.
Context {X : Externals}.

Lemma keeps_of_frame {A B} (f : CoreData -> B) (m : Run (Call ViewPyramid) Obj A) :
  keeps frame m -> (forall c, f c = f (frame c)) ->
  (forall c c', frame c = frame c' -> f (frame c) = f (frame c')) ->
  keeps f m.
Proof.
  intros Hm Hf _ o. rewrite (Hf (this (state (m o)))), (Hf (this o)), Hm.
  reflexivity.
Qed.

Lemma scrspp_frame (c : CoreData) : scrspp c = scrspp (frame c).
Proof. destruct c. reflexivity. Qed.

Lemma gpuHasSceneData_frame (c : CoreData) :
  gpuHasSceneData c = gpuHasSceneData (frame c).
Proof. destruct c. reflexivity. Qed.

Lemma scrspp_set_prevView v (c : CoreData) :
  scrspp (set_prevView v c) = scrspp c.
Proof. destruct c. reflexivity. Qed.

Lemma gpuHasSceneData_set_prevView v (c : CoreData) :
  gpuHasSceneData (set_prevView v c) = gpuHasSceneData c.
Proof. destruct c. reflexivity. Qed.

(** A synchronous [Render] keeps the samples per pixel and the scene
    data flag. *)
Lemma Render_sync_keeps (s : Sys) v converge :
  gpuHasSceneData (core s) = true ->
  let c' := core (state (Render v converge false s)) in
  scrspp c' = scrspp (core s) /\ gpuHasSceneData c' = true.
Proof.
  intros Hd c'. subst c'. rewrite (Render_sync_eq s v converge Hd).
  cbv zeta. cbn [state fst snd core].
  destruct (Render_prepare_keeps converge (core s)) as (_ & _ & _ & Hp & Hg).
  rewrite Hd in Hg.
  remember (Render_prepare converge (core s)) as cp eqn:Hcp in *. clear Hcp.
  pose proof (keeps_frame_RenderImpl v (mkObj cp (env s))) as Hfr.
  cbn [this] in Hfr.
  remember (RenderImpl v (mkObj cp (env s))) as rI eqn:HrI in *. clear HrI.
  destruct rI as [[[] [c1 sh1]] eI]. cbn [state this shared fst snd] in *.
  assert (Hk : keeps (fun c => (scrspp c, gpuHasSceneData c)) FinalizeRender).
  { unfold FinalizeRender, applyFilter. keeps7. }
  specialize (Hk (mkObj c1 sh1)). cbn [this] in Hk.
  remember (FinalizeRender (mkObj c1 sh1)) as rF eqn:HrF in *. clear HrF.
  destruct rF as [[[] [c2 sh2]] eF]. cbn [state this shared fst snd] in *.
  pose proof (f_equal fst Hk) as Hp2. pose proof (f_equal snd Hk) as Hg2.
  cbn [fst snd] in Hp2, Hg2.
  rewrite scrspp_set_prevView, gpuHasSceneData_set_prevView, Hp2, Hg2.
  rewrite (scrspp_frame c1), (gpuHasSceneData_frame c1), Hfr.
  rewrite <- scrspp_frame, <- gpuHasSceneData_frame.
  split; assumption.
Qed.

(** Converging frames add [scrspp] samples each. *)
Lemma Render_frames_converge v n :
  forall s : Sys,
    gpuHasSceneData (core s) = true ->
    firstConvergingFrame (core s) = false ->
    let c' := core (state (Render_frames n v Converge s)) in
    samplesTaken c' = samplesTaken (core s) + Z.of_nat n * scrspp (core s)
    /\ firstConvergingFrame c' = false
    /\ scrspp c' = scrspp (core s)
    /\ gpuHasSceneData c' = true.
Proof.
  induction n as [|n IH]; intros s Hd Hfl.
  - cbn. repeat split; try assumption. lia.
  - cbn [Render_frames]. cbv zeta. rewrite state_bind.
    destruct (Render_sync_convergence s v Converge Hd) as (Hs & Hfl' & _).
    destruct (Render_sync_keeps s v Converge Hd) as (Hp & Hd').
    cbv zeta in Hp, Hd'. rewrite Hfl in Hs. cbn in Hs, Hfl'.
    destruct (IH _ Hd' Hfl') as (IHs & IHf & IHp & IHd). cbv zeta in *.
    rewrite IHs, IHf, IHp, IHd, Hs, Hp. repeat split. lia.
Qed.

End Optix7FilterFrames.

Section OptixPrimePBRTFrames.
Import OptixPrimePBRT.
Context {X : Externals}.

Lemma PBRT_Render_keeps_scrspp view converge async :
  keeps scrspp (Render view converge async).
Proof.
  unfold Render, update_coreStats, trace_shadow_rays. keepsP.
  intros o'.
  match goal with |- context [wavefront ?a ?b ?c ?d ?e] =>
    exact (f_equal scrspp (keeps_frame_wavefrontP a b c d e o')) end.
Qed.

Lemma PBRT_Render_frames_converge v n :
  forall o : Obj,
    firstConvergingFrame (this o) = false ->
    let c' := this (state (Render_frames n v Converge o)) in
    samplesTaken c' = samplesTaken (this o) + Z.of_nat n * scrspp (this o)
    /\ firstConvergingFrame c' = false
    /\ scrspp c' = scrspp (this o).
Proof.
  induction n as [|n IH]; intros o Hfl.
  - cbn. repeat split; try assumption. lia.
  - cbn [Render_frames]. cbv zeta. rewrite state_bind.
    destruct (PBRT_Render_convergence o v Converge false) as (Hs & Hfl' & _).
    pose proof (PBRT_Render_keeps_scrspp v Converge false o) as Hp.
    rewrite Hfl in Hs. cbn in Hs, Hfl'.
    destruct (IH _ Hfl') as (IHs & IHf & IHp). cbv zeta in *.
    rewrite IHs, IHf, IHp, Hs, Hp. repeat split. lia.
Qed.

End OptixPrimePBRTFrames.

(** Samples accumulate over converging frames, and the first converging
    frame after a restart starts the accumulation over: after a frame
    with [Restart] the sample count is [scrspp], and after [n + 1] further
    frames with [Converge] it is [(n + 1) * scrspp], not
    [(n + 2) * scrspp].  In both cores, for synchronous frames. *)
Theorem sample_count_after_restart :
  (forall (X : Optix7Filter.Externals) (s : Optix7Filter.Sys) v v' (n : nat),
      Optix7Filter.gpuHasSceneData (Optix7Filter.core s) = true ->
      let s1 := state (Optix7Filter.Render v Restart false s) in
      let s2 := state (Optix7Filter.Render_frames (S n) v' Converge s1) in
      Optix7Filter.samplesTaken (Optix7Filter.core s1)
      = Optix7Filter.scrspp (Optix7Filter.core s)
      /\ Optix7Filter.samplesTaken (Optix7Filter.core s2)
         = Z.of_nat (S n) * Optix7Filter.scrspp (Optix7Filter.core s)
      /\ Optix7Filter.firstConvergingFrame (Optix7Filter.core s2) = false)
  /\ (forall (X : OptixPrimePBRT.Externals) (o : OptixPrimePBRT.Obj) v v'
        (n : nat),
      let o1 := state (OptixPrimePBRT.Render v Restart false o) in
      let o2 := state (OptixPrimePBRT.Render_frames (S n) v' Converge o1) in
      OptixPrimePBRT.samplesTaken (OptixPrimePBRT.this o1)
      = OptixPrimePBRT.scrspp (OptixPrimePBRT.this o)
      /\ OptixPrimePBRT.samplesTaken (OptixPrimePBRT.this o2)
         = Z.of_nat (S n) * OptixPrimePBRT.scrspp (OptixPrimePBRT.this o)
      /\ OptixPrimePBRT.firstConvergingFrame (OptixPrimePBRT.this o2) = false).
Proof.
  split.
  - intros X s v v' n Hd s1 s2.
    destruct (Render_sync_convergence s v Restart Hd) as (Hs & Hfl & _).
    destruct (Render_sync_keeps s v Restart Hd) as (Hp & Hd1).
    cbv zeta in Hp, Hd1. fold s1 in Hs, Hfl, Hp, Hd1. cbn in Hs, Hfl.
    split; [exact Hs|].
    subst s2. cbn [Optix7Filter.Render_frames]. rewrite state_bind.
    destruct (Render_sync_convergence s1 v' Converge Hd1) as (Hs2 & Hfl2 & _).
    destruct (Render_sync_keeps s1 v' Converge Hd1) as (Hp2 & Hd2).
    cbv zeta in Hp2, Hd2. rewrite Hfl in Hs2. cbn in Hs2, Hfl2.
    destruct (Render_frames_converge v' n _ Hd2 Hfl2) as (Hsn & Hfn & _).
    cbv zeta in Hsn, Hfn. rewrite Hsn, Hfn, Hs2, Hp2, Hp. split; [lia|reflexivity].
  - intros X o v v' n o1 o2.
    destruct (PBRT_Render_convergence o v Restart false) as (Hs & Hfl & _).
    pose proof (PBRT_Render_keeps_scrspp v Restart false o) as Hp.
    fold o1 in Hs, Hfl, Hp. cbn in Hs, Hfl.
    split; [exact Hs|].
    subst o2. cbn [OptixPrimePBRT.Render_frames]. rewrite state_bind.
    destruct (PBRT_Render_convergence o1 v' Converge false) as (Hs2 & Hfl2 & _).
    pose proof (PBRT_Render_keeps_scrspp v' Converge false o1) as Hp2.
    rewrite Hfl in Hs2. cbn in Hs2, Hfl2.
    destruct (PBRT_Render_frames_converge v' n _ Hfl2) as (Hsn & Hfn & _).
    cbv zeta in Hsn, Hfn. rewrite Hsn, Hfn, Hs2, Hp2, Hp. split; [lia|reflexivity].
Qed.

(** One restart frame and three converging frames at one sample per
    pixel: three samples. *)
Lemma sample_count_after_restart_witness :
  let s := Examples.sys7_ready 3 (fun n => n / 2) 1 in
  let X := Examples.X7 3 (fun n => n / 2) 1 in
  let s1 := state (@Optix7Filter.Render X tt Restart false s) in
  let s2 := state (@Optix7Filter.Render_frames X 3 tt Converge s1) in
  Optix7Filter.gpuHasSceneData (Optix7Filter.core s) = true
  /\ Optix7Filter.samplesTaken (Optix7Filter.core s1) = 1
  /\ Optix7Filter.samplesTaken (Optix7Filter.core s2) = 3.
Proof.
  intros s X s1 s2.
  destruct (proj1 sample_count_after_restart X s tt tt 2%nat eq_refl)
    as (H1 & H2 & _).
  split; [reflexivity|]. split; [exact H1 | exact H2].
Defined.


(** * Settings *)

(** A float that compares equal to something compares equal to itself:
    only a NaN does not. *)
Lemma float_eq_refl_of_eq (a b : float) :
  float_eq a b = true -> float_eq b b = true.
Proof.
  unfold float_eq, SFeqb, SFcompare.
  destruct a as [sa|sa| |sa ma ea], b as [sb|sb| |sb mb eb];
    try discriminate; try reflexivity; intros _;
    destruct sb; try reflexivity;
    rewrite Z.compare_refl; try rewrite Pos.compare_cont_refl;
    try rewrite Pos.compare_refl; reflexivity.
Qed.

Section Optix7FilterSetting.
Import Optix7Filter.
Context {X : Externals}.

Lemma Setting7_epsilon_twice v (o : Obj) :
  let r1 := Setting "epsilon" v o in
  let r2 := Setting "epsilon" v (state r1) in
  (float_eq v v = true ->
   float_eq (geometryEpsilon (vars (this (state r1)))) v = true
   /\ calls r2 = [] /\ state r2 = state r1)
  /\ (float_eq v v = false ->
      calls r1 = [stageGeometryEpsilon v] /\ calls r2 = [stageGeometryEpsilon v]).
Proof.
  destruct o as [c sh]. destruct c, vars0.
  unfold Setting, float_ne. run_unfold. cbn.
  destruct (SFeqb geometryEpsilon0 v) eqn:He; cbn; rewrite ?He; cbn.
  - split; [intros _; repeat split; exact He|].
    intros Hn. apply float_eq_refl_of_eq in He. unfold float_eq in *. congruence.
  - unfold float_eq. split; intros Hv; rewrite Hv; cbn; repeat split.
Qed.

Lemma Setting7_clampValue_twice v (o : Obj) :
  let r1 := Setting "clampValue" v o in
  let r2 := Setting "clampValue" v (state r1) in
  (float_eq v v = true ->
   float_eq (clampValue (vars (this (state r1)))) v = true
   /\ calls r2 = [] /\ state r2 = state r1)
  /\ (float_eq v v = false ->
      calls r1 = [stageClampValue v] /\ calls r2 = [stageClampValue v]).
Proof.
  destruct o as [c sh]. destruct c, vars0.
  unfold Setting, float_ne. run_unfold. cbn.
  destruct (SFeqb clampValue0 v) eqn:He; cbn; rewrite ?He; cbn.
  - split; [intros _; repeat split; exact He|].
    intros Hn. apply float_eq_refl_of_eq in He. unfold float_eq in *. congruence.
  - unfold float_eq. split; intros Hv; rewrite Hv; cbn; repeat split.
Qed.

End Optix7FilterSetting.

Section OptixPrimePBRTSetting.
Import OptixPrimePBRT.
Context {X : Externals}.

Lemma SettingP_epsilon_twice v (o : Obj) :
  let r1 := Setting "epsilon" v o in
  let r2 := Setting "epsilon" v (state r1) in
  (float_eq v v = true ->
   float_eq (geometryEpsilon (vars (this (state r1)))) v = true
   /\ calls r2 = [] /\ state r2 = state r1)
  /\ (float_eq v v = false ->
      calls r1 = [stageGeometryEpsilon v] /\ calls r2 = [stageGeometryEpsilon v]).
Proof.
  destruct o as [c hst dv]. destruct c, vars0.
  unfold Setting, float_ne. run_unfold. cbn.
  destruct (SFeqb geometryEpsilon0 v) eqn:He; cbn; rewrite ?He; cbn.
  - split; [intros _; repeat split; exact He|].
    intros Hn. apply float_eq_refl_of_eq in He. unfold float_eq in *. congruence.
  - unfold float_eq. split; intros Hv; rewrite Hv; cbn; repeat split.
Qed.

Lemma SettingP_clampValue_twice v (o : Obj) :
  let r1 := Setting "clampValue" v o in
  let r2 := Setting "clampValue" v (state r1) in
  (float_eq v v = true ->
   float_eq (clampValue (vars (this (state r1)))) v = true
   /\ calls r2 = [] /\ state r2 = state r1)
  /\ (float_eq v v = false ->
      calls r1 = [stageClampValue v] /\ calls r2 = [stageClampValue v]).
Proof.
  destruct o as [c hst dv]. destruct c, vars0.
  unfold Setting, float_ne. run_unfold. cbn.
  destruct (SFeqb clampValue0 v) eqn:He; cbn; rewrite ?He; cbn.
  - split; [intros _; repeat split; exact He|].
    intros Hn. apply float_eq_refl_of_eq in He. unfold float_eq in *. congruence.
  - unfold float_eq. split; intros Hv; rewrite Hv; cbn; repeat split.
Qed.

End OptixPrimePBRTSetting.

(** Setting ["epsilon"] or ["clampValue"] twice to the same value [v]: if
    [v] is a number, the stored value then compares equal to [v], and the
    second call stages nothing and changes nothing; if [v] is a NaN, every
    call stages it again.  In both cores. *)
Theorem Setting_twice :
  (forall (X : Optix7Filter.Externals) (o : Optix7Filter.Obj) v,
      let r1 := Optix7Filter.Setting "epsilon" v o in
      let r2 := Optix7Filter.Setting "epsilon" v (state r1) in
      (float_eq v v = true ->
       float_eq (Optix7Filter.geometryEpsilon
                   (Optix7Filter.vars (Optix7Filter.this (state r1)))) v = true
       /\ calls r2 = [] /\ state r2 = state r1)
      /\ (float_eq v v = false ->
          calls r1 = [Optix7Filter.stageGeometryEpsilon v]
          /\ calls r2 = [Optix7Filter.stageGeometryEpsilon v]))
  /\ (forall (X : Optix7Filter.Externals) (o : Optix7Filter.Obj) v,
      let r1 := Optix7Filter.Setting "clampValue" v o in
      let r2 := Optix7Filter.Setting "clampValue" v (state r1) in
      (float_eq v v = true ->
       float_eq (Optix7Filter.clampValue
                   (Optix7Filter.vars (Optix7Filter.this (state r1)))) v = true
       /\ calls r2 = [] /\ state r2 = state r1)
      /\ (float_eq v v = false ->
          calls r1 = [Optix7Filter.stageClampValue v]
          /\ calls r2 = [Optix7Filter.stageClampValue v]))
  /\ (forall (X : OptixPrimePBRT.Externals) (o : OptixPrimePBRT.Obj) v,
      let r1 := OptixPrimePBRT.Setting "epsilon" v o in
      let r2 := OptixPrimePBRT.Setting "epsilon" v (state r1) in
      (float_eq v v = true ->
       float_eq (OptixPrimePBRT.geometryEpsilon
                   (OptixPrimePBRT.vars (OptixPrimePBRT.this (state r1)))) v = true
       /\ calls r2 = [] /\ state r2 = state r1)
      /\ (float_eq v v = false ->
          calls r1 = [OptixPrimePBRT.stageGeometryEpsilon v]
          /\ calls r2 = [OptixPrimePBRT.stageGeometryEpsilon v]))
  /\ (forall (X : OptixPrimePBRT.Externals) (o : OptixPrimePBRT.Obj) v,
      let r1 := OptixPrimePBRT.Setting "clampValue" v o in
      let r2 := OptixPrimePBRT.Setting "clampValue" v (state r1) in
      (float_eq v v = true ->
       float_eq (OptixPrimePBRT.clampValue
                   (OptixPrimePBRT.vars (OptixPrimePBRT.this (state r1)))) v = true
       /\ calls r2 = [] /\ state r2 = state r1)
      /\ (float_eq v v = false ->
          calls r1 = [OptixPrimePBRT.stageClampValue v]
          /\ calls r2 = [OptixPrimePBRT.stageClampValue v])).
Proof.
  split; [|split; [|split]].
  - intros X o v. apply Setting7_epsilon_twice.
  - intros X o v. apply Setting7_clampValue_twice.
  - intros X o v. apply SettingP_epsilon_twice.
  - intros X o v. apply SettingP_clampValue_twice.
Qed.

(** Setting the epsilon to 0.3 twice, and to a NaN twice. *)
Lemma Setting_twice_witness :
  let X := Examples.X7 3 (fun n => n / 2) 1 in
  let o := Examples.obj7 3 (fun n => n / 2) 1 in
  (float_eq f0_3 f0_3 = true
   /\ calls (@Optix7Filter.Setting X "epsilon" f0_3 o)
      = [Optix7Filter.stageGeometryEpsilon f0_3]
   /\ calls (@Optix7Filter.Setting X "epsilon" f0_3
               (state (@Optix7Filter.Setting X "epsilon" f0_3 o))) = [])
  /\ (float_eq S754_nan S754_nan = false
      /\ calls (@Optix7Filter.Setting X "epsilon" S754_nan
                  (state (@Optix7Filter.Setting X "epsilon" S754_nan o)))
         = [Optix7Filter.stageGeometryEpsilon S754_nan]).
Proof.
  intros X o.
  destruct (proj1 Setting_twice X o f0_3) as [Hnum _].
  destruct (proj1 Setting_twice X o S754_nan) as [_ Hnan].
  split.
  - split; [reflexivity|]. split; [reflexivity|].
    exact (proj1 (proj2 (Hnum eq_refl))).
  - split; [reflexivity|]. exact (proj2 (Hnan eq_refl)).
Defined.

(** * SetTarget, call by call *)

Section SetTargetDeletes.

(** The calls of a reallocating [SetTarget] of the Optix7Filter core. *)
Lemma SetTarget7_calls {X : Optix7Filter.Externals}
    width height spp (o : Optix7Filter.Obj) :
  Optix7Filter.SetTarget_reallocate width height spp (Optix7Filter.this o) = true ->
  let r := Optix7Filter.SetTarget width height spp o in
  let bs := Optix7Filter.new_buffers
              (Optix7Filter.maxPixels (Optix7Filter.this (state r))) spp in
  Optix7Filter.buffers (Optix7Filter.this (state r)) = bs
  /\ calls r =
     [Optix7Filter.SetTexture width height; Optix7Filter.LinkToSurface]
     ++ (Optix7Filter.delete_buffer <$>
           Optix7Filter.deleted_buffers (Optix7Filter.buffers (Optix7Filter.this o)))
     ++ ((Optix7Filter.new_buffer <$> Optix7Filter.allocated_buffers bs)
         ++ [Optix7Filter.stageDebugData;
             Optix7Filter.printf "buffers resized for %i pixels @ %i samples.";
             Optix7Filter.accumulator_Clear]).
Proof.
  intros Hre. cbv zeta. rewrite SetTarget7_eq. cbv zeta. rewrite Hre.
  cbn [state calls fst snd Optix7Filter.this Optix7Filter.maxPixels
       Optix7Filter.buffers].
  split; [reflexivity|]. rewrite <- !app_assoc. reflexivity.
Qed.

(** The calls of a reallocating [SetTarget] of the OptixPrime_PBRT
    core. *)
Lemma SetTargetP_calls {X : OptixPrimePBRT.Externals}
    width height spp (o : OptixPrimePBRT.Obj) :
  OptixPrimePBRT.SetTarget_reallocate width height spp (OptixPrimePBRT.this o)
  = true ->
  let r := OptixPrimePBRT.SetTarget width height spp o in
  let bs := OptixPrimePBRT.new_buffers
              (OptixPrimePBRT.maxPixels (OptixPrimePBRT.this (state r))) spp in
  OptixPrimePBRT.buffers (OptixPrimePBRT.this (state r)) = bs
  /\ calls r =
     ([OptixPrimePBRT.SetTexture width height; OptixPrimePBRT.LinkToSurface]
      ++ (if OptixPrimePBRT.maxPixels (OptixPrimePBRT.this o) =? 0 then []
          else OptixPrimePBRT.rtpBufferDescDestroy <$>
                 [OptixPrimePBRT.extensionRaysDesc 0;
                  OptixPrimePBRT.extensionRaysDesc 1;
                  OptixPrimePBRT.extensionHitsDesc;
                  OptixPrimePBRT.shadowRaysDesc;
                  OptixPrimePBRT.shadowHitsDesc]))
     ++ (OptixPrimePBRT.delete_buffer <$>
           OptixPrimePBRT.deleted_buffers
             (OptixPrimePBRT.buffers (OptixPrimePBRT.this o)))
     ++ (OptixPrimePBRT.allocations bs
         ++ [OptixPrimePBRT.printf "buffers resized for %i pixels @ %i samples.";
             OptixPrimePBRT.accumulator_Clear]).
Proof.
  intros Hre. cbv zeta. rewrite SetTargetP_eq. cbv zeta. rewrite Hre.
  cbn [state calls fst snd OptixPrimePBRT.this OptixPrimePBRT.maxPixels
       OptixPrimePBRT.buffers].
  split; [reflexivity|]. rewrite <- !app_assoc. reflexivity.
Qed.

End SetTargetDeletes.

(** A repeated [SetTarget], in both cores: after [SetTarget] for a target
    and a sample count, a second call with the same target and sample
    count only sets the texture, links the surface and clears the
    accumulator; it allocates nothing and leaves the state as it is.  The
    pixel count of the target, with the sixteenth kept in reserve, is
    counted by an [int]. *)
Theorem SetTarget_repeated :
  (forall (X : Optix7Filter.Externals) (o : Optix7Filter.Obj) width height spp,
      0 <= width -> 0 <= height ->
      width * height + width * height / 16 < 2 ^ 31 ->
      let r1 := Optix7Filter.SetTarget width height spp o in
      let r2 := Optix7Filter.SetTarget width height spp (state r1) in
      calls r2 = [Optix7Filter.SetTexture width height;
                  Optix7Filter.LinkToSurface; Optix7Filter.accumulator_Clear]
      /\ state r2 = state r1)
  /\ (forall (X : OptixPrimePBRT.Externals) (o : OptixPrimePBRT.Obj)
        width height spp,
      0 <= width -> 0 <= height ->
      width * height + width * height / 16 < 2 ^ 31 ->
      let r1 := OptixPrimePBRT.SetTarget width height spp o in
      let r2 := OptixPrimePBRT.SetTarget width height spp (state r1) in
      calls r2 = [OptixPrimePBRT.SetTexture width height;
                  OptixPrimePBRT.LinkToSurface; OptixPrimePBRT.accumulator_Clear]
      /\ state r2 = state r1).
Proof.
  split.
  - intros X o width height spp Hw Hh Hfit.
    apply SetTarget7_repeated; assumption.
  - intros X o width height spp Hw Hh Hfit.
    apply SetTargetP_repeated; assumption.
Qed.

Lemma SetTarget_repeated_witness :
  let X := Examples.X7 3 (fun n => n / 2) 1 in
  let o := Examples.obj7 3 (fun n => n / 2) 1 in
  let r1 := @Optix7Filter.SetTarget X 400 400 1 o in
  let r2 := @Optix7Filter.SetTarget X 400 400 1 (state r1) in
  (0 <= 400 /\ 400 * 400 + 400 * 400 / 16 < 2 ^ 31)
  /\ calls r2 = [Optix7Filter.SetTexture 400 400;
                 Optix7Filter.LinkToSurface; Optix7Filter.accumulator_Clear]
  /\ state r2 = state r1.
Proof.
  intros X o r1 r2.
  assert (Hw : 0 <= 400) by lia.
  assert (Hfit : 400 * 400 + 400 * 400 / 16 < 2 ^ 31)
    by (vm_compute; reflexivity).
  split; [split; [exact Hw|exact Hfit]|].
  exact (proj1 SetTarget_repeated X o 400 400 1 Hw Hw Hfit).
Defined.

(** The buffers hold the paths of a frame, in both cores, as long as
    their element counts fit the 32-bit type they are computed in: then,
    whenever [SetTarget] reallocates, or the buffers were sized by an
    earlier call, the buffers after the call are those of the recorded
    capacity and sample count, the capacity covers the target, and the
    ray, hit and path state buffers hold [scrwidth * scrheight * scrspp]
    entries, the number of primary paths of a frame. *)
Theorem SetTarget_buffers_hold_frame :
  (forall (X : Optix7Filter.Externals) (o : Optix7Filter.Obj) width height spp,
      0 <= width -> 0 <= height -> 0 <= spp ->
      width * height + width * height / 16 < 2 ^ 31 ->
      Optix7Filter.buffers_sized (Optix7Filter.this o)
      \/ Optix7Filter.SetTarget_reallocate width height spp
           (Optix7Filter.this o) = true ->
      let c' := Optix7Filter.this
                  (state (Optix7Filter.SetTarget width height spp o)) in
      let pathCount := Optix7Filter.scrwidth c' * Optix7Filter.scrheight c'
                       * Optix7Filter.scrspp c' in
      Optix7Filter.maxPixels c' * Optix7Filter.scrspp c' * 3 * 2 < 2 ^ 31 ->
      Optix7Filter.buffers_sized c'
      /\ Optix7Filter.scrspp c' = Optix7Filter.currentSPP c'
      /\ Optix7Filter.scrwidth c' * Optix7Filter.scrheight c'
         <= Optix7Filter.maxPixels c'
      /\ pathCount
         <= Optix7Filter.GetSize (Optix7Filter.hitBuffer (Optix7Filter.buffers c'))
      /\ 3 * pathCount
         <= Optix7Filter.GetSize
              (Optix7Filter.pathStateBuffer (Optix7Filter.buffers c'))
      /\ 6 * pathCount
         <= Optix7Filter.GetSize
              (Optix7Filter.connectionBuffer (Optix7Filter.buffers c')))
  /\ (forall (X : OptixPrimePBRT.Externals) (o : OptixPrimePBRT.Obj)
        width height spp,
      0 <= width -> 0 <= height -> 0 <= spp ->
      width * height + width * height / 16 < 2 ^ 31 ->
      OptixPrimePBRT.buffers_sized (OptixPrimePBRT.this o)
      \/ OptixPrimePBRT.SetTarget_reallocate width height spp
           (OptixPrimePBRT.this o) = true ->
      let c' := OptixPrimePBRT.this
                  (state (OptixPrimePBRT.SetTarget width height spp o)) in
      let pathCount := OptixPrimePBRT.scrwidth c' * OptixPrimePBRT.scrheight c'
                       * OptixPrimePBRT.scrspp c' in
      OptixPrimePBRT.maxPixels c' * OptixPrimePBRT.scrspp c' * 2 < 2 ^ 32 ->
      OptixPrimePBRT.buffers_sized c'
      /\ OptixPrimePBRT.scrspp c' = OptixPrimePBRT.currentSPP c'
      /\ OptixPrimePBRT.scrwidth c' * OptixPrimePBRT.scrheight c'
         <= OptixPrimePBRT.maxPixels c'
      /\ pathCount
         <= OptixPrimePBRT.GetSize
              (OptixPrimePBRT.extensionRayBuffer0 (OptixPrimePBRT.buffers c'))
      /\ pathCount
         <= OptixPrimePBRT.GetSize
              (OptixPrimePBRT.extensionRayBuffer1 (OptixPrimePBRT.buffers c'))
      /\ pathCount
         <= OptixPrimePBRT.GetSize
              (OptixPrimePBRT.extensionHitBuffer (OptixPrimePBRT.buffers c'))
      /\ 2 * pathCount
         <= OptixPrimePBRT.GetSize
              (OptixPrimePBRT.shadowRayBuffer (OptixPrimePBRT.buffers c'))).
Proof.
  split.
  - intros X o width height spp Hw Hh Hs Hfit Hpre.
    apply SetTarget7_capacity; assumption.
  - intros X o width height spp Hw Hh Hs Hfit Hpre.
    apply SetTargetP_capacity; assumption.
Qed.

(** The first [SetTarget] of a core, for 400 by 400 pixels at two
    samples: 320000 paths, a hit buffer of 340000 entries. *)
Lemma SetTarget_buffers_hold_frame_witness :
  let X := Examples.X7 3 (fun n => n / 2) 1 in
  let o := Examples.obj7 3 (fun n => n / 2) 1 in
  let c' := Optix7Filter.this (state (@Optix7Filter.SetTarget X 400 400 2 o)) in
  Optix7Filter.SetTarget_reallocate 400 400 2 (Optix7Filter.this o) = true
  /\ Optix7Filter.maxPixels c' * Optix7Filter.scrspp c' * 3 * 2 = 2040000
  /\ Optix7Filter.scrwidth c' * Optix7Filter.scrheight c' * Optix7Filter.scrspp c'
     = 320000
  /\ Optix7Filter.GetSize (Optix7Filter.hitBuffer (Optix7Filter.buffers c'))
     = 340000
  /\ 320000 <= 340000.
Proof.
  intros X o c'.
  assert (Hw : 0 <= 400) by lia. assert (Hs : 0 <= 2) by lia.
  assert (Hfit : 400 * 400 + 400 * 400 / 16 < 2 ^ 31)
    by (vm_compute; reflexivity).
  assert (Hsz : Optix7Filter.maxPixels c' * Optix7Filter.scrspp c' * 3 * 2
                < 2 ^ 31) by (vm_compute; reflexivity).
  pose proof (proj1 SetTarget_buffers_hold_frame X o 400 400 2 Hw Hw Hs Hfit
                (or_intror eq_refl) Hsz) as (_ & _ & _ & Hhit & _).
  split; [reflexivity|]. split; [reflexivity|]. split; [reflexivity|].
  split; [reflexivity|]. exact Hhit.
Defined.

(** What a reallocating [SetTarget] frees, and when.  In both cores the
    [delete] statements come first, each once and in the order listed,
    and every allocation comes after the last of them.  The Optix7Filter
    core deletes fifteen buffers: [shading], which it allocates anew with
    the others, is not among them, so the old shading buffer stays
    allocated unless another of the pointers holds it.  The
    OptixPrime_PBRT core deletes each of its nine buffers, after it has
    destroyed the five descriptors (unless it is the first call), and
    then allocates nine. *)
Theorem SetTarget_deleted_buffers :
  (forall (X : Optix7Filter.Externals) (o : Optix7Filter.Obj) width height spp,
      Optix7Filter.SetTarget_reallocate width height spp (Optix7Filter.this o)
      = true ->
      let b := Optix7Filter.buffers (Optix7Filter.this o) in
      let r := Optix7Filter.SetTarget width height spp o in
      let c' := Optix7Filter.this (state r) in
      let shading' :=
        Optix7Filter.mkBuffer Optix7Filter.shading_site
          (int32 (Optix7Filter.maxPixels c' * 2)) in
      (exists post,
         calls r =
         [Optix7Filter.SetTexture width height; Optix7Filter.LinkToSurface]
         ++ [Optix7Filter.delete_buffer (Optix7Filter.connectionBuffer b);
             Optix7Filter.delete_buffer (Optix7Filter.accumulator b);
             Optix7Filter.delete_buffer (Optix7Filter.hitBuffer b);
             Optix7Filter.delete_buffer (Optix7Filter.pathStateBuffer b);
             Optix7Filter.delete_buffer (Optix7Filter.features b);
             Optix7Filter.delete_buffer (Optix7Filter.motion b);
             Optix7Filter.delete_buffer (Optix7Filter.moments b);
             Optix7Filter.delete_buffer (Optix7Filter.prevMoments b);
             Optix7Filter.delete_buffer (Optix7Filter.prevPixels b);
             Optix7Filter.delete_buffer (Optix7Filter.worldPos b);
             Optix7Filter.delete_buffer (Optix7Filter.prevWorldPos b);
             Optix7Filter.delete_buffer (Optix7Filter.filteredIN b);
             Optix7Filter.delete_buffer (Optix7Filter.filteredOUT b);
             Optix7Filter.delete_buffer (Optix7Filter.deltaDepth b);
             Optix7Filter.delete_buffer (Optix7Filter.debugData b)]
         ++ post
         /\ (forall x, ~ In (Optix7Filter.delete_buffer x) post)
         /\ length (List.filter Optix7Filter.is_new_buffer post) = 16%nat
         /\ In (Optix7Filter.new_buffer shading') post)
      /\ (forall x, In (Optix7Filter.delete_buffer x) (calls r) <->
                 In x [Optix7Filter.connectionBuffer b; Optix7Filter.accumulator b;
                       Optix7Filter.hitBuffer b; Optix7Filter.pathStateBuffer b;
                       Optix7Filter.features b; Optix7Filter.motion b;
                       Optix7Filter.moments b; Optix7Filter.prevMoments b;
                       Optix7Filter.prevPixels b; Optix7Filter.worldPos b;
                       Optix7Filter.prevWorldPos b; Optix7Filter.filteredIN b;
                       Optix7Filter.filteredOUT b; Optix7Filter.deltaDepth b;
                       Optix7Filter.debugData b])
      /\ Optix7Filter.shading (Optix7Filter.buffers c') = Some shading')
  /\ (forall (X : OptixPrimePBRT.Externals) (o : OptixPrimePBRT.Obj)
        width height spp,
      OptixPrimePBRT.SetTarget_reallocate width height spp (OptixPrimePBRT.this o)
      = true ->
      let b := OptixPrimePBRT.buffers (OptixPrimePBRT.this o) in
      let r := OptixPrimePBRT.SetTarget width height spp o in
      exists post,
        calls r =
        ([OptixPrimePBRT.SetTexture width height; OptixPrimePBRT.LinkToSurface]
         ++ (if OptixPrimePBRT.maxPixels (OptixPrimePBRT.this o) =? 0 then []
             else [OptixPrimePBRT.rtpBufferDescDestroy
                     (OptixPrimePBRT.extensionRaysDesc 0);
                   OptixPrimePBRT.rtpBufferDescDestroy
                     (OptixPrimePBRT.extensionRaysDesc 1);
                   OptixPrimePBRT.rtpBufferDescDestroy
                     OptixPrimePBRT.extensionHitsDesc;
                   OptixPrimePBRT.rtpBufferDescDestroy
                     OptixPrimePBRT.shadowRaysDesc;
                   OptixPrimePBRT.rtpBufferDescDestroy
                     OptixPrimePBRT.shadowHitsDesc]))
        ++ [OptixPrimePBRT.delete_buffer (OptixPrimePBRT.extensionRayBuffer0 b);
            OptixPrimePBRT.delete_buffer (OptixPrimePBRT.extensionRayBuffer1 b);
            OptixPrimePBRT.delete_buffer (OptixPrimePBRT.extensionRayExBuffer0 b);
            OptixPrimePBRT.delete_buffer (OptixPrimePBRT.extensionRayExBuffer1 b);
            OptixPrimePBRT.delete_buffer (OptixPrimePBRT.extensionHitBuffer b);
            OptixPrimePBRT.delete_buffer (OptixPrimePBRT.shadowRayBuffer b);
            OptixPrimePBRT.delete_buffer (OptixPrimePBRT.shadowRayPotential b);
            OptixPrimePBRT.delete_buffer (OptixPrimePBRT.shadowHitBuffer b);
            OptixPrimePBRT.delete_buffer (OptixPrimePBRT.accumulator b)]
        ++ post
        /\ (forall x, ~ In (OptixPrimePBRT.delete_buffer x) post)
        /\ length (List.filter OptixPrimePBRT.is_new_buffer post) = 9%nat).
Proof.
  split.
  - intros X o width height spp Hre b r c' shading'.
    destruct (SetTarget7_calls width height spp o Hre) as [Hbuf Hcalls].
    fold r in Hbuf, Hcalls. fold c' in Hbuf, Hcalls.
    assert (Hpost : forall x,
      ~ In (@Optix7Filter.delete_buffer Optix7Filter.ViewPyramid x)
          ((Optix7Filter.new_buffer <$>
              Optix7Filter.allocated_buffers
                (Optix7Filter.new_buffers (Optix7Filter.maxPixels c') spp))
           ++ [Optix7Filter.stageDebugData;
               Optix7Filter.printf "buffers resized for %i pixels @ %i samples.";
               Optix7Filter.accumulator_Clear])).
    { intros x. rewrite in_app_iff, in_map_iff. cbn [In].
      intros [(y & Hy & _)|[H|[H|[H|[]]]]]; discriminate. }
    split; [|split].
    + eexists. split; [exact Hcalls|]. split; [exact Hpost|].
      split; [reflexivity|].
      rewrite in_app_iff. left. cbn. do 5 right. left. reflexivity.
    + intros x. rewrite Hcalls. rewrite !in_app_iff, in_map_iff. cbn [In].
      split.
      * intros [[H|[H|[]]]|[(y & Hy & Hin)|H]]; try discriminate H.
        -- injection Hy as ->. exact Hin.
        -- exfalso. apply (Hpost x). apply in_app_iff. exact H.
      * intros Hin. right. left. exists x. split; [reflexivity|exact Hin].
    + rewrite Hbuf. reflexivity.
  - intros X o width height spp Hre b r.
    destruct (SetTargetP_calls width height spp o Hre) as [_ Hcalls].
    fold r in Hcalls.
    eexists. split.
    { rewrite Hcalls.
      destruct (OptixPrimePBRT.maxPixels (OptixPrimePBRT.this o) =? 0);
        reflexivity. }
    split.
    + intros x. rewrite in_app_iff. unfold OptixPrimePBRT.allocations.
      rewrite !in_app_iff, !in_map_iff. cbn [In].
      intros H.
      repeat match goal with
             | H : _ \/ _ |- _ => destruct H as [H|H]
             | H : exists _, _ |- _ => destruct H as (? & H & _)
             | H : False |- _ => destruct H
             end; discriminate H.
    + reflexivity.
Qed.

(** Resizing the 4 by 4 target to 8 by 8: the old shading buffer, of 34
    entries, is not deleted. *)
Lemma SetTarget_deleted_buffers_witness :
  let X := Examples.X7 3 (fun n => n / 2) 1 in
  let o := Examples.obj7_4x4 3 (fun n => n / 2) 1 in
  let b := Optix7Filter.buffers (Optix7Filter.this o) in
  let r := @Optix7Filter.SetTarget X 8 8 1 o in
  Optix7Filter.SetTarget_reallocate 8 8 1 (Optix7Filter.this o) = true
  /\ Optix7Filter.shading b
     = Some (Optix7Filter.mkBuffer Optix7Filter.shading_site 34)
  /\ ~ In (Optix7Filter.delete_buffer (Optix7Filter.shading b)) (calls r)
  /\ Optix7Filter.shading (Optix7Filter.buffers (Optix7Filter.this (state r)))
     = Some (Optix7Filter.mkBuffer Optix7Filter.shading_site 136).
Proof.
  intros X o b r.
  destruct (proj1 SetTarget_deleted_buffers X o 8 8 1 eq_refl)
    as (_ & Hdel & Hsh).
  split; [reflexivity|]. split; [reflexivity|]. split; [|exact Hsh].
  intros Hin. apply Hdel in Hin. vm_compute in Hin.
  repeat (destruct Hin as [Hin|Hin]; [discriminate Hin|]). exact Hin.
Defined.

(** * Scene data of the Optix7Filter core *)

Section Optix7FilterSceneFacts.
Import Optix7Filter Optix7FilterScene.
Context {X : Externals} {SX : SceneExternals}.

Lemma SetGeometry_defined meshIdx g (ms : list CoreMesh) :
  0 <= meshIdx <= Z.of_nat (length ms) ->
  Z.of_nat (length ms) < 2 ^ 63 ->
  let i := Z.to_nat meshIdx in
  exists ms',
    SetGeometry meshIdx g ms = Some (ms', [CoreMesh_SetGeometry i])
    /\ length ms' = Nat.max (length ms) (i + 1)
    /\ ms' !! i = Some (CoreMesh_set g (default new_CoreMesh (ms !! i)))
    /\ (forall j, j <> i -> ms' !! j = ms !! j).
Proof.
  intros Hidx Hlen i. unfold SetGeometry.
  rewrite size_t_of_int_small by lia. fold i.
  destruct (Z.leb_spec (Z.of_nat (length ms)) meshIdx) as [Hge|Hlt].
  - assert (Hi : i = length ms) by lia.
    rewrite Hi, list_lookup_middle by reflexivity. cbn [mbind option_bind].
    eexists. split; [reflexivity|].
    rewrite length_insert, length_app.
    rewrite (lookup_ge_None_2 ms (length ms)) by (apply Nat.le_refl).
    cbn [default length]. split; [lia|]. split.
    + rewrite list_lookup_insert_eq; [reflexivity|]. rewrite length_app. cbn. lia.
    + intros j Hj. rewrite list_lookup_insert_ne by lia.
      destruct (Nat.lt_ge_cases j (length ms)).
      * rewrite lookup_app_l by lia. reflexivity.
      * rewrite !lookup_ge_None_2; [reflexivity|lia|rewrite length_app; cbn; lia].
  - assert (Hi : (i < length ms)%nat) by lia.
    destruct (lookup_lt_is_Some_2 ms i Hi) as [m Hm].
    rewrite Hm. cbn [mbind option_bind default].
    eexists. split; [reflexivity|].
    rewrite length_insert. split; [lia|]. split.
    + rewrite list_lookup_insert_eq by lia. reflexivity.
    + intros j Hj. rewrite list_lookup_insert_ne by lia. reflexivity.
Qed.

Lemma SetGeometry_undefined meshIdx g (ms : list CoreMesh) :
  - 2 ^ 63 <= meshIdx < 2 ^ 63 ->
  Z.of_nat (length ms) < 2 ^ 63 ->
  meshIdx < 0 \/ Z.of_nat (length ms) < meshIdx ->
  SetGeometry meshIdx g ms = None.
Proof.
  intros Hrange Hlen Hout. unfold SetGeometry.
  assert (Hbig : Z.of_nat (length ms) < size_t_of_int meshIdx).
  { destruct Hout as [Hneg|Hgt].
    - pose proof (size_t_of_int_negative meshIdx ltac:(lia)). lia.
    - rewrite size_t_of_int_small by lia. lia. }
  destruct (Z.leb_spec (Z.of_nat (length ms)) (size_t_of_int meshIdx)); [|lia].
  rewrite lookup_ge_None_2; [reflexivity|].
  rewrite length_app. cbn. lia.
Qed.


Lemma int_of_size_t_small (z : Z) : 0 <= z < 2 ^ 31 -> int_of_size_t z = z.
Proof.
  intros Hz. unfold int_of_size_t. rewrite Z.mod_small by lia.
  destruct (Z.ltb_spec z (2 ^ 31)); [reflexivity|lia].
Qed.

(** The copy loop runs through when every instance names a mesh of the
    vector and the host array has room; it refreshes the handles and
    writes the descriptors to the slots [i], [i + 1], ... *)
Lemma copy_instances_spec (ms : list CoreMesh) (insts : list CoreInstance) :
  forall (i : nat) (host : list OptixInstance),
    Forall (fun inst => is_Some (ms !! Z.to_nat (size_t_of_int (mesh inst)))) insts ->
    (i + length insts <= length host)%nat ->
    exists insts' host',
      copy_instances ms insts i host = Some (insts', host')
      /\ Forall2 (fun a b => refresh_handle ms a = Some b) insts insts'
      /\ length host' = length host
      /\ (forall k inst', insts' !! k = Some inst' ->
            host' !! (i + k)%nat = Some (instance inst'))
      /\ (forall j, (j < i)%nat -> host' !! j = host !! j).
Proof.
  induction insts as [|inst rest IH]; intros i host Hvalid Hroom.
  - exists [], host. cbn. repeat split; try constructor.
    intros k inst' Hk. discriminate Hk.
  - apply Forall_cons in Hvalid as [[m Hm] Hrest]. cbn [length] in Hroom.
    cbn [copy_instances]. unfold refresh_handle at 1. rewrite Hm.
    cbn [mbind option_bind].
    destruct (lookup_lt_is_Some_2 host i ltac:(lia)) as [h Hh].
    rewrite Hh. cbn [mbind option_bind].
    set (inst' := mkInstance _ (transform inst) (mesh inst)).
    destruct (IH (S i) (<[i := instance inst']> host) Hrest
                ltac:(rewrite length_insert; lia))
      as (insts' & host' & Hcopy & Hall & Hlen & Hslots & Hlow).
    rewrite Hcopy. cbn [mbind option_bind fst snd].
    exists (inst' :: insts'), host'. split; [reflexivity|].
    split.
    { constructor; [|exact Hall]. unfold refresh_handle. rewrite Hm. reflexivity. }
    split; [rewrite Hlen, length_insert; reflexivity|].
    split.
    + intros [|k] x Hx.
      * injection Hx as <-. rewrite Nat.add_0_r, Hlow by lia.
        rewrite list_lookup_insert_eq by lia. reflexivity.
      * replace (i + S k)%nat with (S i + k)%nat by lia. apply Hslots. exact Hx.
    + intros j Hj. rewrite Hlow by lia. rewrite list_lookup_insert_ne by lia.
      reflexivity.
Qed.

Lemma copy_instances_valid (ms : list CoreMesh) (insts : list CoreInstance) :
  forall (i : nat) (host : list OptixInstance) r,
    copy_instances ms insts i host = Some r ->
    Forall (fun inst => is_Some (ms !! Z.to_nat (size_t_of_int (mesh inst)))) insts.
Proof.
  induction insts as [|inst rest IH]; intros i host r Hr; [constructor|].
  cbn [copy_instances] in Hr. unfold refresh_handle at 1 in Hr.
  destruct (ms !! _) as [m|] eqn:Hm; [|discriminate Hr].
  cbn [mbind option_bind] in Hr.
  destruct (host !! i); [|discriminate Hr]. cbn [mbind option_bind] in Hr.
  destruct (copy_instances ms rest _ _) as [r'|] eqn:Hcopy; [|discriminate Hr].
  constructor; [exists m; exact Hm|]. exact (IH _ _ _ Hcopy).
Qed.


Lemma refresh_handle_mesh (ms : list CoreMesh) (a b : CoreInstance) :
  refresh_handle ms a = Some b ->
  mesh b = mesh a /\ transform b = transform a
  /\ exists m, ms !! Z.to_nat (size_t_of_int (mesh a)) = Some m
              /\ oi_traversableHandle (instance b) = gasHandle m.
Proof.
  unfold refresh_handle. destruct (ms !! _) as [m|]; [|discriminate].
  cbn [mbind option_bind]. intros [= <-]. cbn. repeat split.
  exists m. split; reflexivity.
Qed.

Lemma FinalizeInstances_defined (c : CoreData) (sd : SceneData) :
  let n := Z.of_nat (length (instances c)) in
  let size := ia_size (instanceArray sd) in
  n < 2 ^ 31 ->
  0 <= size < 2 ^ 63 ->
  length (ia_host (instanceArray sd)) = Z.to_nat size ->
  Forall (fun inst =>
            is_Some (meshes c !! Z.to_nat (size_t_of_int (mesh inst))))
         (instances c) ->
  exists c' sd' e,
    FinalizeInstances c sd = Some (c', sd', e)
    /\ gpuHasSceneData c' = true
    /\ Forall2 (fun a b => refresh_handle (meshes c) a = Some b)
               (instances c) (instances c')
    /\ ia_size (instanceArray sd') = (if size <? n then n + 4 else size)
    /\ length (ia_host (instanceArray sd'))
       = Z.to_nat (ia_size (instanceArray sd'))
    /\ (forall k inst', instances c' !! k = Some inst' ->
          ia_host (instanceArray sd') !! k = Some (instance inst'))
    /\ meshes c' = meshes c.
Proof.
  intros n size Hn Hsize Hhost Hvalid. unfold FinalizeInstances. cbv zeta.
  rewrite (size_t_of_int_small (ia_size (instanceArray sd))) by exact Hsize.
  rewrite (int_of_size_t_small (Z.of_nat (length (instances c)))) by lia.
  rewrite Nat2Z.id, firstn_all, drop_all. fold n size.
  set (ia := if size <? n then _ else instanceArray sd).
  assert (Hia : ia_size ia = (if size <? n then n + 4 else size)
                /\ length (ia_host ia) = Z.to_nat (ia_size ia)
                /\ (length (instances c) <= length (ia_host ia))%nat).
  { subst ia. destruct (Z.ltb_spec size n); cbn [ia_size ia_host].
    - rewrite length_replicate. repeat split; lia.
    - fold size. rewrite Hhost. repeat split; lia. }
  destruct Hia as (Hia_size & Hia_len & Hroom).
  destruct (copy_instances_spec (meshes c) (instances c) 0 (ia_host ia)
              Hvalid ltac:(cbn; lia))
    as (insts' & host' & Hcopy & Hall & Hlen & Hslots & _).
  rewrite Hcopy. cbn [mbind option_bind fst snd]. rewrite app_nil_r.
  assert (Hdescs : exists descs,
            mapM (instance_desc (meshes c)) insts' = Some descs
            /\ length descs = length (instances c)).
  { assert (Hsome : is_Some (mapM (instance_desc (meshes c)) insts')).
    { apply mapM_is_Some. apply Forall_forall. intros b Hb.
      apply list_elem_of_lookup in Hb as [k Hk].
      destruct (Forall2_lookup_r _ _ _ _ _ Hall Hk) as (a & Ha & Hab).
      destruct (refresh_handle_mesh _ _ _ Hab) as (Hmesh & _ & m & Hm & _).
      unfold compose, instance_desc. rewrite Hmesh, Hm. eexists. reflexivity. }
    destruct Hsome as [descs Hdescs]. exists descs. split; [exact Hdescs|].
    apply length_mapM in Hdescs. rewrite <- Hdescs.
    symmetry. exact (Forall2_length _ _ _ Hall). }
  destruct Hdescs as (descs & Hdescs & Hdlen).
  destruct (instancesDirty sd).
  - rewrite Hdescs. cbn [mbind option_bind].
    match goal with |- context [Z.of_nat (length descs) <=? idb_size ?b] =>
      assert (Hfit : Z.of_nat (length descs) <= idb_size b) end.
    { rewrite Hdlen. fold n. destruct (instDescBuffer sd) as [b|]; cbn.
      - destruct (Z.ltb_spec (idb_size b) n); cbn; lia.
      - lia. }
    destruct (Z.leb_spec (Z.of_nat (length descs)) (idb_size
      (if match instDescBuffer sd with
          | Some b => idb_size b <? n
          | None => true
          end
       then mkDescBuffer (n * 2) []
       else default (mkDescBuffer 0 []) (instDescBuffer sd)))); [|lia].
    cbn [mbind option_bind fst snd].
    eexists _, _, _. split; [reflexivity|].
    cbn [instanceArray ia_size ia_host]. destruct c. cbn.
    repeat split;
      first [ assumption | rewrite Hlen; exact Hia_len
            | intros k inst' Hk; exact (Hslots k inst' Hk) ].
  - cbn [mbind option_bind fst snd].
    eexists _, _, _. split; [reflexivity|].
    cbn [instanceArray ia_size ia_host]. destruct c. cbn.
    repeat split;
      first [ assumption | rewrite Hlen; exact Hia_len
            | intros k inst' Hk; exact (Hslots k inst' Hk) ].
Qed.

Lemma FinalizeInstances_valid (c : CoreData) (sd : SceneData) r :
  Z.of_nat (length (instances c)) < 2 ^ 31 ->
  FinalizeInstances c sd = Some r ->
  Forall (fun inst =>
            is_Some (meshes c !! Z.to_nat (size_t_of_int (mesh inst))))
         (instances c).
Proof.
  intros Hn. unfold FinalizeInstances. cbv zeta.
  rewrite (int_of_size_t_small (Z.of_nat (length (instances c)))) by lia.
  rewrite Nat2Z.id, firstn_all.
  destruct (copy_instances _ _ _ _) as [r'|] eqn:Hcopy; [|discriminate].
  intros _. exact (copy_instances_valid _ _ _ _ _ Hcopy).
Qed.

End Optix7FilterSceneFacts.

Section Optix7FilterSceneRender.
Import Optix7Filter Optix7FilterScene.
Context {X : Externals} {SX : SceneExternals}.

(** Whenever [FinalizeInstances] returns, rendering is allowed, and
    nothing of the core object but the instances and that flag has
    changed. *)
Lemma FinalizeInstances_flag (c c' : CoreData) (sd sd' : SceneData) e :
  FinalizeInstances c sd = Some (c', sd', e) ->
  gpuHasSceneData c' = true
  /\ set_gpuHasSceneData true (set_instances [] c')
     = set_gpuHasSceneData true (set_instances [] c).
Proof.
  unfold FinalizeInstances. cbv zeta.
  destruct (copy_instances _ _ _ _) as [r|]; [|discriminate].
  cbn [mbind option_bind].
  match goal with |- context [if instancesDirty sd then ?a else ?b] =>
    destruct (if instancesDirty sd then a else b) as [r2|] end; [|discriminate].
  cbn [mbind option_bind]. intros [= <- _ _]. destruct c. split; reflexivity.
Qed.

Lemma Render_starts (s : Sys) v converge async :
  gpuHasSceneData (core s) = true ->
  exists rest,
    calls (Render v converge async s) = glFinish :: pushStagedCopies :: rest.
Proof.
  intros Hd. destruct async.
  - rewrite (Render_async_eq s v converge Hd). eexists. reflexivity.
  - rewrite (Render_sync_eq s v converge Hd). eexists. reflexivity.
Qed.

End Optix7FilterSceneRender.

(** [SetGeometry] of the Optix7Filter core: meshes are set in place or
    appended one at a time.  For [meshIdx] from 0 to the number of meshes
    the call is defined, makes one call of [CoreMesh::SetGeometry], leaves
    a vector of the old length or one more, and touches no other mesh; a
    negative [meshIdx], or one beyond the number of meshes, subscripts
    the vector out of range. *)
Theorem Optix7Filter_SetGeometry (X : Optix7Filter.Externals)
    (SX : Optix7FilterScene.SceneExternals) meshIdx g
    (ms : list Optix7Filter.CoreMesh) :
  - 2 ^ 31 <= meshIdx < 2 ^ 31 ->
  Z.of_nat (length ms) < 2 ^ 31 ->
  let i := Z.to_nat meshIdx in
  (0 <= meshIdx <= Z.of_nat (length ms) ->
   exists ms',
     Optix7FilterScene.SetGeometry meshIdx g ms
     = Some (ms', [Optix7FilterScene.CoreMesh_SetGeometry i])
     /\ length ms' = Nat.max (length ms) (i + 1)
     /\ ms' !! i = Some (Optix7FilterScene.CoreMesh_set g
                           (default Optix7FilterScene.new_CoreMesh (ms !! i)))
     /\ (forall j, j <> i -> ms' !! j = ms !! j))
  /\ (meshIdx < 0 \/ Z.of_nat (length ms) < meshIdx ->
      Optix7FilterScene.SetGeometry meshIdx g ms = None).
Proof.
  intros Hidx Hlen i. split.
  - intros Hin. apply SetGeometry_defined; lia.
  - intros Hout. apply SetGeometry_undefined; [lia|lia|exact Hout].
Qed.

(** Setting mesh 2 of two meshes appends it; setting mesh 3 of two is
    out of range. *)
Lemma Optix7Filter_SetGeometry_witness :
  let ms := [Optix7Filter.mkMesh 100; Optix7Filter.mkMesh 200] in
  (exists ms',
      @Optix7FilterScene.SetGeometry Examples.SX7 2 300 ms
      = Some (ms', [Optix7FilterScene.CoreMesh_SetGeometry 2])
      /\ length ms' = 3%nat
      /\ ms' !! 2%nat = Some (Optix7Filter.mkMesh 300))
  /\ @Optix7FilterScene.SetGeometry Examples.SX7 3 300 ms = None.
Proof.
  intros ms.
  assert (H2 : - 2 ^ 31 <= 2 < 2 ^ 31) by lia.
  assert (H3 : - 2 ^ 31 <= 3 < 2 ^ 31) by lia.
  assert (Hl : Z.of_nat (length ms) < 2 ^ 31) by (cbn; lia).
  destruct (Optix7Filter_SetGeometry (Examples.X7 3 (fun n => n / 2) 1)
              Examples.SX7 2 300 ms H2 Hl) as [Hdef _].
  destruct (Optix7Filter_SetGeometry (Examples.X7 3 (fun n => n / 2) 1)
              Examples.SX7 3 300 ms H3 Hl) as [_ Hundef].
  split.
  - destruct (Hdef ltac:(cbn; lia)) as (ms' & Heq & Hlen & Hat & _).
    exists ms'. split; [exact Heq|]. split; [exact Hlen|exact Hat].
  - apply Hundef. right. cbn. lia.
Defined.

(** [FinalizeInstances] of the Optix7Filter core, for fewer than 2^31
    instances and an instance array whose host copy has its size.  It is
    defined exactly when every instance names a mesh of the mesh vector.
    Then rendering is allowed; every instance carries the handle of its
    mesh and is otherwise as before; the instance array is replaced by
    one of [n + 4] entries when it was smaller than the [n] instances and
    is kept otherwise; and its first [n] host entries are the descriptors
    of the instances. *)
Theorem Optix7Filter_FinalizeInstances (X : Optix7Filter.Externals)
    (SX : Optix7FilterScene.SceneExternals)
    (c : Optix7Filter.CoreData) (sd : Optix7FilterScene.SceneData) :
  let n := Z.of_nat (length (Optix7Filter.instances c)) in
  let size := Optix7FilterScene.ia_size (Optix7FilterScene.instanceArray sd) in
  let named inst :=
    is_Some (Optix7Filter.meshes c
               !! Z.to_nat (size_t_of_int (Optix7Filter.mesh inst))) in
  n < 2 ^ 31 ->
  0 <= size < 2 ^ 63 ->
  length (Optix7FilterScene.ia_host (Optix7FilterScene.instanceArray sd))
  = Z.to_nat size ->
  (is_Some (Optix7FilterScene.FinalizeInstances c sd) <->
   Forall named (Optix7Filter.instances c))
  /\ (forall c' sd' e,
        Optix7FilterScene.FinalizeInstances c sd = Some (c', sd', e) ->
        let ia' := Optix7FilterScene.instanceArray sd' in
        Optix7Filter.gpuHasSceneData c' = true
        /\ Forall2 (fun a b =>
                      Optix7Filter.mesh b = Optix7Filter.mesh a
                      /\ Optix7Filter.transform b = Optix7Filter.transform a
                      /\ exists m,
                           Optix7Filter.meshes c
                             !! Z.to_nat (size_t_of_int (Optix7Filter.mesh a))
                           = Some m
                           /\ Optix7Filter.oi_traversableHandle
                                (Optix7Filter.instance b)
                              = Optix7Filter.gasHandle m)
                   (Optix7Filter.instances c) (Optix7Filter.instances c')
        /\ Optix7FilterScene.ia_size ia' = (if size <? n then n + 4 else size)
        /\ n <= Optix7FilterScene.ia_size ia'
        /\ length (Optix7FilterScene.ia_host ia')
           = Z.to_nat (Optix7FilterScene.ia_size ia')
        /\ (forall k inst',
              Optix7Filter.instances c' !! k = Some inst' ->
              Optix7FilterScene.ia_host ia' !! k
              = Some (Optix7Filter.instance inst'))).
Proof.
  intros n size named Hn Hsize Hhost. split.
  - split.
    + intros [r Hr]. exact (FinalizeInstances_valid c sd r Hn Hr).
    + intros Hvalid.
      destruct (FinalizeInstances_defined c sd Hn Hsize Hhost Hvalid)
        as (c' & sd' & e & Heq & _).
      rewrite Heq. eexists. reflexivity.
  - intros c' sd' e Heq ia'.
    pose proof (FinalizeInstances_valid c sd _ Hn Heq) as Hvalid.
    destruct (FinalizeInstances_defined c sd Hn Hsize Hhost Hvalid)
      as (c2 & sd2 & e2 & Heq2 & Hflag & Hall & Hsz & Hlen & Hslots & _).
    rewrite Heq in Heq2. injection Heq2 as <- <- <-.
    split; [exact Hflag|]. split.
    { eapply Forall2_impl; [exact Hall|]. intros a b Hab.
      exact (refresh_handle_mesh _ _ _ Hab). }
    split; [exact Hsz|]. split.
    { subst ia'. rewrite Hsz. fold size n. destruct (Z.ltb_spec size n); lia. }
    split; [exact Hlen|exact Hslots].
Qed.

(** Two instances, of mesh 200 and of mesh 100, in an array of 16. *)
Lemma Optix7Filter_FinalizeInstances_witness :
  let c := Examples.core7_scene in
  match @Optix7FilterScene.FinalizeInstances _ Examples.SX7 c Examples.scene7
  with
  | Some (c', sd', e) =>
      Optix7Filter.gpuHasSceneData c' = true
      /\ Optix7FilterScene.ia_size (Optix7FilterScene.instanceArray sd') = 16
      /\ length (Optix7Filter.instances c') = 2%nat
  | None => False
  end.
Proof.
  intros c.
  assert (Hn : Z.of_nat (length (Optix7Filter.instances c)) < 2 ^ 31)
    by (vm_compute; reflexivity).
  assert (Hsize : 0 <= Optix7FilterScene.ia_size
                         (Optix7FilterScene.instanceArray Examples.scene7)
                  < 2 ^ 63) by (vm_compute; split; [discriminate|reflexivity]).
  destruct (Optix7Filter_FinalizeInstances _ Examples.SX7 c Examples.scene7
              Hn Hsize eq_refl) as [Hiff Hres].
  assert (Hnamed : Forall
            (fun inst => is_Some (Optix7Filter.meshes c
               !! Z.to_nat (size_t_of_int (Optix7Filter.mesh inst))))
            (Optix7Filter.instances c)).
  { set (l := Optix7Filter.instances c). vm_compute in l. subst l.
    repeat constructor; vm_compute; eexists; reflexivity. }
  destruct (proj2 Hiff Hnamed) as [[[c' sd'] e] Hr].
  rewrite Hr. destruct (Hres c' sd' e Hr) as (Hflag & Hall & Hsz & _).
  split; [exact Hflag|]. split; [exact Hsz|].
  rewrite <- (Forall2_length _ _ _ Hall). reflexivity.
Defined.

(** [FinalizeInstances] is what allows rendering in the Optix7Filter
    core: on the core object it returns, [Render] starts its frame,
    synchronous or not, whatever it did before. *)
Theorem Optix7Filter_FinalizeInstances_enables_Render
    (X : Optix7Filter.Externals) (SX : Optix7FilterScene.SceneExternals)
    (s : Optix7Filter.Sys) (sd sd' : Optix7FilterScene.SceneData)
    c' e v converge async :
  Optix7FilterScene.FinalizeInstances (Optix7Filter.core s) sd
  = Some (c', sd', e) ->
  let s' := Optix7Filter.mkSys c' (Optix7Filter.renderThread s)
              (Optix7Filter.startEvent s) (Optix7Filter.doneEvent s)
              (Optix7Filter.env s) in
  (Optix7Filter.gpuHasSceneData (Optix7Filter.core s) = false ->
   calls (Optix7Filter.Render v converge async s) = [])
  /\ exists rest,
       calls (Optix7Filter.Render v converge async s')
       = Optix7Filter.glFinish :: Optix7Filter.pushStagedCopies :: rest.
Proof.
  intros Heq s'. split.
  - intros Hno. unfold Optix7Filter.Render. rewrite calls_bind.
    cbn [get calls result state fst snd app]. rewrite Hno. reflexivity.
  - apply Render_starts. exact (proj1 (FinalizeInstances_flag _ _ _ _ _ Heq)).
Qed.

Lemma Optix7Filter_FinalizeInstances_enables_Render_witness :
  let X := Examples.X7 3 (fun n => n / 2) 1 in
  let s := @Optix7Filter.mkSys X Examples.core7_scene
             (@Optix7Filter.mkThread X Examples.core7_scene tt) false false
             (Optix7Filter.shared (Examples.obj7_4x4 3 (fun n => n / 2) 1)) in
  match @Optix7FilterScene.FinalizeInstances X Examples.SX7
          (Optix7Filter.core s) Examples.scene7 with
  | Some (c', sd', e) =>
      calls (@Optix7Filter.Render X tt Restart false s) = []
      /\ exists rest,
           calls (@Optix7Filter.Render X tt Restart false
                    (Optix7Filter.mkSys c' (Optix7Filter.renderThread s)
                       (Optix7Filter.startEvent s) (Optix7Filter.doneEvent s)
                       (Optix7Filter.env s)))
           = Optix7Filter.glFinish :: Optix7Filter.pushStagedCopies :: rest
  | None => False
  end.
Proof.
  intros X s.
  assert (Hsome : is_Some (@Optix7FilterScene.FinalizeInstances X Examples.SX7
                             (Optix7Filter.core s) Examples.scene7)).
  { apply (bool_decide_unpack _). vm_compute. exact I. }
  destruct Hsome as [[[c' sd'] e] Hr]. rewrite Hr.
  destruct (Optix7Filter_FinalizeInstances_enables_Render X Examples.SX7 s
              Examples.scene7 sd' c' e tt Restart false Hr) as [Hno Hyes].
  split; [exact (Hno eq_refl)|exact Hyes].
Defined.

Section Optix7FilterLights.
Import Optix7Filter Optix7FilterScene.
Context {X : Externals} {SX : SceneExternals}.

Lemma StagedBufferResize_spec k (b : option Z) n :
  0 <= n ->
  exists e,
    StagedBufferResize k b n
    = Some (match b with None => n | Some s => Z.max s n end, e)
    /\ (In (new_lightBuffer k n) e <->
        match b with None => True | Some s => s < n end)
    /\ (forall k' m, In (new_lightBuffer k' m) e -> k' = k).
Proof.
  intros Hn. unfold StagedBufferResize.
  destruct (Z.ltb_spec n 0); [lia|].
  destruct b as [s|]; cbn [default].
  - destruct (Z.ltb_spec s n).
    + eexists. split; [rewrite Z.max_r by lia; reflexivity|]. cbn. split.
      * split; [intros _; assumption|intros _; right; left; reflexivity].
      * intros k' m [Hc|[Hc|[Hc|[Hc|[]]]]]; try discriminate Hc.
        injection Hc as -> ->. reflexivity.
    + eexists. split; [rewrite Z.max_l by lia; reflexivity|]. cbn. split.
      * split; [intros [Hc|[Hc|[]]]; discriminate Hc|lia].
      * intros k' m [Hc|[Hc|[]]]; discriminate Hc.
  - eexists. split; [reflexivity|]. cbn. split.
    + split; [trivial|intros _; right; left; reflexivity].
    + intros k' m [Hc|[Hc|[Hc|[Hc|[]]]]]; try discriminate Hc.
      injection Hc as -> ->. reflexivity.
Qed.

Lemma StagedBufferResize_negative k (b : option Z) n :
  n < 0 -> StagedBufferResize k b n = None.
Proof.
  intros Hn. unfold StagedBufferResize.
  destruct (Z.ltb_spec n 0); [reflexivity|lia].
Qed.

End Optix7FilterLights.

(** [SetLights] of the Optix7Filter core, for counts that are not
    negative: every light buffer is there afterwards and is large enough
    for its count, a buffer is allocated anew exactly when it was missing
    or too small and is kept otherwise (buffers never shrink), and
    [noDirectLightsInScene] is set exactly when all four counts are zero.
    A negative count makes the call undefined. *)
Theorem Optix7Filter_SetLights (X : Optix7Filter.Externals)
    (SX : Optix7FilterScene.SceneExternals)
    tri point spot dir (c : Optix7Filter.CoreData)
    (l : Optix7FilterScene.LightBuffers) :
  let grown (b : option Z) n :=
    match b with None => n | Some s => Z.max s n end in
  let small (b : option Z) n :=
    match b with None => True | Some s => s < n end in
  (0 <= tri -> 0 <= point -> 0 <= spot -> 0 <= dir ->
   tri + point + spot + dir < 2 ^ 31 ->
   exists e,
     Optix7FilterScene.SetLights tri point spot dir c l
     = Some (Optix7FilterScene.set_noDirectLightsInScene
               (bool_decide (tri = 0 /\ point = 0 /\ spot = 0 /\ dir = 0)) c,
             Optix7FilterScene.mkLights
               (Some (grown (Optix7FilterScene.triLightBuffer l) tri))
               (Some (grown (Optix7FilterScene.pointLightBuffer l) point))
               (Some (grown (Optix7FilterScene.spotLightBuffer l) spot))
               (Some (grown (Optix7FilterScene.directionalLightBuffer l) dir)),
             e)
     /\ (In (Optix7FilterScene.new_lightBuffer Optix7FilterScene.TriLight tri) e
         <-> small (Optix7FilterScene.triLightBuffer l) tri)
     /\ (In (Optix7FilterScene.new_lightBuffer Optix7FilterScene.PointLight point) e
         <-> small (Optix7FilterScene.pointLightBuffer l) point)
     /\ (In (Optix7FilterScene.new_lightBuffer Optix7FilterScene.SpotLight spot) e
         <-> small (Optix7FilterScene.spotLightBuffer l) spot)
     /\ (In (Optix7FilterScene.new_lightBuffer
               Optix7FilterScene.DirectionalLight dir) e
         <-> small (Optix7FilterScene.directionalLightBuffer l) dir))
  /\ (tri < 0 \/ point < 0 \/ spot < 0 \/ dir < 0 ->
      Optix7FilterScene.SetLights tri point spot dir c l = None).
Proof.
  intros grown small. split.
  - intros Ht Hp Hs Hd Hsum. unfold Optix7FilterScene.SetLights.
    destruct (StagedBufferResize_spec Optix7FilterScene.TriLight
                (Optix7FilterScene.triLightBuffer l) tri Ht)
      as (et & -> & Hnt & Hkt).
    destruct (StagedBufferResize_spec Optix7FilterScene.PointLight
                (Optix7FilterScene.pointLightBuffer l) point Hp)
      as (ep & -> & Hnp & Hkp).
    destruct (StagedBufferResize_spec Optix7FilterScene.SpotLight
                (Optix7FilterScene.spotLightBuffer l) spot Hs)
      as (es & -> & Hns & Hks).
    destruct (StagedBufferResize_spec Optix7FilterScene.DirectionalLight
                (Optix7FilterScene.directionalLightBuffer l) dir Hd)
      as (ed & -> & Hnd & Hkd).
    cbn [mbind option_bind fst snd].
    destruct (Z.leb_spec (2 ^ 31) (tri + point + spot + dir)) as [Hge|_]; [lia|].
    replace (tri + point + spot + dir =? 0)
      with (bool_decide (tri = 0 /\ point = 0 /\ spot = 0 /\ dir = 0)).
    2:{ destruct (Z.eqb_spec (tri + point + spot + dir) 0).
        - apply bool_decide_eq_true_2. lia.
        - apply bool_decide_eq_false_2. lia. }
    eexists. split; [reflexivity|].
    assert (Hin : forall k n,
      In (Optix7FilterScene.new_lightBuffer k n)
         (et ++ [Optix7FilterScene.stageLights Optix7FilterScene.TriLight]
          ++ ep ++ [Optix7FilterScene.stageLights Optix7FilterScene.PointLight]
          ++ es ++ [Optix7FilterScene.stageLights Optix7FilterScene.SpotLight]
          ++ ed ++ [Optix7FilterScene.stageLights Optix7FilterScene.DirectionalLight]
          ++ [Optix7FilterScene.stageLightCounts tri point spot dir]) <->
      In (Optix7FilterScene.new_lightBuffer k n) et
      \/ In (Optix7FilterScene.new_lightBuffer k n) ep
      \/ In (Optix7FilterScene.new_lightBuffer k n) es
      \/ In (Optix7FilterScene.new_lightBuffer k n) ed).
    { intros k n. rewrite !in_app_iff. cbn [In]. split.
      - intros [H|[[H|[]]|[H|[[H|[]]|[H|[[H|[]]|[H|[[H|[]]|[H|[]]]]]]]]]];
          try discriminate H; tauto.
      - tauto. }
    repeat split.
    all: try (intros H; apply Hin in H;
              destruct H as [H|[H|[H|H]]];
              first [ apply Hnt; exact H | apply Hnp; exact H
                    | apply Hns; exact H | apply Hnd; exact H
                    | apply Hkt in H; discriminate H
                    | apply Hkp in H; discriminate H
                    | apply Hks in H; discriminate H
                    | apply Hkd in H; discriminate H ]).
    all: intros H; apply Hin;
      first [ left; apply Hnt; exact H
            | right; left; apply Hnp; exact H
            | right; right; left; apply Hns; exact H
            | right; right; right; apply Hnd; exact H ].
  - intros Hneg. unfold Optix7FilterScene.SetLights.
    destruct (Z.ltb_spec tri 0) as [Ht|Ht].
    { rewrite (StagedBufferResize_negative Optix7FilterScene.TriLight _ tri Ht). reflexivity. }
    destruct (StagedBufferResize_spec Optix7FilterScene.TriLight
                (Optix7FilterScene.triLightBuffer l) tri Ht) as (et & -> & _).
    cbn [mbind option_bind].
    destruct (Z.ltb_spec point 0) as [Hp|Hp].
    { rewrite (StagedBufferResize_negative Optix7FilterScene.PointLight _ point Hp). reflexivity. }
    destruct (StagedBufferResize_spec Optix7FilterScene.PointLight
                (Optix7FilterScene.pointLightBuffer l) point Hp) as (ep & -> & _).
    cbn [mbind option_bind].
    destruct (Z.ltb_spec spot 0) as [Hs|Hs].
    { rewrite (StagedBufferResize_negative Optix7FilterScene.SpotLight _ spot Hs). reflexivity. }
    destruct (StagedBufferResize_spec Optix7FilterScene.SpotLight
                (Optix7FilterScene.spotLightBuffer l) spot Hs) as (es & -> & _).
    cbn [mbind option_bind].
    rewrite (StagedBufferResize_negative Optix7FilterScene.DirectionalLight _ dir) by lia.
    reflexivity.
Qed.

(** Eight point lights into a buffer of four and a buffer of sixteen
    triangle lights reused for three. *)
Lemma Optix7Filter_SetLights_witness :
  let c := Examples.core7_scene in
  let l := Optix7FilterScene.mkLights (Some 16) (Some 4) None None in
  exists e,
    @Optix7FilterScene.SetLights _ 3 8 0 0 c l
    = Some (Optix7FilterScene.set_noDirectLightsInScene false c,
            Optix7FilterScene.mkLights (Some 16) (Some 8) (Some 0) (Some 0), e)
    /\ ~ In (Optix7FilterScene.new_lightBuffer Optix7FilterScene.TriLight 3) e
    /\ In (Optix7FilterScene.new_lightBuffer Optix7FilterScene.PointLight 8) e.
Proof.
  intros c l.
  destruct (proj1 (Optix7Filter_SetLights _ Examples.SX7 3 8 0 0 c l)
              ltac:(lia) ltac:(lia) ltac:(lia) ltac:(lia) ltac:(lia))
    as (e & Heq & Htri & Hpoint & _).
  exists e. split; [exact Heq|]. split.
  - intros Hin. apply Htri in Hin. cbn in Hin. lia.
  - apply Hpoint. cbn. lia.
Defined.

(** ** [UpdateToplevel] of the Optix7Filter core *)

Section Optix7FilterToplevel.
Import Optix7Filter Optix7FilterScene.
Context {X : Externals} {SX : SceneExternals}.

Lemma update_meshes_calls ms : forall i x,
  In x (update_meshes i ms).2 -> exists j, x = UpdateAccstruc j.
Proof.
  induction ms as [|m rest IH]; intros i x; cbn.
  - intros [].
  - destruct (accstrucNeedsUpdate m); cbn.
    + intros [<-|H]; [eexists; reflexivity | exact (IH _ _ H)].
    + apply IH.
Qed.

Lemma update_meshes_no_new ms i :
  (forall m, ~ In (new_temp m) (update_meshes i ms).2)
  /\ (forall m, ~ In (new_topBuffer m) (update_meshes i ms).2).
Proof.
  split; intros m H; apply update_meshes_calls in H as [j H]; discriminate H.
Qed.

Lemma UpdateToplevel_cases (c : CoreData) (st : AccelStatics) :
  let n := uint32 (Z.of_nat (length (instances c))) in
  let sizes := accel_sizes n in
  let um := update_meshes 0 (meshes c) in
  let growTemp := reservedTemp st <? sizes.1 in
  let growTop := reservedTop st <? sizes.2 in
  let rTemp := if growTemp then size_t_of_int (sizes.1 + 1024)
               else reservedTemp st in
  let rTop := if growTop then size_t_of_int (sizes.2 + 1024)
              else reservedTop st in
  let temp' := if growTemp then Some rTemp else temp st in
  let top' := if growTop then Some rTop else topBuffer st in
  UpdateToplevel c st
  = match temp', top' with
    | Some _, Some _ =>
        Some (set_meshes um.1 c, mkStatics rTemp rTop temp' top',
              um.2 ++ [optixAccelComputeMemoryUsage n]
              ++ (if growTemp then [delete_temp; new_temp rTemp] else [])
              ++ (if growTop then [delete_topBuffer; new_topBuffer rTop]
                  else [])
              ++ [optixAccelBuild n rTemp rTop])
    | _, _ => None
    end.
Proof.
  cbv zeta. unfold UpdateToplevel. cbv zeta.
  destruct (reservedTemp st <? (accel_sizes _).1);
    destruct (reservedTop st <? (accel_sizes _).2);
    destruct (temp st); destruct (topBuffer st); reflexivity.
Qed.

(** The allocations among the calls of [UpdateToplevel]. *)
Lemma UpdateToplevel_allocations (um2 : list SceneCall) (g1 g2 : bool)
    n r1 r2 :
  (forall m, ~ In (new_temp m) um2) ->
  (forall m, ~ In (new_topBuffer m) um2) ->
  let e := um2 ++ [optixAccelComputeMemoryUsage n]
           ++ (if g1 then [delete_temp; new_temp r1] else [])
           ++ (if g2 then [delete_topBuffer; new_topBuffer r2] else [])
           ++ [optixAccelBuild n r1 r2] in
  (forall m, In (new_temp m) e <-> g1 = true /\ m = r1)
  /\ (forall m, In (new_topBuffer m) e <-> g2 = true /\ m = r2)
  /\ In (optixAccelBuild n r1 r2) e.
Proof.
  intros Nt Nb e. subst e. split; [|split].
  - intros m. rewrite !in_app_iff. split.
    + intros [H|[H|[H|[H|H]]]].
      * destruct (Nt _ H).
      * destruct H as [H|[]]; discriminate H.
      * destruct g1; [|destruct H].
        destruct H as [H|[H|[]]]; [discriminate H|].
        injection H as ->. split; reflexivity.
      * destruct g2; [|destruct H].
        destruct H as [H|[H|[]]]; discriminate H.
      * destruct H as [H|[]]; discriminate H.
    + intros [-> ->]. right. right. left. right. left. reflexivity.
  - intros m. rewrite !in_app_iff. split.
    + intros [H|[H|[H|[H|H]]]].
      * destruct (Nb _ H).
      * destruct H as [H|[]]; discriminate H.
      * destruct g1; [|destruct H].
        destruct H as [H|[H|[]]]; discriminate H.
      * destruct g2; [|destruct H].
        destruct H as [H|[H|[]]]; [discriminate H|].
        injection H as ->. split; reflexivity.
      * destruct H as [H|[]]; discriminate H.
    + intros [-> ->]. right. right. right. left. right. left. reflexivity.
  - rewrite !in_app_iff. right. right. right. right. left. reflexivity.
Qed.

End Optix7FilterToplevel.

(** [UpdateToplevel] of the Optix7Filter core, for sizes reported by
    [optixAccelComputeMemoryUsage] that leave room for the 1024 bytes
    added to them.  The call is undefined exactly when a buffer is still
    null and is not allocated by this call (its reserve already covers
    the size).  Otherwise the reserves cover the sizes and have not
    shrunk, a buffer is allocated exactly when its reserve was too small
    (then with the size plus 1024 bytes), the build uses the new
    reserves, and calling the function again allocates nothing and
    leaves the reserves and buffers as they are. *)
Theorem Optix7Filter_UpdateToplevel (X : Optix7Filter.Externals)
    (SX : Optix7FilterScene.SceneExternals)
    (c : Optix7Filter.CoreData) (st : Optix7FilterScene.AccelStatics) :
  let n := uint32 (Z.of_nat (length (Optix7Filter.instances c))) in
  let sizes := Optix7FilterScene.accel_sizes n in
  0 <= sizes.1 < 2 ^ 64 - 1024 ->
  0 <= sizes.2 < 2 ^ 64 - 1024 ->
  (Optix7FilterScene.UpdateToplevel c st = None
   <-> (Optix7FilterScene.temp st = None
        /\ sizes.1 <= Optix7FilterScene.reservedTemp st)
       \/ (Optix7FilterScene.topBuffer st = None
           /\ sizes.2 <= Optix7FilterScene.reservedTop st))
  /\ forall c1 st1 e1,
       Optix7FilterScene.UpdateToplevel c st = Some (c1, st1, e1) ->
       sizes.1 <= Optix7FilterScene.reservedTemp st1
       /\ Optix7FilterScene.reservedTemp st
          <= Optix7FilterScene.reservedTemp st1
       /\ sizes.2 <= Optix7FilterScene.reservedTop st1
       /\ Optix7FilterScene.reservedTop st
          <= Optix7FilterScene.reservedTop st1
       /\ (forall m, In (Optix7FilterScene.new_temp m) e1
                     <-> Optix7FilterScene.reservedTemp st < sizes.1
                         /\ m = sizes.1 + 1024)
       /\ (forall m, In (Optix7FilterScene.new_topBuffer m) e1
                     <-> Optix7FilterScene.reservedTop st < sizes.2
                         /\ m = sizes.2 + 1024)
       /\ In (Optix7FilterScene.optixAccelBuild n
                (Optix7FilterScene.reservedTemp st1)
                (Optix7FilterScene.reservedTop st1)) e1
       /\ exists c2 e2,
            Optix7FilterScene.UpdateToplevel c1 st1 = Some (c2, st1, e2)
            /\ forall m, ~ In (Optix7FilterScene.new_temp m) e2
                         /\ ~ In (Optix7FilterScene.new_topBuffer m) e2.
Proof.
  intros n sizes H1 H2.
  assert (W1 : size_t_of_int (sizes.1 + 1024) = sizes.1 + 1024)
    by (unfold size_t_of_int; apply Z.mod_small; lia).
  assert (W2 : size_t_of_int (sizes.2 + 1024) = sizes.2 + 1024)
    by (unfold size_t_of_int; apply Z.mod_small; lia).
  split.
  - rewrite UpdateToplevel_cases. cbv zeta. fold n. fold sizes.
    destruct (Z.ltb_spec (Optix7FilterScene.reservedTemp st) sizes.1) as [G1|G1];
      destruct (Z.ltb_spec (Optix7FilterScene.reservedTop st) sizes.2) as [G2|G2];
      destruct (Optix7FilterScene.temp st);
      destruct (Optix7FilterScene.topBuffer st);
      split; intros H; try discriminate H; try reflexivity;
      try (left; split; [reflexivity | lia]);
      try (right; split; [reflexivity | lia]);
      destruct H as [[H ?]|[H ?]]; try discriminate H; lia.
  - intros c1 st1 e1 Heq.
    pose proof (update_meshes_no_new (Optix7Filter.meshes c) 0) as [Nt Nb].
    rewrite UpdateToplevel_cases in Heq. cbv zeta in Heq.
    fold n in Heq. fold sizes in Heq. rewrite W1, W2 in Heq.
    set (g1 := Optix7FilterScene.reservedTemp st <? sizes.1) in *.
    set (g2 := Optix7FilterScene.reservedTop st <? sizes.2) in *.
    set (r1 := if g1 then sizes.1 + 1024
               else Optix7FilterScene.reservedTemp st) in *.
    set (r2 := if g2 then sizes.2 + 1024
               else Optix7FilterScene.reservedTop st) in *.
    assert (G1 : g1 = true <-> Optix7FilterScene.reservedTemp st < sizes.1)
      by (apply Z.ltb_lt).
    assert (G2 : g2 = true <-> Optix7FilterScene.reservedTop st < sizes.2)
      by (apply Z.ltb_lt).
    assert (R1 : sizes.1 <= r1 /\ Optix7FilterScene.reservedTemp st <= r1).
    { subst r1 g1.
      destruct (Z.ltb_spec (Optix7FilterScene.reservedTemp st) sizes.1); lia. }
    assert (R2 : sizes.2 <= r2 /\ Optix7FilterScene.reservedTop st <= r2).
    { subst r2 g2.
      destruct (Z.ltb_spec (Optix7FilterScene.reservedTop st) sizes.2); lia. }
    destruct (if g1 then Some r1 else Optix7FilterScene.temp st)
      as [t1|] eqn:Et; [|discriminate Heq].
    destruct (if g2 then Some r2 else Optix7FilterScene.topBuffer st)
      as [t2|] eqn:Eb; [|discriminate Heq].
    injection Heq as <- <- <-.
    cbn [Optix7FilterScene.reservedTemp Optix7FilterScene.reservedTop].
    destruct (UpdateToplevel_allocations
                (Optix7FilterScene.update_meshes 0 (Optix7Filter.meshes c)).2
                g1 g2 n r1 r2 Nt Nb) as (At & Ab & Abuild).
    split; [apply R1|]. split; [apply R1|].
    split; [apply R2|]. split; [apply R2|].
    split.
    { intros m. rewrite At, G1. subst r1.
      split; intros [Hlt ->]; (split; [exact Hlt|]);
        apply G1 in Hlt; rewrite Hlt; reflexivity. }
    split.
    { intros m. rewrite Ab, G2. subst r2.
      split; intros [Hlt ->]; (split; [exact Hlt|]);
        apply G2 in Hlt; rewrite Hlt; reflexivity. }
    split; [exact Abuild|].
    rewrite UpdateToplevel_cases. cbv zeta.
    cbn [Optix7FilterScene.reservedTemp Optix7FilterScene.reservedTop
         Optix7FilterScene.temp Optix7FilterScene.topBuffer].
    change (Optix7Filter.instances (Optix7FilterScene.set_meshes _ c))
      with (Optix7Filter.instances c).
    fold n. fold sizes.
    destruct (Z.ltb_spec r1 sizes.1) as [?|_]; [lia|].
    destruct (Z.ltb_spec r2 sizes.2) as [?|_]; [lia|].
    eexists _, _. split; [reflexivity|].
    pose proof (update_meshes_no_new
                  (Optix7Filter.meshes
                     (Optix7FilterScene.set_meshes
                        (Optix7FilterScene.update_meshes 0
                           (Optix7Filter.meshes c)).1 c)) 0) as [Nt' Nb'].
    destruct (UpdateToplevel_allocations
                (Optix7FilterScene.update_meshes 0
                   (Optix7Filter.meshes
                      (Optix7FilterScene.set_meshes
                         (Optix7FilterScene.update_meshes 0
                            (Optix7Filter.meshes c)).1 c))).2
                false false n r1 r2 Nt' Nb') as (At' & Ab' & _).
    intros m. split; intros Hm.
    + apply At' in Hm as [Hm _]. discriminate Hm.
    + apply Ab' in Hm as [Hm _]. discriminate Hm.
Qed.

(** The first call for the two instances of the example scene: 128 and
    512 bytes are asked for, and both buffers are allocated, with 1152
    and 1536 bytes; a second call allocates nothing. *)
Lemma Optix7Filter_UpdateToplevel_witness :
  let c := Examples.core7_scene in
  let st := Optix7FilterScene.mkStatics 0 0 None None in
  match @Optix7FilterScene.UpdateToplevel _ Examples.SX7 c st with
  | Some (c1, st1, e1) =>
      In (Optix7FilterScene.new_temp 1152) e1
      /\ In (Optix7FilterScene.new_topBuffer 1536) e1
      /\ exists c2 e2,
           @Optix7FilterScene.UpdateToplevel _ Examples.SX7 c1 st1
           = Some (c2, st1, e2)
           /\ ~ In (Optix7FilterScene.new_temp 1152) e2
  | None => False
  end.
Proof.
  intros c st.
  assert (H1 : 0 <= 128 < 2 ^ 64 - 1024) by lia.
  assert (H2 : 0 <= 512 < 2 ^ 64 - 1024) by lia.
  destruct (Optix7Filter_UpdateToplevel _ Examples.SX7 c st H1 H2)
    as [Hnone Hsome].
  destruct (@Optix7FilterScene.UpdateToplevel _ Examples.SX7 c st)
    as [[[c1 st1] e1]|].
  - destruct (Hsome c1 st1 e1 eq_refl)
      as (_ & _ & _ & _ & Ht & Hb & _ & c2 & e2 & H2' & Hno).
    split; [|split].
    + apply Ht. split; [reflexivity|reflexivity].
    + apply Hb. split; [reflexivity|reflexivity].
    + exists c2, e2. split; [exact H2'|]. apply Hno.
  - destruct (proj1 Hnone eq_refl) as [[_ H]|[_ H]]; exact (H eq_refl).
Defined.
